(** * posts_scraper: a shallow embedding of the listing/post extraction pipeline

    The development follows [posts_scraper.py] function by function.  Python
    values are represented as follows.

    - [str] is [string]; every [ascii] stands for the code point of the same
      number, so the strings covered are those over U+0000 .. U+00FF.
    - A BeautifulSoup document is a [node] tree; navigation ([find],
      [find_all], [next_siblings], [find_next], [parent]) is computed from the
      document-order enumeration [walk] of the tree.
    - A call that may raise returns [option]; [None] is the raised exception.
    - The network is a state [World] threaded through [get_html].

    Library code ([str] methods, [re], [urllib.parse], [bs4], [datetime]) is
    modelled in the modules that come first; the functions of the script itself
    come after them, under the names they have in the script. *)

From Stdlib Require Import Ascii String List Bool Arith ZArith Lia.
From stdpp Require Import base gmap strings list.

Local Open Scope list_scope.

(** ** Python [str] *)

Module PyStr.

(** Code point of a character. *)
Definition ord (c : ascii) : nat := nat_of_ascii c.

Definition in_range (lo hi : nat) (c : ascii) : bool :=
  (lo <=? ord c) && (ord c <=? hi).

(** [str.isspace] on one character, which is also the class [\s] of [re]
    for [str] patterns: TAB..CR, FS..US, SPACE, NEL, NBSP. *)
Definition isspace (c : ascii) : bool :=
  in_range 9 13 c || in_range 28 32 c || (ord c =? 133) || (ord c =? 160).

(** The class [\d] of [re]: the decimal digits. *)
Definition isdigit (c : ascii) : bool := in_range 48 57 c.

Definition isupper_ascii (c : ascii) : bool := in_range 65 90 c.
Definition islower_ascii (c : ascii) : bool := in_range 97 122 c.
Definition isalpha_ascii (c : ascii) : bool := isupper_ascii c || islower_ascii c.

(** The class [\w] of [re]: alphanumeric code points and the underscore. *)
Definition isword (c : ascii) : bool :=
  isalpha_ascii c || isdigit c || (ord c =? 95)
  || (ord c =? 170) || (ord c =? 178) || (ord c =? 179) || (ord c =? 181)
  || (ord c =? 185) || (ord c =? 186) || in_range 188 190 c
  || in_range 192 214 c || in_range 216 246 c || in_range 248 255 c.

(** [str.lower] on one character. *)
Definition lower_char (c : ascii) : ascii :=
  if isupper_ascii c || (in_range 192 222 c && negb (ord c =? 215))
  then ascii_of_nat (ord c + 32) else c.

Fixpoint lower (s : string) : string :=
  match s with
  | "" => ""
  | String c s' => String (lower_char c) (lower s')
  end.

(** [not s] *)
Definition is_empty (s : string) : bool :=
  match s with "" => true | _ => false end.

(** [s[:n]] *)
Fixpoint take (n : nat) (s : string) : string :=
  match n, s with
  | S n', String c s' => String c (take n' s')
  | _, _ => ""
  end.

(** [s[n:]] *)
Fixpoint drop (n : nat) (s : string) : string :=
  match n, s with
  | S n', String _ s' => drop n' s'
  | _, _ => s
  end.

(** [s.startswith(p)] *)
Fixpoint startswith (p s : string) : bool :=
  match p, s with
  | "", _ => true
  | String a p', String b s' => Ascii.eqb a b && startswith p' s'
  | _, _ => false
  end.

(** [sub in s] *)
Fixpoint contains (sub s : string) : bool :=
  startswith sub s ||
  match s with
  | "" => false
  | String _ s' => contains sub s'
  end.

(** [c in s] for a single character. *)
Fixpoint has_char (c : ascii) (s : string) : bool :=
  match s with
  | "" => false
  | String a s' => Ascii.eqb a c || has_char c s'
  end.

(** [s.lstrip(chars)] with the set [chars] given as a predicate. *)
Fixpoint lstrip_by (p : ascii -> bool) (s : string) : string :=
  match s with
  | String c s' => if p c then lstrip_by p s' else s
  | "" => ""
  end.

(** [s.rstrip(chars)] *)
Fixpoint rstrip_by (p : ascii -> bool) (s : string) : string :=
  match s with
  | "" => ""
  | String c s' =>
      let r := rstrip_by p s' in
      if is_empty r && p c then "" else String c r
  end.

Definition strip_by (p : ascii -> bool) (s : string) : string :=
  rstrip_by p (lstrip_by p s).

(** [s.strip()] *)
Definition strip (s : string) : string := strip_by isspace s.

(** [s.strip("-")] and the like. *)
Definition strip_chars (chars : string) (s : string) : string :=
  strip_by (fun c => has_char c chars) s.

(** [s.split(sep)] for a one-character separator: every separator cuts, so
    empty pieces are kept and the result is never the empty list. *)
Fixpoint split (sep : ascii) (s : string) : list string :=
  match s with
  | "" => [""]
  | String c s' =>
      if Ascii.eqb c sep then "" :: split sep s'
      else match split sep s' with
           | p :: ps => String c p :: ps
           | [] => [String c ""]
           end
  end.

(** [s.split(sep, 1)]: cut at the first separator only. *)
Fixpoint split1 (sep : ascii) (s : string) : string * option string :=
  match s with
  | "" => ("", None)
  | String c s' =>
      if Ascii.eqb c sep then ("", Some s')
      else let '(a, b) := split1 sep s' in (String c a, b)
  end.

(** [s.rsplit(sep, 1)[-1]]: what follows the last separator, the whole
    string when there is none. *)
Fixpoint after_last (sep : ascii) (s : string) : string :=
  match s with
  | "" => ""
  | String c s' =>
      if has_char sep s' then after_last sep s'
      else if Ascii.eqb c sep then s' else s
  end.

(** [s.replace(a, b)] for a one-character [a]. *)
Fixpoint replace (a : ascii) (b : string) (s : string) : string :=
  match s with
  | "" => ""
  | String c s' => (if Ascii.eqb c a then b else String c "") +:+ replace a b s'
  end.

(** [sep.join(l)] *)
Definition join (sep : string) (l : list string) : string := String.concat sep l.

(** [len(s)] *)
Definition len (s : string) : nat := String.length s.

End PyStr.

(** ** Python [re]

    The patterns of the script are built from character classes, literals,
    greedy repetitions of a class, concatenation and alternation.  A scanner
    matches at the start of its input and returns the matched text and the
    rest.  Repetitions take the longest run and alternations the first branch
    that matches; for the patterns used here this is what the backtracking
    matcher of [re] finds, because what follows a repetition never starts with
    a character of the repeated class, and no two branches of an alternation
    match at the same place with different continuations. *)

Module Re.
Import PyStr.

Definition scanner := string -> option (string * string).

(** One character of a class, as in [\d] or [[1-9]]. *)
Definition cls (p : ascii -> bool) : scanner := fun s =>
  match s with
  | String c s' => if p c then Some (String c "", s') else None
  | "" => None
  end.

(** A literal; under [re.I] the comparison is made on lower-cased text. *)
Definition lit (ignorecase : bool) (l : string) : scanner := fun s =>
  let h := take (len l) s in
  if String.eqb (if ignorecase then lower h else h)
                (if ignorecase then lower l else l)
  then Some (h, drop (len l) s) else None.

(** Longest prefix made of characters of the class, at most [hi] of them. *)
Fixpoint span (p : ascii -> bool) (hi : option nat) (s : string) : string * string :=
  match s with
  | "" => ("", "")
  | String c s' =>
      match hi with
      | Some 0 => ("", s)
      | _ =>
          if p c
          then let '(m, r) := span p (option_map Nat.pred hi) s' in (String c m, r)
          else ("", s)
      end
  end.

(** [p{lo,hi}], [p+] as [rep p 1 None], [p*] as [rep p 0 None]. *)
Definition rep (p : ascii -> bool) (lo : nat) (hi : option nat) : scanner := fun s =>
  let '(m, r) := span p hi s in
  if lo <=? len m then Some (m, r) else None.

Definition seq (a b : scanner) : scanner := fun s =>
  match a s with
  | Some (m1, r1) =>
      match b r1 with
      | Some (m2, r2) => Some (m1 +:+ m2, r2)
      | None => None
      end
  | None => None
  end.

Definition alt (a b : scanner) : scanner := fun s =>
  match a s with
  | Some r => Some r
  | None => b s
  end.

Definition fail : scanner := fun _ => None.

(** [a1|a2|...|an] *)
Definition alts (l : list scanner) : scanner := fold_right alt fail l.

(** [pattern.search(s)] for a pattern without look-behind: the match at the
    leftmost position that has one; the result is [m.group(0)]. *)
Fixpoint search (sc : scanner) (s : string) : option string :=
  match sc s with
  | Some (m, _) => Some m
  | None =>
      match s with
      | "" => None
      | String _ s' => search sc s'
      end
  end.

(** [re.sub(r"[p]+", repl, s)]: every maximal run of characters of the class
    is replaced by [repl]. *)
Fixpoint sub_plus_from (p : ascii -> bool) (repl : string) (in_run : bool) (s : string) : string :=
  match s with
  | "" => ""
  | String c s' =>
      if p c
      then (if in_run then "" else repl) +:+ sub_plus_from p repl true s'
      else String c (sub_plus_from p repl false s')
  end.

Definition sub_plus (p : ascii -> bool) (repl : string) (s : string) : string :=
  sub_plus_from p repl false s.

(** [\b]: exactly one of the characters around the position is a word
    character; the start and the end of the string count as non-word. *)
Definition is_word_opt (c : option ascii) : bool :=
  match c with Some c => isword c | None => false end.

Definition first_char (s : string) : option ascii :=
  match s with String c _ => Some c | "" => None end.

Fixpoint last_char (s : string) : option ascii :=
  match s with
  | "" => None
  | String c "" => Some c
  | String _ s' => last_char s'
  end.

Definition word_boundary (prev : option ascii) (s : string) : bool :=
  xorb (is_word_opt prev) (is_word_opt (first_char s)).

End Re.

(** ** Python [datetime]: [strptime] and [strftime]

    [strptime] turns the format into a regular expression (every directive
    into its pattern, every run of white space into [\s+], the rest
    literally), matches it at the start of the text with [re.IGNORECASE], and
    raises [ValueError] when there is no match, when text remains after the
    match, or when the fields are not a date.  The directives modelled are
    the three the script uses, [%B], [%d] and [%Y]; any other directive is
    treated as a [ValueError]. *)

Module Datetime.
Import PyStr Re.
Local Open Scope Z_scope.

Record datetime := mk_datetime { year : Z; month : Z; day : Z }.

(** [calendar.month_name[1:]], lower-cased as [_strptime.LocaleTime] keeps
    them (English locale). *)
Definition f_month : list string :=
  ["january"; "february"; "march"; "april"; "may"; "june"; "july";
   "august"; "september"; "october"; "november"; "december"].

(** [l.index(x)] *)
Fixpoint index_of (x : string) (l : list string) : option Z :=
  match l with
  | [] => None
  | y :: l' => if String.eqb y x then Some 0%Z else option_map Z.succ (index_of x l')
  end.

Definition digit_val (c : ascii) : Z := Z.of_nat (ord c) - 48.

(** [int(s)] for a string of decimal digits, possibly after blanks. *)
Fixpoint int_from (acc : Z) (s : string) : Z :=
  match s with
  | "" => acc
  | String c s' => int_from (if isdigit c then 10 * acc + digit_val c else acc) s'
  end.

Definition int (s : string) : Z := int_from 0 s.

(** The pattern of [%B]: the month names as alternatives. *)
Definition re_B : scanner := alts (map (lit true) f_month).

(** The pattern of [%d]: [3[0-1]|[1-2]\d|0[1-9]|[1-9]| [1-9]]. *)
Definition re_d : scanner :=
  alts [ seq (lit true "3") (cls (in_range 48 49)%nat);
         seq (cls (in_range 49 50)%nat) (cls isdigit);
         seq (lit true "0") (cls (in_range 49 57)%nat);
         cls (in_range 49 57)%nat;
         seq (lit true " ") (cls (in_range 49 57)%nat) ].

(** The pattern of [%Y]: [\d\d\d\d]. *)
Definition re_Y : scanner := rep isdigit 4%nat (Some 4%nat).

Inductive fmt_item :=
| FDirective (c : ascii)
| FSpaces
| FLiteral (c : ascii).

(** The format cut into directives, white-space runs and literal
    characters; [None] for a stray [%] at the end. *)
Fixpoint parse_format (in_run : bool) (fmt : string) : option (list fmt_item) :=
  match fmt with
  | "" => Some []
  | String c rest =>
      if Ascii.eqb c "%" then
        match rest with
        | "" => None
        | String d rest' => option_map (cons (FDirective d)) (parse_format false rest')
        end
      else if isspace c then
        if in_run then parse_format true rest
        else option_map (cons FSpaces) (parse_format true rest)
      else option_map (cons (FLiteral c)) (parse_format false rest)
  end.

(** The fields found so far; [strptime] starts from 1900-01-01. *)
Definition found := datetime.
Definition found0 : found := mk_datetime 1900 1 1.

Definition match_item (it : fmt_item) (f : found) (s : string) : option (found * string) :=
  match it with
  | FSpaces =>
      match rep isspace 1%nat None s with
      | Some (_, r) => Some (f, r)
      | None => None
      end
  | FLiteral c =>
      match lit true (String c "") s with
      | Some (_, r) => Some (f, r)
      | None => None
      end
  | FDirective c =>
      if Ascii.eqb c "B" then
        match re_B s with
        | Some (m, r) =>
            match index_of (lower m) f_month with
            | Some i => Some (mk_datetime (year f) (i + 1) (day f), r)
            | None => None
            end
        | None => None
        end
      else if Ascii.eqb c "d" then
        match re_d s with
        | Some (m, r) => Some (mk_datetime (year f) (month f) (int m), r)
        | None => None
        end
      else if Ascii.eqb c "Y" then
        match re_Y s with
        | Some (m, r) => Some (mk_datetime (int m) (month f) (day f), r)
        | None => None
        end
      else None
  end.

Fixpoint match_items (its : list fmt_item) (f : found) (s : string) : option (found * string) :=
  match its with
  | [] => Some (f, s)
  | it :: its' =>
      match match_item it f s with
      | Some (f', r) => match_items its' f' r
      | None => None
      end
  end.

Definition is_leap (y : Z) : bool :=
  ((y mod 4 =? 0) && negb (y mod 100 =? 0)) || (y mod 400 =? 0).

Definition days_in_month (y m : Z) : Z :=
  match m with
  | 2 => if is_leap y then 29 else 28
  | 4 | 6 | 9 | 11 => 30
  | _ => 31
  end.

(** The check of the [datetime] constructor. *)
Definition valid_date (d : datetime) : bool :=
  (1 <=? year d) && (year d <=? 9999)
  && (1 <=? month d) && (month d <=? 12)
  && (1 <=? day d) && (day d <=? days_in_month (year d) (month d)).

(** [datetime.strptime(data_string, format)]; [None] is [ValueError]. *)
Definition strptime (data_string format : string) : option datetime :=
  match parse_format false format with
  | None => None
  | Some its =>
      match match_items its found0 data_string with
      | Some (f, rest) =>
          if is_empty rest && valid_date f then Some f else None
      | None => None
      end
  end.

Definition digit_char (n : Z) : ascii := ascii_of_nat (Z.to_nat (48 + n mod 10)).

(** [n] in decimal, zero-padded to [width] digits. *)
Fixpoint zero_padded (width : nat) (n : Z) : string :=
  match width with
  | O => ""
  | S w => zero_padded w (n / 10) +:+ String (digit_char n) ""
  end.

(** [dt.strftime(format)] for [%Y] (the year zero-padded to four digits, as
    the library documents it), [%m] and [%d] (two digits); other characters
    are copied. *)
Fixpoint strftime (dt : datetime) (format : string) : string :=
  match format with
  | "" => ""
  | String c rest =>
      if Ascii.eqb c "%" then
        match rest with
        | String d rest' =>
            (if Ascii.eqb d "Y" then zero_padded 4 (year dt)
             else if Ascii.eqb d "m" then zero_padded 2 (month dt)
             else if Ascii.eqb d "d" then zero_padded 2 (day dt)
             else String c (String d ""))
            +:+ strftime dt rest'
        | "" => String c ""
        end
      else String c (strftime dt rest)
  end.

End Datetime.

(** ** Python [urllib.parse]

    [urlsplit], [urlparse], [urlunsplit], [urlunparse] and [urljoin] after
    CPython 3.12.  A result of [None] is the [ValueError] that [urlsplit]
    raises on a network location with unbalanced or invalid brackets.  The
    validation of a bracketed host ([_check_bracketed_netloc]) is the
    argument [bracket_ok].  The check [_checknetloc] only concerns code points
    whose NFKC normal form contains one of [/?#@:]; no code point up to
    U+00FF has such a form, so it never fails here. *)

Module Urllib.
Import PyStr.

Record ParseResult := mk_ParseResult {
  scheme : string; netloc : string; path : string;
  params : string; query : string; fragment : string }.

Definition uses_relative : list string :=
  [""; "ftp"; "http"; "gopher"; "nntp"; "imap"; "wais"; "file"; "https";
   "shttp"; "mms"; "prospero"; "rtsp"; "rtsps"; "rtspu"; "sftp"; "svn";
   "svn+ssh"; "ws"; "wss"].

Definition uses_netloc : list string :=
  [""; "ftp"; "http"; "gopher"; "nntp"; "telnet"; "imap"; "wais"; "file";
   "mms"; "https"; "shttp"; "snews"; "prospero"; "rtsp"; "rtsps"; "rtspu";
   "rsync"; "svn"; "svn+ssh"; "sftp"; "nfs"; "git"; "git+ssh"; "ws"; "wss";
   "itms-services"].

Definition uses_params : list string :=
  [""; "ftp"; "hdl"; "prospero"; "http"; "imap"; "https"; "shttp"; "rtsp";
   "rtsps"; "rtspu"; "sip"; "sips"; "mms"; "sftp"; "tel"].

(** [x in l] for a list of strings. *)
Definition mem (x : string) (l : list string) : bool :=
  existsb (String.eqb x) l.

Definition scheme_char (c : ascii) : bool :=
  isalpha_ascii c || isdigit c || has_char c "+-.".

Fixpoint all_chars (p : ascii -> bool) (s : string) : bool :=
  match s with
  | "" => true
  | String c s' => p c && all_chars p s'
  end.

(** The characters of [_WHATWG_C0_CONTROL_OR_SPACE]. *)
Definition c0_or_space (c : ascii) : bool := ord c <=? 32.

(** The characters of [_UNSAFE_URL_BYTES_TO_REMOVE]: TAB, CR, LF. *)
Definition remove_unsafe (s : string) : string :=
  replace "010" "" (replace "013" "" (replace "009" "" s)).

(** [_splitnetloc(url, 2)]: after the two slashes, up to the first of [/?#]. *)
Fixpoint until_delim (s : string) : string * string :=
  match s with
  | "" => ("", "")
  | String c s' =>
      if has_char c "/?#" then ("", s)
      else let '(a, b) := until_delim s' in (String c a, b)
  end.

Definition splitnetloc (url : string) : string * string := until_delim (drop 2 url).

Definition urlsplit (bracket_ok : string -> bool) (url0 scheme0 : string)
  : option (string * string * string * string * string) :=
  let url := remove_unsafe (lstrip_by c0_or_space url0) in
  let scheme := remove_unsafe (strip_by c0_or_space scheme0) in
  let '(scheme, url) :=
    match split1 ":" url with
    | (String c0 before, Some after) =>
        if isalpha_ascii c0 && all_chars scheme_char (String c0 before)
        then (lower (String c0 before), after)
        else (scheme, url)
    | _ => (scheme, url)
    end in
  let split_rest (netloc url : string) :=
    let '(url, fragment) :=
      match split1 "#" url with
      | (u, Some f) => (u, f)
      | (u, None) => (u, "")
      end in
    let '(url, query) :=
      match split1 "?" url with
      | (u, Some q) => (u, q)
      | (u, None) => (u, "")
      end in
    Some (scheme, netloc, url, query, fragment) in
  if startswith "//" url then
    let '(netloc, url) := splitnetloc url in
    let open := has_char "[" netloc in
    let close := has_char "]" netloc in
    if xorb open close then None
    else if open && close && negb (bracket_ok netloc) then None
    else split_rest netloc url
  else split_rest "" url.

(** [_splitparams(url)], called when [url] contains a semicolon. *)
Definition splitparams (url : string) : string * string :=
  if has_char "/" url then
    let last := after_last "/" url in
    let dir := take (len url - len last) url in
    match split1 ";" last with
    | (a, Some b) => (dir +:+ a, b)
    | (_, None) => (url, "")
    end
  else
    match split1 ";" url with
    | (a, Some b) => (a, b)
    | (a, None) => (a, "")
    end.

Definition urlparse (bracket_ok : string -> bool) (url scheme0 : string) : option ParseResult :=
  match urlsplit bracket_ok url scheme0 with
  | None => None
  | Some (scheme, netloc, url, query, fragment) =>
      let '(url, params) :=
        if mem scheme uses_params && has_char ";" url
        then splitparams url else (url, "") in
      Some (mk_ParseResult scheme netloc url params query fragment)
  end.

Definition urlunsplit (scheme netloc url query fragment : string) : string :=
  let url :=
    if negb (is_empty netloc)
       || (negb (is_empty scheme) && mem scheme uses_netloc
           && negb (startswith "//" url))
    then
      let url :=
        if negb (is_empty url) && negb (startswith "/" url)
        then "/" +:+ url else url in
      "//" +:+ netloc +:+ url
    else url in
  let url := if is_empty scheme then url else scheme +:+ ":" +:+ url in
  let url := if is_empty query then url else url +:+ "?" +:+ query in
  if is_empty fragment then url else url +:+ "#" +:+ fragment.

Definition urlunparse (r : ParseResult) : string :=
  let url := if is_empty (params r) then path r else path r +:+ ";" +:+ params r in
  urlunsplit (scheme r) (netloc r) url (query r) (fragment r).

(** [del base_parts[-1]] when the last item is not empty. *)
Definition drop_last_if_nonempty (l : list string) : list string :=
  match last l with
  | Some "" | None => l
  | Some _ => removelast l
  end.

(** [segments[1:-1] = filter(None, segments[1:-1])] *)
Definition filter_middle (l : list string) : list string :=
  match l with
  | x :: (_ :: _) as tl =>
      x :: filter (fun s => negb (is_empty s)) (removelast tl) ++ [List.last tl ""]
  | _ => l
  end.

(** The loop over the segments: [..] pops (nothing when empty), [.] is
    skipped, anything else is appended. *)
Definition resolve (segments : list string) : list string :=
  fold_left (fun resolved seg =>
               if String.eqb seg ".." then removelast resolved
               else if String.eqb seg "." then resolved
               else resolved ++ [seg])
            segments [].

Definition urljoin (bracket_ok : string -> bool) (base url : string) : option string :=
  if is_empty base then Some url
  else if is_empty url then Some base
  else
    match urlparse bracket_ok base "" with
    | None => None
    | Some b =>
        match urlparse bracket_ok url (scheme b) with
        | None => None
        | Some u =>
            if negb (String.eqb (scheme u) (scheme b))
               || negb (mem (scheme u) uses_relative)
            then Some url
            else if mem (scheme u) uses_netloc && negb (is_empty (netloc u))
            then Some (urlunparse u)
            else
              let netloc1 := if mem (scheme u) uses_netloc then netloc b else netloc u in
              if is_empty (path u) && is_empty (params u) then
                Some (urlunparse
                        (mk_ParseResult (scheme u) netloc1 (path b) (params b)
                           (if is_empty (query u) then query b else query u)
                           (fragment u)))
              else
                let base_parts := drop_last_if_nonempty (split "/" (path b)) in
                let segments :=
                  if startswith "/" (path u) then split "/" (path u)
                  else filter_middle (base_parts ++ split "/" (path u)) in
                let resolved_path := resolve segments in
                let resolved_path :=
                  if mem (List.last segments "") ["."; ".."]
                  then resolved_path ++ [""] else resolved_path in
                let joined := join "/" resolved_path in
                Some (urlunparse
                        (mk_ParseResult (scheme u) netloc1
                           (if is_empty joined then "/" else joined)
                           (params u) (query u) (fragment u)))
        end
    end.

End Urllib.

(** ** BeautifulSoup documents

    A document is a tree of tags and strings.  Strings carry the class bs4
    gave them, because [get_text] only collects the classes that are
    interesting for the tag it is called on.  The root of a parsed document
    is itself a tag, named [[document]], without attributes. *)

Module Bs4.
Import PyStr.

Inductive string_kind :=
| NavigableString
| CData
| Comment            (* also Doctype, Declaration, ProcessingInstruction *)
| Script
| Stylesheet
| TemplateString
| RubyTextString
| RubyParenthesisString.

#[warnings="-register-all"]
Inductive node :=
| Tag (name : string) (attrs : list (string * string)) (contents : list node)
| Str (kind : string_kind) (text : string).

Definition string_kind_eqb (a b : string_kind) : bool :=
  match a, b with
  | NavigableString, NavigableString | CData, CData | Comment, Comment
  | Script, Script | Stylesheet, Stylesheet | TemplateString, TemplateString
  | RubyTextString, RubyTextString
  | RubyParenthesisString, RubyParenthesisString => true
  | _, _ => false
  end.

(** [isinstance(n, Tag)] *)
Definition is_tag (n : node) : bool :=
  match n with Tag _ _ _ => true | Str _ _ => false end.

(** [n.name]; strings have none. *)
Definition name_of (n : node) : string :=
  match n with Tag nm _ _ => nm | Str _ _ => "" end.

Definition contents_of (n : node) : list node :=
  match n with Tag _ _ cs => cs | Str _ _ => [] end.

(** [tag.get(key)] *)
Fixpoint lookup_attr (key : string) (attrs : list (string * string)) : option string :=
  match attrs with
  | [] => None
  | (k, v) :: rest => if String.eqb k key then Some v else lookup_attr key rest
  end.

Definition get (key : string) (n : node) : option string :=
  match n with Tag _ attrs _ => lookup_attr key attrs | Str _ _ => None end.

(** [\S+] tokens of an attribute value: bs4 keeps [class] as this list. *)
Fixpoint tokens_from (cur : string) (s : string) : list string :=
  match s with
  | "" => if is_empty cur then [] else [cur]
  | String c s' =>
      if isspace c
      then (if is_empty cur then [] else [cur]) ++ tokens_from "" s'
      else tokens_from (cur +:+ String c "") s'
  end.

Definition whitespace_tokens (s : string) : list string := tokens_from "" s.

(** [tag.get('class', [])] *)
Definition get_class (n : node) : list string :=
  match get "class" n with
  | Some v => whitespace_tokens v
  | None => []
  end.

(** An element of a document: the node, its ancestors from the parent
    up to the root, and the siblings that follow it. *)
Record element := mk_element {
  el_node : node;
  el_parents : list node;
  el_next_siblings : list node }.

(** Document order: a node, then its descendants, then what follows. *)
Fixpoint walk (parents : list node) (n : node) (sibs : list node) : list element :=
  mk_element n parents sibs ::
  match n with
  | Tag _ _ cs =>
      (fix walk_all (l : list node) : list element :=
         match l with
         | [] => []
         | c :: l' => walk (n :: parents) c l' ++ walk_all l'
         end) cs
  | Str _ _ => []
  end.

Fixpoint walk_all (parents : list node) (l : list node) : list element :=
  match l with
  | [] => []
  | c :: l' => walk parents c l' ++ walk_all parents l'
  end.

(** [n.descendants], each with its place in the tree under [n]. *)
Definition descendants_in (parents : list node) (n : node) : list element :=
  walk_all (n :: parents) (contents_of n).

Definition descendants (n : node) : list element := descendants_in [] n.

(** The string classes [get_text] collects for a tag of a given name. *)
Definition interesting (tag_name : string) (k : string_kind) : bool :=
  if String.eqb tag_name "rt" then string_kind_eqb k RubyTextString
  else if String.eqb tag_name "rp" then string_kind_eqb k RubyParenthesisString
  else if String.eqb tag_name "style" then string_kind_eqb k Stylesheet
  else if String.eqb tag_name "script" then string_kind_eqb k Script
  else if String.eqb tag_name "template" then string_kind_eqb k TemplateString
  else string_kind_eqb k NavigableString || string_kind_eqb k CData.

(** [tag._all_strings(strip=True)]: the interesting strings below the tag in
    document order, each stripped, the empty ones left out. *)
Definition stripped_strings (n : node) : list string :=
  flat_map (fun e =>
              match el_node e with
              | Str k t =>
                  if interesting (name_of n) k && negb (is_empty (strip t))
                  then [strip t] else []
              | Tag _ _ _ => []
              end)
           (descendants n).

(** [tag.get_text(separator, strip=True)] *)
Definition get_text (separator : string) (n : node) : string :=
  join separator (stripped_strings n).

(** A place in the document: an element and what follows it in document
    order. *)
Definition cursor : Type := element * list element.

Definition cur_node (c : cursor) : node := el_node (fst c).

(** The first tag of a document-order sequence that satisfies [p]. *)
Fixpoint first_match (p : node -> bool) (l : list element) : option cursor :=
  match l with
  | [] => None
  | e :: l' => if is_tag (el_node e) && p (el_node e) then Some (e, l') else first_match p l'
  end.

(** [root.find(p)] *)
Definition find (p : node -> bool) (root : node) : option cursor :=
  first_match p (descendants root).

(** [root.find_all(p)] *)
Definition find_all (p : node -> bool) (root : node) : list element :=
  filter (fun e => is_tag (el_node e) && p (el_node e)) (descendants root).

(** [cur.find_next()]: the next tag in document order. *)
Definition find_next (c : cursor) : option cursor :=
  first_match (fun _ => true) (snd c).

(** [cur.next_siblings] *)
Definition next_siblings (c : cursor) : list node := el_next_siblings (fst c).

(** [cur.find_next_sibling()]: the next sibling that is a tag. *)
Definition find_next_sibling (c : cursor) : option node :=
  List.find is_tag (next_siblings c).

(** Search criteria: a tag name, one of several names, an attribute that
    is present ([href=True]), a class ([class_="post"]). *)
Definition named (nm : string) (n : node) : bool := String.eqb (name_of n) nm.

Definition named_in (names : list string) (n : node) : bool :=
  existsb (String.eqb (name_of n)) names.

Definition has_attr (key : string) (n : node) : bool :=
  match get key n with Some _ => true | None => false end.

Definition has_class (c : string) (n : node) : bool :=
  match get "class" n with
  | Some v =>
      existsb (String.eqb c) (whitespace_tokens v)
      || String.eqb (join " " (whitespace_tokens v)) c
  | None => false
  end.

(** [tag[key] = f(tag[key])] on every tag of the tree that satisfies [p] and
    has the attribute; [None] as soon as [f] raises. *)
Fixpoint update_attr (key : string) (f : string -> option string)
    (attrs : list (string * string)) : option (list (string * string)) :=
  match attrs with
  | [] => Some []
  | (k, v) :: rest =>
      if String.eqb k key then
        match f v with
        | Some v' => Some ((k, v') :: rest)
        | None => None
        end
      else option_map (cons (k, v)) (update_attr key f rest)
  end.

Fixpoint rewrite_attr (p : node -> bool) (key : string) (f : string -> option string)
    (n : node) : option node :=
  match n with
  | Str _ _ => Some n
  | Tag nm attrs cs =>
      let attrs' := if p n then update_attr key f attrs else Some attrs in
      let cs' :=
        (fix rewrite_all (l : list node) : option (list node) :=
           match l with
           | [] => Some []
           | c :: l' =>
               match rewrite_attr p key f c, rewrite_all l' with
               | Some c', Some l'' => Some (c' :: l'')
               | _, _ => None
               end
           end) cs in
      match attrs', cs' with
      | Some a, Some l => Some (Tag nm a l)
      | _, _ => None
      end
  end.

End Bs4.

(** ** The script *)

Module Scraper.
Import PyStr Re Datetime Urllib Bs4.

Definition BASE : string := "https://roachag.com".


(** Section/category slugs to ignore. *)
Definition BAD_SLUGS : gset string :=
  list_to_set
    [ "Presentations"; "Calendar"; "Author"; "World-Crop-Weather"; "Brazil";
      "Argentina"; "China"; "Russia"; "Europe"; "Australia";
      "Brazil-Crop-Updates"; "Yield-Reports"; "Sell-Signal-Charts";
      "Futures-Prices"; "Recent-Webinars"; "WASDE" ].

(** [normalize_spaces]: NBSP becomes a space, every run of white space
    becomes one space, the ends are stripped.  (The second replacement of the
    script, of U+202F, concerns a code point outside the strings modelled.) *)
Definition normalize_spaces (s : string) : string :=
  strip (sub_plus isspace " " (replace "160" " " s)).

(** [s.replace("&", "and")] is [PyStr.replace]; the class [[^a-z0-9-]]. *)
Definition not_slug_char (c : ascii) : bool :=
  negb (islower_ascii c || isdigit c || Ascii.eqb c "-").

Definition slugify (t : string) : string :=
  let s := replace "&" "and" (lower t) in
  let s := sub_plus not_slug_char "-" s in
  strip_chars "-" s.

(** [YEAR_RE = \b20\d{2}\b], matched at one position; [prev] is the
    character before it. *)
Definition YEAR_RE_at (prev : option ascii) (s : string) : bool :=
  word_boundary prev s &&
  match seq (lit false "20") (rep isdigit 2 (Some 2)) s with
  | Some (m, r) => word_boundary (last_char m) r
  | None => false
  end.

(** [bool(YEAR_RE.search(text))] *)
Fixpoint YEAR_RE_search_from (prev : option ascii) (s : string) : bool :=
  YEAR_RE_at prev s ||
  match s with
  | "" => false
  | String c s' => YEAR_RE_search_from (Some c) s'
  end.

Definition YEAR_RE_search (text : string) : bool := YEAR_RE_search_from None text.

Definition MONTHS_RE : scanner :=
  alts (map (lit true)
          [ "January"; "February"; "March"; "April"; "May"; "June"; "July";
            "August"; "September"; "October"; "November"; "December" ]).

(** [MONTHS\s+\d{1,2},\s*\d{4}|\d{1,2}\s+MONTHS\s+\d{4}] under [re.I]. *)
Definition DATE_RE : scanner :=
  alt (seq MONTHS_RE (seq (rep isspace 1 None) (seq (rep isdigit 1 (Some 2))
         (seq (lit true ",") (seq (rep isspace 0 None) (rep isdigit 4 (Some 4)))))))
      (seq (rep isdigit 1 (Some 2)) (seq (rep isspace 1 None) (seq MONTHS_RE
         (seq (rep isspace 1 None) (rep isdigit 4 (Some 4)))))).

(** [to_iso_date]: the two formats are tried in turn, a [ValueError] moves on
    to the next, and the normalized text is returned when both fail. *)
Definition to_iso_date (date_str : string) : string :=
  let ds := normalize_spaces date_str in
  (fix try_formats (fmts : list string) : string :=
     match fmts with
     | [] => ds
     | fmt :: rest =>
         match strptime ds fmt with
         | Some dt => strftime dt "%Y-%m-%d 10:00"
         | None => try_formats rest
         end
     end) ["%B %d, %Y"; "%d %B %Y"].

(** [dict.fromkeys(l)] keeps the first occurrence of every key, in order. *)
Definition dict_fromkeys (l : list string) : list string :=
  fold_left (fun keys k => if existsb (String.eqb k) keys then keys else keys ++ [k]) l [].

Definition extract_category (soup : node) : string :=
  match find (fun a => named "a" a &&
                match get "href" a with
                | Some h => negb (is_empty h) && contains "Category=" h
                | None => false
                end) soup with
  | Some a => get_text "" (cur_node a)
  | None => ""
  end.

Definition extract_tags (soup : node) : list string :=
  let h := find (fun t => named_in ["h3"; "h4"; "h5"] t
                          && String.eqb (lower (get_text "" t)) "tags") soup in
  let cont := match h with Some h => find_next_sibling h | None => None end in
  match cont with
  | None => []
  | Some cont =>
      let tags := map (fun a => get_text "" (el_node a)) (find_all (named "a") cont) in
      dict_fromkeys (filter (fun t => negb (is_empty t)) tags)
  end.

(** The heading the date and the body are looked for next to: the first
    [h1]/[h2] whose text contains the title, compared in lower case. *)
Definition find_title_el (soup : node) (title_text : string) : option cursor :=
  find (fun x => named_in ["h1"; "h2"] x
                 && contains (lower title_text) (lower (get_text "" x))) soup.

(** The loop [for _ in range(8)] of [extract_date_text]. *)
Fixpoint scan_near (n : nat) (cur : option cursor) : option string :=
  match n with
  | 0 => None
  | S n' =>
      match cur with
      | None => None
      | Some c =>
          let text := normalize_spaces (get_text " " (cur_node c)) in
          match search DATE_RE text with
          | Some m => Some (normalize_spaces m)
          | None => scan_near n' (find_next c)
          end
      end
  end.

Definition extract_date_text (soup : node) (title_text : string) : string :=
  (* 1) <time> if present *)
  let t := find (named "time") soup in
  let time_text :=
    match t with
    | Some t' => get_text "" (cur_node t')
    | None => ""
    end in
  if negb (is_empty time_text) then normalize_spaces time_text
  else
    (* 2) scan near the H1/H2 title *)
    let title_el := find_title_el soup title_text in
    let probe :=
      match title_el with
      | Some e => Some e
      | None => find (named_in ["h1"; "h2"]) soup
      end in
    match scan_near 8 probe with
    | Some d => d
    | None =>
        (* 3) fallback: whole page *)
        let text := normalize_spaces (get_text " " soup) in
        match search DATE_RE text with
        | Some m => normalize_spaces m
        | None => ""
        end
    end.

Definition stop_words : list string :=
  ["related posts"; "recent posts"; "categories"; "tags"; "contact us"].

Definition allowed : list string :=
  ["p"; "ul"; "ol"; "li"; "h3"; "h4"; "h5"; "blockquote"; "figure"; "img";
   "table"; "thead"; "tbody"; "tr"; "th"; "td"; "em"; "strong"; "a"; "span"].

(** [any(w in heading for w in stop_words)] for a sibling tag. *)
Definition is_stop (sib : node) : bool :=
  let heading := take 40 (lower (get_text "" sib)) in
  existsb (fun w => contains w heading) stop_words.

(** [sib.name in allowed or sib.find(... t.name in allowed)] *)
Definition is_content (sib : node) : bool :=
  named_in allowed sib
  || match find (named_in allowed) sib with Some _ => true | None => false end.

(** The loop over [title_el.next_siblings]: the siblings put in [parts]. *)
Fixpoint content_parts (sibs : list node) : list node :=
  match sibs with
  | [] => []
  | sib :: rest =>
      if negb (is_tag sib) then content_parts rest
      else if is_stop sib then []
      else if is_content sib then sib :: content_parts rest
      else content_parts rest
  end.

(** What the script takes from outside: the network behind [session.get]
    (a state, because two requests for one URL need not agree), the lxml
    parser behind [BeautifulSoup(html, "lxml")], the serializer behind
    [str(tag)], and the validation of bracketed hosts in [urllib.parse]. *)

Section Script.

Variable World : Type.
Variable http_get : World -> string -> option string * World.
Variable BeautifulSoup : string -> node.
Variable str : node -> string.
Variable bracket_ok : string -> bool.

(** [get_html]: the body of the response, or the exception of
    [raise_for_status] and of the transport. *)
Definition get_html (session : World) (url : string) : option string * World :=
  http_get session url.

Definition norm_url (href : string) : option string :=
  if is_empty href then Some ""
  else if startswith "http" href then Some href
  else urljoin bracket_ok BASE href.

(** [parts = [p for p in path.split("/") if p]] *)
Definition path_parts (path : string) : list string :=
  filter (fun p => negb (is_empty p)) (split "/" path).

Definition is_clean_post_path (href : string) : bool :=
  match urlparse bracket_ok href "" with
  | None => false
  | Some r =>
      let parts := path_parts (path r) in
      if (length parts =? 0) || negb (String.eqb (nth 0 parts "") "Resources")
      then false
      else if (2 <=? length parts) && bool_decide (nth 1 parts "" ∈ BAD_SLUGS)
      then false
      else if (2 <=? length parts) && negb (is_empty (nth 1 parts ""))
      then true
      else false
  end.

(** An entry of [all_links]: [(full_url, text, has_year)]. *)
Definition link : Type := string * string * bool.

Definition link_has_year (l : link) : bool := snd l.

(** The end of both loops of [parse_listing]: normalize, skip a URL already
    seen on this page, otherwise record it. *)
Definition add_link (href text : string) (st : gset string * list link)
  : option (gset string * list link) :=
  match norm_url href with
  | None => None
  | Some full_url =>
      let '(seen, all_links) := st in
      if bool_decide (full_url ∈ seen) then Some st
      else Some ({[full_url]} ∪ seen,
                 all_links ++ [(full_url, text, YEAR_RE_search text)])
  end.

(** A loop whose body may raise. *)
Fixpoint fold_raise {S A : Type} (f : S -> A -> option S) (l : list A) (st : S) : option S :=
  match l with
  | [] => Some st
  | x :: l' =>
      match f st x with
      | Some st' => fold_raise f l' st'
      | None => None
      end
  end.

(** Body of the loop over [article.post] blocks. *)
Definition article_step (st : gset string * list link) (article : element)
  : option (gset string * list link) :=
  match find (fun t => named "h2" t && has_class "lb-title" t) (el_node article) with
  | None => Some st
  | Some h2 =>
      match find (fun t => named "a" t && has_attr "href" t) (cur_node h2) with
      | None => Some st
      | Some a =>
          let href := default "" (get "href" (cur_node a)) in
          if is_clean_post_path href then
            let text := get_text "" (cur_node a) in
            if negb (is_empty text) && (10 <=? len text)
            then add_link href text st
            else Some st
          else Some st
      end
  end.

Definition sidebar_words : list string :=
  ["recentposts"; "mwidgetposts"; "widget"; "sidebar"].

Definition is_sidebar_class (parent : node) : bool :=
  let class_text := lower (join " " (get_class parent)) in
  existsb (fun word => contains word class_text) sidebar_words.

(** Body of the fallback loop over every link of the page; the three
    ancestors looked at are the first three of [el_parents]. *)
Definition fallback_step (st : gset string * list link) (a : element)
  : option (gset string * list link) :=
  let href := default "" (get "href" (el_node a)) in
  if negb (is_clean_post_path href) then Some st
  else
    let text := get_text "" (el_node a) in
    if is_empty text || (len text <? 10) then Some st
    else if existsb is_sidebar_class (firstn 3 (el_parents a)) then Some st
    else add_link href text st.

(** The candidates of a page in discovery order. *)
Definition collect_links (soup : node) : option (list link) :=
  let articles := find_all (fun t => named "article" t && has_class "post" t) soup in
  match fold_raise article_step articles (∅, []) with
  | None => None
  | Some (seen, all_links) =>
      if (length all_links =? 0) then
        option_map snd
          (fold_raise fallback_step
             (find_all (fun t => named "a" t && has_attr "href" t) soup)
             (seen, all_links))
      else Some all_links
  end.

(** [enumerate(l)] *)
Fixpoint enumerate_from {A : Type} (i : nat) (l : list A) : list (nat * A) :=
  match l with
  | [] => []
  | x :: l' => (i, x) :: enumerate_from (S i) l'
  end.

Definition enumerate {A : Type} (l : list A) : list (nat * A) := enumerate_from 0 l.

(** Order of the sort keys, the tuples [(bool, int)] with [False < True]. *)
Definition key_lt (k1 k2 : bool * nat) : bool :=
  match fst k1, fst k2 with
  | false, true => true
  | true, false => false
  | _, _ => snd k1 <? snd k2
  end.

(** [l.sort(key=key)]: a stable sort, here by insertion: an item goes
    before the first item whose key is greater than its own. *)
Fixpoint insert_by_key {A : Type} (key : A -> bool * nat) (x : A) (l : list A) : list A :=
  match l with
  | [] => [x]
  | y :: l' => if key_lt (key x) (key y) then x :: l else y :: insert_by_key key x l'
  end.

Definition sort_by_key {A : Type} (key : A -> bool * nat) (l : list A) : list A :=
  fold_left (fun sorted x => insert_by_key key x sorted) l [].

(** Lines 175-184: sort by year presence then by order found, take the
    first 10, keep [(url, title)]. *)
Definition order_links (all_links : list link) : list (string * string) :=
  let indexed_links := enumerate all_links in
  let indexed_links :=
    sort_by_key (fun x : nat * link => (negb (link_has_year (snd x)), fst x)) indexed_links in
  let all_links := map snd indexed_links in
  map (fun l : link => (fst (fst l), snd (fst l))) (firstn 10 all_links).

Definition parse_listing (list_html : string) : option (list (string * string)) :=
  let soup := BeautifulSoup list_html in
  option_map order_links (collect_links soup).

Definition extract_content_html (soup : node) (title_text : string) : string :=
  let title_el :=
    match find_title_el soup title_text with
    | Some e => Some e
    | None => find (named_in ["h1"; "h2"]) soup
    end in
  match title_el with
  | None => ""
  | Some title_el =>
      strip (join "" (map str (content_parts (next_siblings title_el))))
  end.

Definition absolutize_links (fragment_html : string) : option string :=
  if is_empty fragment_html then Some fragment_html
  else
    let s := BeautifulSoup fragment_html in
    match rewrite_attr (named "a") "href" norm_url s with
    | None => None
    | Some s =>
        match rewrite_attr (named "img") "src" norm_url s with
        | None => None
        | Some s => Some (str s)
        end
    end.

Definition first_image_url_from_html (html : string) (page_soup : node) : option string :=
  let s := BeautifulSoup html in
  let img :=
    match find (named "img") s with
    | Some i => Some i
    | None => find (named "img") page_soup
    end in
  let src :=
    match img with
    | Some i => default "" (get "src" (cur_node i))
    | None => ""
    end in
  if negb (is_empty src) then norm_url src else Some "".

Record ParsedPost := mk_ParsedPost {
  title : string;
  date : string;
  category : string;
  tags : list string;
  content_html : string;
  featured : string;
  skip : bool }.

Definition parse_post (session : World) (url expected_title : string)
  : option ParsedPost * World :=
  match get_html session url with
  | (None, session) => (None, session)
  | (Some html, session) =>
      let soup := BeautifulSoup html in
      let h := find (named_in ["h1"; "h2"]) soup in
      let title :=
        if negb (is_empty expected_title) then expected_title
        else match h with
             | Some h => get_text "" (cur_node h)
             | None => replace "-" " " (after_last "/" url)
             end in
      let body_html := extract_content_html soup title in
      match absolutize_links body_html with
      | None => (None, session)
      | Some body_html =>
          let tags := extract_tags soup in
          let category :=
            if is_empty (extract_category soup) then "USDA Supply/Demand"
            else extract_category soup in
          let date_txt := extract_date_text soup title in
          let post_date := to_iso_date date_txt in
          match first_image_url_from_html body_html soup with
          | None => (None, session)
          | Some featured =>
              (* If clearly not a post (no body & no date), skip *)
              let skip := is_empty body_html && is_empty date_txt in
              (Some (mk_ParsedPost title post_date category tags body_html featured skip),
               session)
          end
      end
  end.

(** A row of the output, the dict of [rows.append]. *)
Definition row : Type := list (string * string).

Definition make_row (url : string) (data : ParsedPost) : row :=
  [ ("source_url", url);
    ("post_title", title data);
    ("post_slug", slugify (title data));
    ("post_status", "draft");
    ("post_author", "admin");
    ("post_date", date data);
    ("categories", category data);
    ("tags", join "|" (tags data));
    ("excerpt", "");
    ("content_html", content_html data);
    ("featured_image_url", featured data);
    ("featured_image_alt", "");
    ("image_gallery_urls", "");
    ("canonical_url", "");
    ("seo_title", "");
    ("seo_meta_description", "");
    ("redirect_from", "");
    ("menu_order", "0");
    ("comment_status", "closed");
    ("ping_status", "closed");
    ("meta__source", "Roach Ag Resources");
    ("meta__external_id", "");
    ("meta__custom1", "");
    ("meta__custom2", "") ].

(** [row["source_url"]] *)
Definition source_url (r : row) : string := default "" (lookup_attr "source_url" r).

(** The variables of [main]: the session, [rows] and [seen_urls]. *)
Record run_state := mk_run_state {
  session : World;
  rows : list row;
  seen_urls : gset string }.

(** Body of the loop over the posts of one listing page. *)
Definition post_step (st : run_state) (post : string * string) : run_state :=
  let '(url, title) := post in
  (* Skip if we've already processed this URL *)
  if bool_decide (url ∈ seen_urls st) then st
  else
    match parse_post (session st) url title with
    | (None, w) => mk_run_state w (rows st) (seen_urls st)
    | (Some data, w) =>
        if skip data then mk_run_state w (rows st) (seen_urls st)
        else
          (* Mark this URL as seen *)
          mk_run_state w (rows st ++ [make_row url data]) ({[url]} ∪ seen_urls st)
    end.

(** Body of the loop over the listing pages.  A listing that cannot be
    fetched is passed over; [parse_listing] is called outside any [try]. *)
Definition listing_step (st : run_state) (list_url : string) : option run_state :=
  match get_html (session st) list_url with
  | (None, w) => Some (mk_run_state w (rows st) (seen_urls st))
  | (Some listing_html, w) =>
      match parse_listing listing_html with
      | None => None
      | Some posts =>
          Some (fold_left post_step posts (mk_run_state w (rows st) (seen_urls st)))
      end
  end.

(** [main] over a given list of listing pages; the result is [rows]. *)
Definition run (listing_urls : list string) (session : World) : option run_state :=
  fold_raise listing_step listing_urls (mk_run_state session [] ∅).


End Script.

End Scraper.

(** * Notions used in the statements *)

Import PyStr Re Datetime Urllib Bs4 Scraper.

(** ** Listing *)

Definition link_key (x : nat * link) : bool * nat :=
  (negb (link_has_year (snd x)), fst x).

Definition url_title (l : link) : string * string := (fst (fst l), snd (fst l)).

Definition link_title (l : link) : string := snd (fst l).

(** Every recorded link carries the result of [YEAR_RE] on its title. *)
Definition flags_ok (st : gset string * list link) : Prop :=
  Forall (fun l => link_has_year l = YEAR_RE_search (link_title l)) (snd st).

(** ** Tags *)

(** A heading of level 3 to 5 whose text is [tags] in any case. *)
Definition is_tags_heading (t : node) : bool :=
  named_in ["h3"; "h4"; "h5"] t && String.eqb (lower (get_text "" t)) "tags".

(** The texts of the links inside a container, in document order. *)
Definition link_texts (cont : node) : list string :=
  map (fun a => get_text "" (el_node a)) (find_all (named "a") cont).

(** Duplicates removed, the first occurrence of every string kept. *)
Fixpoint dedup_first (l : list string) : list string :=
  match l with
  | [] => []
  | x :: l' => x :: filter (fun y => y <> x) (dedup_first l')
  end.

(** The document of the specification's example: a tags heading followed
    by a container with the links WASDE, Corn, WASDE. *)
Definition tags_doc : node :=
  Tag "[document]" []
    [Tag "html" []
       [Tag "body" []
          [Tag "h1" [] [Str NavigableString "Crop report"];
           Tag "h4" [] [Str NavigableString "Tags"];
           Str NavigableString " ";
           Tag "div" [("class", "tag-list")]
             [Tag "a" [("href", "/Resources?Tag=WASDE")] [Str NavigableString "WASDE"];
              Tag "a" [("href", "/Resources?Tag=Corn")] [Str NavigableString "Corn"];
              Tag "a" [("href", "/Resources?Tag=WASDE")] [Str NavigableString "WASDE"]]]]].

(** ** Runs *)

(** What holds of [rows] and [seen_urls] all along a run: the rows have
    distinct [source_url]s, and these are the URLs seen. *)
Definition run_inv {World : Type} (st : run_state World) : Prop :=
  NoDup (map source_url (rows World st))
  /\ forall u, u ∈ seen_urls World st <-> u ∈ map source_url (rows World st).

(** [st'] comes after [st]: rows were only appended, for URLs that [st] had
    not seen, and no seen URL was forgotten. *)
Definition extends {World : Type} (st st' : run_state World) : Prop :=
  exists suffix,
    rows World st' = rows World st ++ suffix
    /\ seen_urls World st ⊆ seen_urls World st'
    /\ Forall (fun r => source_url r ∉ seen_urls World st) suffix.

(** The rows of a state for one URL. *)
Definition rows_for {World : Type} (u : string) (st : run_state World) : list row :=
  filter (fun r => source_url r = u) (rows World st).

(** ** A small site, for the examples

    A serializer for [str(tag)], a parser that knows the pages of the site,
    and a network that answers from a table; the second request fails, as a
    transient error would. *)

Fixpoint render (n : node) : string :=
  match n with
  | Str _ t => t
  | Tag nm attrs cs =>
      let inner := String.concat "" (map render cs) in
      if String.eqb nm "[document]" then inner
      else
        "<" +:+ nm
        +:+ String.concat "" (map (fun kv => " " +:+ fst kv +:+ "='" +:+ snd kv +:+ "'") attrs)
        +:+ ">" +:+ inner +:+ "</" +:+ nm +:+ ">"
  end.

Definition page (body : list node) : node :=
  Tag "[document]" [] [Tag "html" [] [Tag "body" [] body]].

Definition post_url : string := "https://roachag.com/Resources/Corn-Outlook-2025".

Definition listing_doc (title : string) : node :=
  page [Tag "article" [("class", "post")]
          [Tag "h2" [("class", "lb-title")]
             [Tag "a" [("href", "/Resources/Corn-Outlook-2025")]
                [Str NavigableString title]]]].

Definition listing1_doc : node := listing_doc "Corn Outlook 2025".
Definition listing2_doc : node := listing_doc "Corn Outlook 2025 (updated)".

Definition post_doc : node :=
  page [Tag "h1" [] [Str NavigableString "Corn Outlook 2025 (updated)"];
        Tag "p" [] [Str NavigableString "Yields are up."]].

Definition post_body_doc : node :=
  page [Tag "p" [] [Str NavigableString "Yields are up."]].

(** [BeautifulSoup(html, "lxml")] on the pages of the site. *)
Definition site_parse (html : string) : node :=
  if String.eqb html (render listing1_doc) then listing1_doc
  else if String.eqb html (render listing2_doc) then listing2_doc
  else if String.eqb html (render post_doc) then post_doc
  else if String.eqb html "<p>Yields are up.</p>" then post_body_doc
  else if String.eqb html (render post_body_doc) then post_body_doc
  else page [].

(** The network: the state counts the requests made. *)
Definition site_get (requests : nat) (url : string) : option string * nat :=
  (if requests =? 1 then None
   else if String.eqb url "https://roachag.com/Resources/BlogPage/1" then Some (render listing1_doc)
   else if String.eqb url "https://roachag.com/Resources/BlogPage/2" then Some (render listing2_doc)
   else if String.eqb url post_url then Some (render post_doc)
   else None,
   S requests).

(** The same network without the failure. *)
Definition site_get_ok (requests : nat) (url : string) : option string * nat :=
  (if String.eqb url "https://roachag.com/Resources/BlogPage/1" then Some (render listing1_doc)
   else if String.eqb url "https://roachag.com/Resources/BlogPage/2" then Some (render listing2_doc)
   else if String.eqb url post_url then Some (render post_doc)
   else None,
   S requests).

Definition site_listings : list string :=
  ["https://roachag.com/Resources/BlogPage/1"; "https://roachag.com/Resources/BlogPage/2"].

(** ** Content boundary and date *)

(** The heading next to which the body and the date are looked for. *)
Definition is_title_heading (title_text : string) (x : node) : bool :=
  named_in ["h1"; "h2"] x && contains (lower title_text) (lower (get_text "" x)).

(** The title element of [extract_content_html], with its fallback. *)
Definition title_element (soup : node) (title_text : string) : option cursor :=
  match find_title_el soup title_text with
  | Some e => Some e
  | None => find (named_in ["h1"; "h2"]) soup
  end.

(** A sibling that ends the walk: a tag whose text has a stop phrase. *)
Definition is_stop_sibling (sib : node) : bool := is_tag sib && is_stop sib.

(** A sibling that the walk keeps: a tag that is or holds an allowed tag. *)
Definition is_kept_sibling (sib : node) : bool := is_tag sib && is_content sib.

(** The date pattern found in the normalized text of an element. *)
Definition date_in (n : node) : option string :=
  search DATE_RE (normalize_spaces (get_text " " n)).

(** The first date found in a sequence of elements. *)
Fixpoint first_date (l : list node) : option string :=
  match l with
  | [] => None
  | n :: l' =>
      match date_in n with
      | Some m => Some m
      | None => first_date l'
      end
  end.

(** The tags of a document-order sequence. *)
Definition tags_of (l : list element) : list node :=
  map el_node (filter (fun e => is_tag (el_node e)) l).

(** The last resort of [extract_date_text]: the whole page. *)
Definition page_date (soup : node) : string :=
  match date_in soup with
  | Some m => normalize_spaces m
  | None => ""
  end.

(** The example of the specification: two paragraphs, a Related Posts
    heading and a paragraph after the title. *)
Definition para (text : string) : node := Tag "p" [] [Str NavigableString text].

Definition related_heading : node := Tag "h4" [] [Str NavigableString "Related Posts"].

Definition content_doc : node :=
  page [Tag "h1" [] [Str NavigableString "Crop report"];
        para "Corn is up."; para "Soy is down."; related_heading;
        para "Read also our wheat report."].

(** A post whose date stands in the fourth tag after the title. *)
Definition date_doc : node :=
  page [Tag "div" []
          [Tag "h1" [] [Str NavigableString "Crop Report"];
           Tag "div" [("class", "meta")]
             [Tag "span" [] [Str NavigableString "by admin"];
              Tag "span" [] [Str NavigableString "Posted"; Str NavigableString "September 12, 2025"]];
           para "Corn is up."]].

(** The text of the first [time] element, empty when there is none. *)
Definition time_text (soup : node) : string :=
  match find (named "time") soup with
  | Some t => get_text "" (cur_node t)
  | None => ""
  end.

(** ** Date shapes *)

(** A text in which white space is normalized: every white-space character
    is a space, followed by a character that is not white space. *)
Definition starts_with_space (s : string) : bool :=
  match s with String c _ => isspace c | "" => false end.

Fixpoint ws_normal (s : string) : bool :=
  match s with
  | "" => true
  | String c s' =>
      (if isspace c
       then Ascii.eqb c " " && negb (is_empty s') && negb (starts_with_space s')
       else true)
      && ws_normal s'
  end.

(** The weaker property that holds before the ends are stripped. *)
Fixpoint collapsed (s : string) : bool :=
  match s with
  | "" => true
  | String c s' =>
      (if isspace c then Ascii.eqb c " " && negb (starts_with_space s') else true)
      && collapsed s'
  end.

(** The number of the month a word names, in any case. *)
Definition month_number (w : string) : option Z :=
  option_map (fun i => (i + 1)%Z) (index_of (lower w) f_month).

Definition is_digits (s : string) : bool := all_chars isdigit s.

(** [D]: one or two digits.  [YYYY]: four digits. *)
Definition day_text (dd : string) : bool :=
  is_digits dd && ((len dd =? 1) || (len dd =? 2)).

Definition year_text (yyyy : string) : bool :=
  is_digits yyyy && (len yyyy =? 4).

(** [Month D, YYYY] *)
Definition shape_month_d_yyyy (ds : string) (dt : datetime) : Prop :=
  exists w dd yyyy,
    ds = w +:+ " " +:+ dd +:+ ", " +:+ yyyy
    /\ month_number w = Some (month dt)
    /\ day_text dd = true /\ int dd = day dt
    /\ year_text yyyy = true /\ int yyyy = year dt.

(** [D Month YYYY] *)
Definition shape_d_month_yyyy (ds : string) (dt : datetime) : Prop :=
  exists w dd yyyy,
    ds = dd +:+ " " +:+ w +:+ " " +:+ yyyy
    /\ month_number w = Some (month dt)
    /\ day_text dd = true /\ int dd = day dt
    /\ year_text yyyy = true /\ int yyyy = year dt.

(** [YYYY-MM-DD 10:00] *)
Definition iso_text (dt : datetime) : string :=
  zero_padded 4 (year dt) +:+ "-" +:+ zero_padded 2 (month dt) +:+ "-"
  +:+ zero_padded 2 (day dt) +:+ " 10:00".

(** A post with a date in its banner, and the publication date in the
    eighth tag after the title. *)
Definition window_doc : node :=
  page [Tag "div" [("class", "banner")] [Str NavigableString "Updated January 1, 2020"];
        Tag "h1" [] [Str NavigableString "Crop Report"];
        para "one"; para "two"; para "three"; para "four"; para "five"; para "six";
        para "seven"; para "September 12, 2025"].

(** ** Ends of a text, character classes *)

(** The last character of [s] is in the class [p]; the first one is. *)
Definition last_is (p : ascii -> bool) (s : string) : bool :=
  match last_char s with Some c => p c | None => false end.

Definition first_is (p : ascii -> bool) (s : string) : bool :=
  match s with String c _ => p c | "" => false end.

(** A character that is a plain space or no white space at all. *)
Definition blank_or_not_space (c : ascii) : bool := negb (isspace c) || Ascii.eqb c " ".

(** The characters of a slug, [[a-z0-9-]]. *)
Definition slug_char (c : ascii) : bool := islower_ascii c || isdigit c || Ascii.eqb c "-".

Definition is_hyphen (c : ascii) : bool := Ascii.eqb c "-".

(** ** Listed posts, requests and rows *)

Definition link_url (l : link) : string := fst (fst l).

(** A listed post: a title of ten characters or more, and a URL that is
    the normalized form of a reference accepted by [is_clean_post_path]. *)
Definition listed (bracket_ok : string -> bool) (url title : string) : Prop :=
  10 <= len title
  /\ exists href, is_clean_post_path bracket_ok href = true
                  /\ norm_url bracket_ok href = Some url.

(** What holds of [seen] and [all_links] all along [parse_listing]. *)
Definition links_inv (bracket_ok : string -> bool) (st : gset string * list link) : Prop :=
  NoDup (map link_url (snd st))
  /\ (forall l, l ∈ snd st -> link_url l ∈ fst st)
  /\ Forall (fun l => listed bracket_ok (link_url l) (link_title l)) (snd st).

(** The session after the requests for [urls], made in order. *)
Definition after_requests {World : Type} (http_get : World -> string -> option string * World)
    (urls : list string) (w : World) : World :=
  fold_left (fun w u => snd (http_get w u)) urls w.

(** What every assembled post satisfies. *)
Definition post_ok (bracket_ok : string -> bool) (data : ParsedPost) : Prop :=
  is_empty (category data) = false
  /\ skip data = (is_empty (content_html data) && is_empty (date data))
  /\ to_iso_date (date data) = date data
  /\ NoDup (tags data) /\ ("" ∉ tags data)
  /\ norm_url bracket_ok (featured data) = Some (featured data).


(** ** Links of a fragment *)

(** The values of the attribute [key] on the tags named [nm] that have it,
    in document order: what the loop over [find_all(nm, key=True)] reads. *)
Definition attr_values (nm key : string) (s : node) : list string :=
  map (fun e => default "" (get key (el_node e)))
      (find_all (fun t => named nm t && has_attr key t) s).

(** The two loops of [absolutize_links] on the parsed fragment. *)
Definition absolutized (bracket_ok : string -> bool) (s : node) : option node :=
  match rewrite_attr (named "a") "href" (norm_url bracket_ok) s with
  | None => None
  | Some s => rewrite_attr (named "img") "src" (norm_url bracket_ok) s
  end.

(** The nodes of a tree in document order, the root first. *)
Fixpoint preorder (n : node) : list node :=
  n :: match n with
       | Tag _ _ cs => flat_map preorder cs
       | Str _ _ => []
       end.

(** A node and what [rewrite_attr] makes of it, its contents left aside. *)
Definition rewritten (nm key : string) (f : string -> option string) (a b : node) : Prop :=
  match a, b with
  | Str k t, Str k' t' => k = k' /\ t = t'
  | Tag n attrs _, Tag n' attrs' _ =>
      n = n' /\ (if String.eqb n nm then update_attr key f attrs else Some attrs) = Some attrs'
  | _, _ => False
  end.

(** The loop of [rewrite_attr] over the contents of a tag. *)
Definition rewrite_all (p : node -> bool) (key : string) (f : string -> option string) :=
  fix rewrite_all (l : list node) : option (list node) :=
    match l with
    | [] => Some []
    | c :: l' =>
        match rewrite_attr p key f c, rewrite_all l' with
        | Some c', Some l'' => Some (c' :: l'')
        | _, _ => None
        end
    end.

(** [attr_values] on a sequence of nodes. *)
Definition attr_values_of (nm key : string) (l : list node) : list string :=
  map (fun n => default "" (get key n))
      (filter (fun n => is_tag n && (named nm n && has_attr key n)) l).

(** The strings [get_text] collects, on a sequence of nodes. *)
Definition strings_of (tag_name : string) (l : list node) : list string :=
  flat_map (fun n =>
              match n with
              | Str k t =>
                  if interesting tag_name k && negb (is_empty (strip t))
                  then [strip t] else []
              | Tag _ _ _ => []
              end) l.

(** A fragment with a relative link, an anchor without [href] and an image. *)
Definition links_doc : node :=
  Tag "[document]" []
    [Tag "html" []
       [Tag "body" []
          [Tag "p" []
             [Str NavigableString "See ";
              Tag "a" [("href", "/Resources/Corn-Outlook-2025")] [Str NavigableString "the outlook"];
              Tag "a" [("name", "top")] [Str NavigableString "."];
              Tag "img" [("alt", "chart"); ("src", "images/chart.png")] []]]]].

(** ** Year tokens and dates *)

(** The character before a position: the last of [pre], or [prev] when
    [pre] is empty. *)
Definition char_before (prev : option ascii) (pre : string) : option ascii :=
  match last_char pre with Some c => Some c | None => prev end.

(** A year token at the start of [s]: [20] and two digits, not followed by
    a word character. *)
Definition year_token (s : string) : bool :=
  match s with
  | String a (String b (String d1 (String d2 post))) =>
      Ascii.eqb a "2" && Ascii.eqb b "0" && isdigit d1 && isdigit d2
      && negb (first_is isword post)
  | _ => false
  end.

(** A character that is not white space. *)
Definition not_space (c : ascii) : bool := negb (isspace c).

(** [Month D,YYYY], the year right after the comma. *)
Definition month_d_yyyy_tight (w dd yyyy : string) : string :=
  w +:+ " " +:+ dd +:+ "," +:+ yyyy.

(** ** Posts on another host *)

(** Letters, digits, dot and hyphen: the characters of a host name. *)
Definition host_char (c : ascii) : bool :=
  isalpha_ascii c || isdigit c || has_char c ".-".

(** Letters, digits and hyphen. *)
Definition segment_char (c : ascii) : bool :=
  isalpha_ascii c || isdigit c || Ascii.eqb c "-".

(** The URL of a post on any host. *)
Definition post_on (host slug : string) : string :=
  "https://" +:+ host +:+ "/Resources/" +:+ slug.

(** ** Links of a listing page *)

(** The nodes below a node, in document order. *)
Definition below (n : node) : list node := map el_node (descendants n).

(** A post taken from a link of the page: the title is the text of an [a]
    tag of the page that has an [href], the reference passes the path filter
    and the URL is its normalized form. *)
Definition link_of_page (bracket_ok : string -> bool) (soup : node) (url title : string) : Prop :=
  exists a,
    a ∈ below soup
    /\ is_tag a = true /\ named "a" a = true /\ has_attr "href" a = true
    /\ title = get_text "" a
    /\ is_clean_post_path bracket_ok (default "" (get "href" a)) = true
    /\ norm_url bracket_ok (default "" (get "href" a)) = Some url.

Definition links_from (bracket_ok : string -> bool) (soup : node)
    (st : gset string * list link) : Prop :=
  Forall (fun l => link_of_page bracket_ok soup (link_url l) (link_title l)) (snd st).

(** ** The fallback of a listing page *)

(** One of the three nearest ancestors of a link has a sidebar class. *)
Definition in_sidebar (a : element) : bool :=
  existsb is_sidebar_class (firstn 3 (el_parents a)).

(** A post taken by the fallback: a link of the page outside the sidebars,
    with a long enough text and a reference that passes the path filter. *)
Definition main_link_of_page (bracket_ok : string -> bool) (soup : node)
    (url title : string) : Prop :=
  exists a,
    a ∈ find_all (fun t => named "a" t && has_attr "href" t) soup
    /\ in_sidebar a = false
    /\ title = get_text "" (el_node a)
    /\ 10 <= len title
    /\ is_clean_post_path bracket_ok (default "" (get "href" (el_node a))) = true
    /\ norm_url bracket_ok (default "" (get "href" (el_node a))) = Some url.

Definition main_links_from (bracket_ok : string -> bool) (soup : node)
    (st : gset string * list link) : Prop :=
  Forall (fun l => main_link_of_page bracket_ok soup (link_url l) (link_title l)) (snd st).

(** A page without [article.post] blocks, with a link in a sidebar and a
    link in the main column. *)
Definition sidebar_doc : node :=
  page [Tag "div" [("class", "col sidebar-right")]
          [Tag "ul" []
             [Tag "li" []
                [Tag "a" [("href", "/Resources/Wheat-Outlook-2025")]
                   [Str NavigableString "Wheat Outlook 2025"]]]];
        Tag "div" [("class", "main")]
          [Tag "a" [("href", "/Resources/Corn-Outlook-2025")]
             [Str NavigableString "Corn Outlook 2025"]]].

(** * Properties *)

(** ** The post-path filter *)

Section PostPath.

Variable bracket_ok : string -> bool.

Lemma is_clean_post_path_parts (href : string) (r : ParseResult) :
  urlparse bracket_ok href "" = Some r ->
  is_clean_post_path bracket_ok href =
    match path_parts (path r) with
    | first :: second :: _ =>
        String.eqb first "Resources"
        && negb (bool_decide (second ∈ BAD_SLUGS))
        && negb (is_empty second)
    | _ => false
    end.
Proof.
  intros Hr. unfold is_clean_post_path. rewrite Hr.
  destruct (path_parts (path r)) as [|p0 [|p1 rest]]; simpl; [reflexivity | |].
  - destruct (String.eqb p0 "Resources"); reflexivity.
  - destruct (String.eqb p0 "Resources"); simpl; [|reflexivity].
    destruct (bool_decide (p1 ∈ BAD_SLUGS)); simpl; [reflexivity|].
    destruct (is_empty p1); reflexivity.
Qed.

Lemma is_empty_true (s : string) : is_empty s = true <-> s = "".
Proof. destruct s; simpl; split; intros H; congruence. Qed.

Lemma is_empty_false (s : string) : is_empty s = false <-> s <> "".
Proof. destruct s; simpl; split; intros H; congruence. Qed.

(** C7.  A link is accepted exactly when the first segment of its path is
    [Resources] and a second segment is there, is not empty and is not in the
    denylist; the four paths of the specification are classified as it
    says. *)
Theorem C7_is_clean_post_path_accepts :
  (forall href : string,
     is_clean_post_path bracket_ok href = true <->
     exists r first second rest,
       urlparse bracket_ok href "" = Some r
       /\ path_parts (path r) = first :: second :: rest
       /\ first = "Resources" /\ second <> "" /\ second ∉ BAD_SLUGS)
  /\ is_clean_post_path bracket_ok "/Resources/USDA-Update-2025" = true
  /\ is_clean_post_path bracket_ok "/Resources/Calendar" = false
  /\ is_clean_post_path bracket_ok "/Resources/" = false
  /\ is_clean_post_path bracket_ok "/About" = false.
Proof.
  split; [|repeat split; vm_compute; reflexivity].
  intros href. split.
  - intros H. destruct (urlparse bracket_ok href "") as [r|] eqn:Hr.
    + rewrite (is_clean_post_path_parts href r Hr) in H.
      destruct (path_parts (path r)) as [|p0 [|p1 rest]] eqn:Hp; try discriminate.
      apply andb_prop in H as [H H3]. apply andb_prop in H as [H1 H2].
      exists r, p0, p1, rest.
      split; [reflexivity|]. split; [exact Hp|]. split; [|split].
      * now apply String.eqb_eq.
      * apply is_empty_false. now destruct (is_empty p1).
      * intros Hin. rewrite (bool_decide_eq_true_2 _ Hin) in H2. discriminate.
    + unfold is_clean_post_path in H. rewrite Hr in H. discriminate.
  - intros (r & p0 & p1 & rest & Hr & Hp & H1 & H2 & H3).
    rewrite (is_clean_post_path_parts href r Hr), Hp.
    apply andb_true_intro; split; [apply andb_true_intro; split|].
    + now apply String.eqb_eq.
    + apply negb_true_iff. now apply bool_decide_eq_false_2.
    + apply negb_true_iff. now apply is_empty_false.
Qed.

(** C10.  The denylist is compared with the case of the letters: [Calendar]
    is denied, and the same path spelled [calendar] is accepted. *)
Theorem C10_denylist_is_case_sensitive :
  "Calendar" ∈ BAD_SLUGS
  /\ lower "Calendar" = lower "calendar"
  /\ is_clean_post_path bracket_ok "/Resources/Calendar" = false
  /\ is_clean_post_path bracket_ok "/Resources/calendar" = true.
Proof.
  split; [|split; [|split]]; [|vm_compute; reflexivity..].
  apply (bool_decide_eq_true_1 ("Calendar" ∈ BAD_SLUGS)). vm_compute. reflexivity.
Qed.

End PostPath.

(** ** The listing parser *)

Section Listing.

Variable BeautifulSoup : string -> node.
Variable bracket_ok : string -> bool.

(** Whether [urlsplit] raises does not depend on the default scheme. *)
Lemma urlsplit_raises_indep (url s1 s2 : string) :
  urlsplit bracket_ok url s1 = None -> urlsplit bracket_ok url s2 = None.
Proof.
  unfold urlsplit.
  generalize (remove_unsafe (strip_by c0_or_space s1))
             (remove_unsafe (strip_by c0_or_space s2)).
  generalize (remove_unsafe (lstrip_by c0_or_space url)).
  intros u d1 d2.
  destruct (split1 ":" u) as [[|c0 before] [after|]];
    try destruct (isalpha_ascii c0 && all_chars scheme_char (String c0 before));
    cbv beta iota;
    match goal with
    | |- context [startswith "//" ?v] =>
        destruct (startswith "//" v); [destruct (splitnetloc v) as [n v2]|]
    end;
    repeat match goal with
    | |- context [if ?c then None else _] => destruct c; [reflexivity|]
    | |- context [split1 ?a ?b] => destruct (split1 a b) as [? [?|]]
    end; discriminate.
Qed.

Lemma urlparse_raises_indep (url s1 s2 : string) :
  urlparse bracket_ok url s1 = None -> urlparse bracket_ok url s2 = None.
Proof.
  unfold urlparse. intros H.
  destruct (urlsplit bracket_ok url s1) as [[[[[? ?] ?] ?] ?]|] eqn:E.
  - repeat case_match; discriminate.
  - now rewrite (urlsplit_raises_indep url s1 s2 E).
Qed.

Lemma urlparse_BASE :
  urlparse bracket_ok BASE "" =
  Some (mk_ParseResult "https" "roachag.com" "" "" "" "").
Proof. reflexivity. Qed.

(** [urljoin] raises only where [urlparse] raises on the reference. *)
Lemma urljoin_BASE_total (url : string) :
  urlparse bracket_ok url "" <> None ->
  exists joined, urljoin bracket_ok BASE url = Some joined.
Proof.
  intros H. unfold urljoin. rewrite urlparse_BASE.
  change (is_empty BASE) with false. cbv iota.
  destruct (is_empty url); [eauto|].
  destruct (urlparse bracket_ok url (scheme _)) as [u|] eqn:E.
  - repeat case_match; eauto.
  - exfalso. apply H. exact (urlparse_raises_indep _ _ _ E).
Qed.

(** A reference that passes the path filter is normalized without error. *)
Lemma norm_url_clean (href : string) :
  is_clean_post_path bracket_ok href = true ->
  exists full_url, norm_url bracket_ok href = Some full_url.
Proof.
  intros H. unfold norm_url.
  destruct (is_empty href); [eauto|].
  destruct (startswith "http" href); [eauto|].
  apply urljoin_BASE_total. intros E.
  unfold is_clean_post_path in H. rewrite E in H. discriminate.
Qed.


(** *** The order of the candidates *)

Lemma enumerate_from_app {A : Type} (i : nat) (l l' : list A) :
  enumerate_from i (l ++ l') =
  enumerate_from i l ++ enumerate_from (i + length l) l'.
Proof.
  revert i. induction l as [|x l IH]; intros i; simpl.
  - now rewrite Nat.add_0_r.
  - rewrite IH. now replace (S i + length l) with (i + S (length l)) by lia.
Qed.

Lemma enumerate_from_bound {A : Type} (i : nat) (l : list A) :
  Forall (fun x => i <= fst x < i + length l) (enumerate_from i l).
Proof.
  revert i. induction l as [|x l IH]; intros i; simpl; constructor.
  - simpl. lia.
  - eapply Forall_impl; [apply (IH (S i))|]. simpl. intros; lia.
Qed.

Lemma enumerate_from_filter {A : Type} (p : A -> bool) (i : nat) (l : list A) :
  map snd (filter (fun x : nat * A => p (snd x)) (enumerate_from i l)) = filter p l.
Proof.
  revert i. induction l as [|x l IH]; intros i; [reflexivity|]. simpl.
  destruct (p x) eqn:E.
  - rewrite !filter_cons_True by (simpl; now rewrite E). simpl. now rewrite IH.
  - rewrite !filter_cons_False by (simpl; now rewrite E). apply IH.
Qed.

Lemma sort_by_key_snoc {A : Type} (key : A -> bool * nat) (l : list A) (x : A) :
  sort_by_key key (l ++ [x]) = insert_by_key key x (sort_by_key key l).
Proof. unfold sort_by_key. now rewrite fold_left_app. Qed.

(** An item passes over the items whose key is not greater than its own. *)
Lemma insert_by_key_skip {A : Type} (key : A -> bool * nat) (x : A) (l1 l2 : list A) :
  Forall (fun a => key_lt (key x) (key a) = false) l1 ->
  insert_by_key key x (l1 ++ l2) = l1 ++ insert_by_key key x l2.
Proof.
  induction 1 as [|a l1 Ha _ IH]; [reflexivity|].
  simpl. now rewrite Ha, IH.
Qed.

Lemma insert_by_key_end {A : Type} (key : A -> bool * nat) (x : A) (l : list A) :
  Forall (fun a => key_lt (key x) (key a) = false) l ->
  insert_by_key key x l = l ++ [x].
Proof.
  intros H. rewrite <- (app_nil_r l) at 1. now rewrite insert_by_key_skip.
Qed.

(** It stops in front of an item of greater key. *)
Lemma insert_by_key_front {A : Type} (key : A -> bool * nat) (x : A) (l : list A) :
  Forall (fun b => key_lt (key x) (key b) = true) l ->
  insert_by_key key x l = x :: l.
Proof. destruct 1 as [|b l Hb _]; [reflexivity|]. simpl. now rewrite Hb. Qed.

(** The sort of [parse_listing] puts the links with a year first and keeps
    the order found inside both groups. *)
Lemma sort_enumerate (l : list link) :
  sort_by_key link_key (enumerate l) =
  filter (fun x : nat * link => link_has_year (snd x)) (enumerate l)
  ++ filter (fun x : nat * link => negb (link_has_year (snd x))) (enumerate l).
Proof.
  induction l as [|x l IH] using rev_ind; [reflexivity|].
  unfold enumerate in *. rewrite enumerate_from_app. simpl.
  rewrite sort_by_key_snoc, IH, !filter_app.
  pose proof (enumerate_from_bound 0 l) as Hb.
  assert (Hy : Forall (fun a : nat * link => fst a < length l)
                 (filter (fun x : nat * link => link_has_year (snd x)) (enumerate_from 0 l))).
  { apply list.Forall_forall. intros a [_ Ha]%list_elem_of_filter.
    rewrite list.Forall_forall in Hb. apply Hb in Ha. lia. }
  assert (Hn : Forall (fun a : nat * link => fst a < length l /\ link_has_year (snd a) = false)
                 (filter (fun x : nat * link => negb (link_has_year (snd x))) (enumerate_from 0 l))).
  { apply list.Forall_forall. intros a [Hf Ha]%list_elem_of_filter.
    rewrite list.Forall_forall in Hb. apply Hb in Ha. split; [lia|].
    simpl in Hf. now destruct (link_has_year (snd a)). }
  assert (Hy' : Forall (fun a : nat * link => link_has_year (snd a) = true)
                 (filter (fun x : nat * link => link_has_year (snd x)) (enumerate_from 0 l))).
  { apply list.Forall_forall. intros a [Hf _]%list_elem_of_filter.
    simpl in Hf. now destruct (link_has_year (snd a)). }
  destruct (link_has_year x) eqn:Ex.
  - rewrite (filter_cons_True _ (0 + length l, x)) by (simpl; now rewrite Ex).
    rewrite (filter_cons_False _ (0 + length l, x)) by (simpl; now rewrite Ex).
    rewrite !filter_nil, app_nil_r.
    rewrite insert_by_key_skip.
    + rewrite insert_by_key_front; [now rewrite <- app_assoc|].
      eapply Forall_impl; [exact Hn|]. intros a [_ Ha].
      unfold key_lt, link_key. simpl. now rewrite Ex, Ha.
    + apply list.Forall_forall. intros a Ha.
      rewrite list.Forall_forall in Hy, Hy'. specialize (Hy a Ha). specialize (Hy' a Ha).
      unfold key_lt, link_key. simpl. rewrite Ex, Hy'. simpl.
      apply Nat.ltb_ge. lia.
  - rewrite (filter_cons_False _ (0 + length l, x)) by (simpl; now rewrite Ex).
    rewrite (filter_cons_True _ (0 + length l, x)) by (simpl; now rewrite Ex).
    rewrite !filter_nil, app_nil_r.
    rewrite insert_by_key_skip.
    + rewrite insert_by_key_end; [reflexivity|].
      eapply Forall_impl; [exact Hn|]. intros a [Hlt Ha].
      unfold key_lt, link_key. simpl. rewrite Ex, Ha. simpl.
      apply Nat.ltb_ge. lia.
    + eapply Forall_impl; [exact Hy'|]. intros a Ha.
      unfold key_lt, link_key. simpl. now rewrite Ex, Ha.
Qed.

Lemma order_links_eq (all_links : list link) :
  order_links all_links =
  map url_title
    (firstn 10 (filter link_has_year all_links
                ++ filter (fun l => negb (link_has_year l)) all_links)).
Proof.
  unfold order_links.
  change (fun x : nat * link => (negb (link_has_year (snd x)), fst x)) with link_key.
  rewrite sort_enumerate, map_app. unfold enumerate.
  rewrite (enumerate_from_filter link_has_year).
  rewrite (enumerate_from_filter (fun l => negb (link_has_year l))).
  reflexivity.
Qed.


(** *** The candidates of a page *)

Lemma add_link_ok (href text : string) (st : gset string * list link) :
  is_clean_post_path bracket_ok href = true -> flags_ok st ->
  exists st', add_link bracket_ok href text st = Some st' /\ flags_ok st'.
Proof.
  intros Hc Hst. destruct (norm_url_clean href Hc) as [u Hu].
  unfold add_link. rewrite Hu. destruct st as [seen all_links].
  destruct (bool_decide (u ∈ seen)); eexists; (split; [reflexivity|]); [exact Hst|].
  unfold flags_ok in *. simpl in *. apply Forall_app. split; [exact Hst|].
  constructor; [reflexivity|constructor].
Qed.

Lemma article_step_ok (st : gset string * list link) (article : element) :
  flags_ok st ->
  exists st', article_step bracket_ok st article = Some st' /\ flags_ok st'.
Proof.
  intros Hst. unfold article_step.
  repeat (case_match; eauto using add_link_ok).
Qed.

Lemma fallback_step_ok (st : gset string * list link) (a : element) :
  flags_ok st ->
  exists st', fallback_step bracket_ok st a = Some st' /\ flags_ok st'.
Proof.
  intros Hst. unfold fallback_step.
  destruct (is_clean_post_path bracket_ok _) eqn:Hc; simpl; [|eauto].
  repeat (case_match; eauto using add_link_ok).
Qed.

Lemma fold_raise_ok {S A : Type} (f : S -> A -> option S) (Inv : S -> Prop)
    (l : list A) (st : S) :
  (forall st x, Inv st -> exists st', f st x = Some st' /\ Inv st') ->
  Inv st ->
  exists st', fold_raise f l st = Some st' /\ Inv st'.
Proof.
  intros Hf. revert st. induction l as [|x l IH]; intros st Hst; simpl; [eauto|].
  destruct (Hf st x Hst) as (st' & -> & Hst'). now apply IH.
Qed.

(** [parse_listing] does not raise, and its candidates are flagged by
    [YEAR_RE]. *)
Lemma collect_links_ok (soup : node) :
  exists all_links,
    collect_links bracket_ok soup = Some all_links
    /\ Forall (fun l => link_has_year l = YEAR_RE_search (link_title l)) all_links.
Proof.
  unfold collect_links.
  destruct (fold_raise_ok (article_step bracket_ok) flags_ok
              (find_all (fun t => named "article" t && has_class "post" t) soup)
              (∅, []) article_step_ok) as ([seen all_links] & -> & Hinv).
  { constructor. }
  destruct (length all_links =? 0); [|eauto].
  destruct (fold_raise_ok (fallback_step bracket_ok) flags_ok
              (find_all (fun t => named "a" t && has_attr "href" t) soup)
              (seen, all_links) fallback_step_ok Hinv) as ([seen' all'] & -> & Hinv').
  simpl. eauto.
Qed.



End Listing.

(** ** Searching a document *)

Lemma first_match_None (p : node -> bool) (l : list element) :
  first_match p l = None <->
  Forall (fun e => is_tag (el_node e) && p (el_node e) = false) l.
Proof.
  induction l as [|e l IH]; simpl.
  - split; [constructor|reflexivity].
  - destruct (is_tag (el_node e) && p (el_node e)) eqn:E.
    + split; [discriminate|]. intros H. inversion H; congruence.
    + rewrite IH. split; [now constructor|]. intros H. now inversion H.
Qed.

(** The first match splits the sequence: nothing before it matches. *)
Lemma first_match_Some (p : node -> bool) (l : list element) (e : element)
    (rest : list element) :
  first_match p l = Some (e, rest) <->
  exists before,
    l = before ++ e :: rest
    /\ Forall (fun e' => is_tag (el_node e') && p (el_node e') = false) before
    /\ is_tag (el_node e) = true /\ p (el_node e) = true.
Proof.
  revert e rest. induction l as [|x l IH]; intros e rest; simpl.
  - split; [discriminate|]. intros (before & H & _). now destruct before.
  - destruct (is_tag (el_node x) && p (el_node x)) eqn:E.
    + split.
      * intros [= -> ->]. exists []. apply andb_prop in E as [? ?]. repeat split; auto.
      * intros ([|b before] & H & Hb & Ht & Hp); simpl in H.
        -- now inversion H.
        -- inversion H; subst. inversion Hb; congruence.
    + rewrite IH. split.
      * intros (before & -> & Hb & Ht & Hp). exists (x :: before). repeat split; auto.
      * intros ([|b before] & H & Hb & Ht & Hp); simpl in H; inversion H; subst.
        -- rewrite Ht, Hp in E. discriminate.
        -- exists before. inversion Hb. repeat split; auto.
Qed.

Lemma first_match_exists (p : node -> bool) (l : list element) :
  (exists e, e ∈ l /\ is_tag (el_node e) = true /\ p (el_node e) = true) ->
  exists c, first_match p l = Some c /\ p (cur_node c) = true.
Proof.
  intros (e & He & Ht & Hp).
  destruct (first_match p l) as [[e' rest]|] eqn:E.
  - exists (e', rest). split; [reflexivity|].
    apply first_match_Some in E as (_ & _ & _ & _ & H). exact H.
  - apply first_match_None in E. rewrite list.Forall_forall in E.
    specialize (E e He). rewrite Ht, Hp in E. discriminate.
Qed.

(** ** Tags *)

Lemma existsb_eqb_In (k : string) (keys : list string) :
  existsb (String.eqb k) keys = true <-> k ∈ keys.
Proof.
  rewrite existsb_exists. split.
  - intros (x & Hx & E). apply String.eqb_eq in E as ->. now apply list_elem_of_In.
  - intros H. exists k. split; [now apply list_elem_of_In|apply String.eqb_refl].
Qed.

Lemma filter_not_in_snoc (acc : list string) (x : string) (l : list string) :
  filter (fun y => y ∉ acc ++ [x]) l = filter (fun y => y ∉ acc) (filter (fun y => y <> x) l).
Proof.
  induction l as [|y l IH]; [reflexivity|].
  rewrite (filter_cons (fun y => y ∉ acc ++ [x])), (filter_cons (fun y => y <> x)).
  destruct (decide (y ∉ acc ++ [x])) as [Hy|Hy]; destruct (decide (y <> x)) as [Hx|Hx].
  - rewrite filter_cons_True, IH; [reflexivity|].
    intros Hin. apply Hy, elem_of_app. now left.
  - exfalso. apply Hx. intros ->. apply Hy, elem_of_app. right. apply list_elem_of_singleton.
    reflexivity.
  - rewrite filter_cons_False, IH; [reflexivity|].
    intros Hn. apply Hy. intros [Hin|Hin%list_elem_of_singleton]%elem_of_app; auto.
  - exact IH.
Qed.

Lemma filter_not_in_id (acc : list string) (x : string) (l : list string) :
  x ∈ acc ->
  filter (fun y => y ∉ acc) (filter (fun y => y <> x) l) = filter (fun y => y ∉ acc) l.
Proof.
  intros Hx. induction l as [|y l IH]; [reflexivity|].
  rewrite (filter_cons (fun y => y <> x)), (filter_cons (fun y => y ∉ acc) y l).
  destruct (decide (y <> x)) as [H|H].
  - rewrite filter_cons, IH. reflexivity.
  - apply dec_stable in H as ->. rewrite IH. now destruct (decide (x ∉ acc)).
Qed.

(** The accumulation of [dict.fromkeys], started from any keys. *)
Lemma dict_fromkeys_from (l acc : list string) :
  fold_left (fun keys k => if existsb (String.eqb k) keys then keys else keys ++ [k]) l acc
  = acc ++ filter (fun y => y ∉ acc) (dedup_first l).
Proof.
  revert acc. induction l as [|x l IH]; intros acc; simpl.
  - now rewrite app_nil_r.
  - rewrite IH. destruct (existsb (String.eqb x) acc) eqn:E.
    + apply existsb_eqb_In in E.
      rewrite filter_cons_False by (intros H; now apply H).
      now rewrite filter_not_in_id.
    + assert (x ∉ acc) as Hx.
      { intros H. apply existsb_eqb_In in H. congruence. }
      rewrite filter_cons_True by exact Hx.
      rewrite filter_not_in_snoc, <- app_assoc. reflexivity.
Qed.

Lemma dict_fromkeys_dedup (l : list string) : dict_fromkeys l = dedup_first l.
Proof.
  unfold dict_fromkeys. rewrite dict_fromkeys_from. simpl.
  induction (dedup_first l) as [|y l' IH]; [reflexivity|].
  rewrite filter_cons_True by set_solver. now rewrite IH.
Qed.

Lemma dedup_first_elem (l : list string) (x : string) : x ∈ dedup_first l <-> x ∈ l.
Proof.
  induction l as [|y l IH]; simpl; [reflexivity|].
  rewrite !elem_of_cons, list_elem_of_filter, IH.
  destruct (decide (x = y)); tauto.
Qed.

Lemma dedup_first_NoDup (l : list string) : NoDup (dedup_first l).
Proof.
  induction l as [|y l IH]; simpl; constructor.
  - rewrite list_elem_of_filter. tauto.
  - now apply NoDup_filter.
Qed.

Lemma extract_tags_unfold (soup : node) :
  extract_tags soup =
  match find is_tags_heading soup with
  | Some h =>
      match find_next_sibling h with
      | Some cont => dedup_first (filter (fun t => negb (is_empty t)) (link_texts cont))
      | None => []
      end
  | None => []
  end.
Proof.
  unfold extract_tags. change (fun t : node => _ && (_ =? "tags")%string) with is_tags_heading.
  destruct (find is_tags_heading soup) as [h|]; [|reflexivity].
  destruct (find_next_sibling h) as [cont|]; [|reflexivity].
  apply dict_fromkeys_dedup.
Qed.

(** C8.  With a heading of level 3 to 5 whose text is [tags] in any case, the
    tags are the link texts of the tag that follows the first such heading
    among its siblings, the empty ones dropped and every duplicate after the
    first occurrence removed; without such a heading the result is the empty
    list.  Links WASDE, Corn, WASDE give WASDE, Corn. *)
Theorem C8_extract_tags :
  (forall soup : node,
     (exists e, e ∈ descendants soup
                /\ is_tag (el_node e) = true /\ is_tags_heading (el_node e) = true) ->
     exists h,
       find is_tags_heading soup = Some h
       /\ is_tags_heading (cur_node h) = true
       /\ extract_tags soup =
          match find_next_sibling h with
          | Some cont => dedup_first (filter (fun t => negb (is_empty t)) (link_texts cont))
          | None => []
          end)
  /\ (forall soup : node,
        (forall e, e ∈ descendants soup -> is_tag (el_node e) = true ->
                   is_tags_heading (el_node e) = false) ->
        extract_tags soup = [])
  /\ (forall l : list string,
        NoDup (dedup_first l) /\ forall x, x ∈ dedup_first l <-> x ∈ l)
  /\ dedup_first ["WASDE"; "Corn"; "WASDE"] = ["WASDE"; "Corn"]
  /\ extract_tags tags_doc = ["WASDE"; "Corn"].
Proof.
  split; [|split; [|split; [|split]]].
  - intros soup Hex. destruct (first_match_exists _ _ Hex) as (h & Hh & Hp).
    exists h. split; [exact Hh|]. split; [exact Hp|].
    rewrite extract_tags_unfold. unfold find. now rewrite Hh.
  - intros soup Hno. rewrite extract_tags_unfold.
    replace (find is_tags_heading soup) with (@None cursor); [reflexivity|].
    symmetry. apply first_match_None, list.Forall_forall. intros e He.
    destruct (is_tag (el_node e)) eqn:Ht; [|reflexivity]. simpl. now apply Hno.
  - intros l. split; [apply dedup_first_NoDup|apply dedup_first_elem].
  - vm_compute. reflexivity.
  - vm_compute. reflexivity.
Qed.

Lemma C8_extract_tags_witness :
  exists h,
    find is_tags_heading tags_doc = Some h
    /\ is_tags_heading (cur_node h) = true
    /\ extract_tags tags_doc =
       match find_next_sibling h with
       | Some cont => dedup_first (filter (fun t => negb (is_empty t)) (link_texts cont))
       | None => []
       end.
Proof.
  apply (proj1 C8_extract_tags tags_doc).
  eexists. split; [|split].
  - apply list_elem_of_lookup. exists 4. vm_compute. reflexivity.
  - reflexivity.
  - vm_compute. reflexivity.
Defined.

(** ** Assembling a post and running over the listings *)

Section Run.

Variable World : Type.
Variable http_get : World -> string -> option string * World.
Variable BeautifulSoup : string -> node.
Variable str : node -> string.
Variable bracket_ok : string -> bool.

Abbreviation parse_post := (parse_post World http_get BeautifulSoup str bracket_ok).
Abbreviation post_step := (post_step World http_get BeautifulSoup str bracket_ok).
Abbreviation listing_step := (listing_step World http_get BeautifulSoup str bracket_ok).
Abbreviation run := (run World http_get BeautifulSoup str bracket_ok).
Abbreviation get_html := (get_html World http_get).
Abbreviation state := (run_state World).
Abbreviation rows := (rows World).
Abbreviation seen_urls := (seen_urls World).
Abbreviation session := (session World).

Lemma source_url_make_row (url : string) (data : ParsedPost) :
  source_url (make_row url data) = url.
Proof. reflexivity. Qed.

(** The fields [skip], [content_html] and [title] of an assembled post. *)
Lemma parse_post_fields (w w' w'' : World) (url expected_title html : string)
    (data : ParsedPost) :
  get_html w url = (Some html, w') ->
  parse_post w url expected_title = (Some data, w'') ->
  skip data =
    is_empty (content_html data)
    && is_empty (extract_date_text (BeautifulSoup html) (title data)).
Proof.
  intros Hg Hp. unfold Scraper.parse_post in Hp. fold get_html in Hp. rewrite Hg in Hp.
  destruct (absolutize_links _ _ _ _) as [body|]; [|discriminate].
  destruct (first_image_url_from_html _ _ _ _) as [img|]; [|discriminate].
  injection Hp as <- _. reflexivity.
Qed.

Lemma post_step_seen (st : state) (url title : string) :
  url ∈ seen_urls st -> post_step st (url, title) = st.
Proof.
  intros H. unfold Scraper.post_step. now rewrite (bool_decide_eq_true_2 _ H).
Qed.

Lemma post_step_new (st : state) (url title : string) :
  url ∉ seen_urls st ->
  post_step st (url, title) =
  match parse_post (session st) url title with
  | (Some data, w) =>
      if skip data then mk_run_state World w (rows st) (seen_urls st)
      else mk_run_state World w (rows st ++ [make_row url data]) ({[url]} ∪ seen_urls st)
  | (None, w) => mk_run_state World w (rows st) (seen_urls st)
  end.
Proof.
  intros H. unfold Scraper.post_step. now rewrite (bool_decide_eq_false_2 _ H).
Qed.

(** C1.  An assembled post has [skip] set exactly when its content HTML and
    the raw date text extracted from the fetched page are both empty, and a
    post with [skip] set adds no row and leaves the seen URLs as they
    were. *)
Theorem C1_skip_policy :
  (forall (w w' w'' : World) (url expected_title html : string) (data : ParsedPost),
     get_html w url = (Some html, w') ->
     parse_post w url expected_title = (Some data, w'') ->
     (skip data = true <->
      content_html data = ""
      /\ extract_date_text (BeautifulSoup html) (title data) = ""))
  /\ (forall (st : state) (url title : string) (data : ParsedPost) (w : World),
        parse_post (session st) url title = (Some data, w) ->
        skip data = true ->
        rows (post_step st (url, title)) = rows st
        /\ seen_urls (post_step st (url, title)) = seen_urls st).
Proof.
  split.
  - intros w w' w'' url expected_title html data Hg Hp.
    rewrite (parse_post_fields _ _ _ _ _ _ _ Hg Hp), andb_true_iff, !is_empty_true.
    reflexivity.
  - intros st url title data w Hp Hs.
    destruct (decide (url ∈ seen_urls st)) as [Hin|Hin].
    + now rewrite post_step_seen.
    + rewrite post_step_new, Hp, Hs by exact Hin. split; reflexivity.
Qed.

(** *** Deduplication across the listing pages *)

Lemma extends_refl (st : state) : extends st st.
Proof. exists []. rewrite app_nil_r. repeat split; [set_solver|constructor]. Qed.

Lemma extends_trans (st1 st2 st3 : state) :
  extends st1 st2 -> extends st2 st3 -> extends st1 st3.
Proof.
  intros (s1 & Hr1 & Hs1 & Hf1) (s2 & Hr2 & Hs2 & Hf2).
  exists (s1 ++ s2). rewrite Hr2, Hr1, <- app_assoc. repeat split; [set_solver|].
  apply Forall_app. split; [exact Hf1|].
  eapply Forall_impl; [exact Hf2|]. simpl. set_solver.
Qed.

Lemma post_step_extends (st : state) (post : string * string) :
  extends st (post_step st post).
Proof.
  destruct post as [url title].
  destruct (decide (url ∈ seen_urls st)) as [Hin|Hin].
  - rewrite post_step_seen by exact Hin. apply extends_refl.
  - rewrite post_step_new by exact Hin.
    destruct (parse_post (session st) url title) as [[data|] w];
      [destruct (skip data)|]; simpl.
    + exists []. rewrite app_nil_r. repeat split; [set_solver|constructor].
    + exists [make_row url data]. simpl. repeat split; [set_solver|].
      constructor; [exact Hin|constructor].
    + exists []. rewrite app_nil_r. repeat split; [set_solver|constructor].
Qed.

Lemma post_step_inv (st : state) (post : string * string) :
  run_inv st -> run_inv (post_step st post).
Proof.
  intros [Hnd Hseen]. destruct post as [url title].
  destruct (decide (url ∈ seen_urls st)) as [Hin|Hin].
  - rewrite post_step_seen by exact Hin. now split.
  - rewrite post_step_new by exact Hin.
    destruct (parse_post (session st) url title) as [[data|] w];
      [destruct (skip data)|]; try (now split).
    split; simpl.
    + rewrite map_app. simpl. apply NoDup_app. split; [exact Hnd|].
      split; [|apply NoDup_singleton].
      intros u Hu ->%list_elem_of_singleton. apply Hin, Hseen, Hu.
    + intros u. rewrite map_app, elem_of_app, elem_of_union, elem_of_singleton. simpl.
      rewrite list_elem_of_singleton, Hseen. tauto.
Qed.

Lemma posts_extends (posts : list (string * string)) (st : state) :
  extends st (fold_left post_step posts st).
Proof.
  revert st. induction posts as [|p posts IH]; intros st; simpl.
  - apply extends_refl.
  - eapply extends_trans; [apply post_step_extends|apply IH].
Qed.

Lemma posts_inv (posts : list (string * string)) (st : state) :
  run_inv st -> run_inv (fold_left post_step posts st).
Proof.
  revert st. induction posts as [|p posts IH]; intros st H; simpl; [exact H|].
  apply IH, post_step_inv, H.
Qed.

(** A listing page never stops the run. *)
Lemma listing_step_ok (st : state) (list_url : string) :
  exists st', listing_step st list_url = Some st'
              /\ extends st st' /\ (run_inv st -> run_inv st').
Proof.
  unfold Scraper.listing_step.
  destruct (Scraper.get_html World http_get (session st) list_url) as [[html|] w].
  - unfold parse_listing.
    destruct (collect_links_ok bracket_ok (BeautifulSoup html)) as (all_links & -> & _).
    simpl. eexists. split; [reflexivity|]. split.
    + eapply extends_trans; [|apply posts_extends].
      exists []. rewrite app_nil_r. repeat split; [set_solver|constructor].
    + intros H. apply posts_inv. exact H.
  - eexists. split; [reflexivity|]. split; [|tauto].
    exists []. rewrite app_nil_r. repeat split; [set_solver|constructor].
Qed.

Lemma listings_ok (listing_urls : list string) (st : state) :
  exists st', fold_raise listing_step listing_urls st = Some st'
              /\ extends st st' /\ (run_inv st -> run_inv st').
Proof.
  revert st. induction listing_urls as [|u l IH]; intros st; simpl.
  - exists st. split; [reflexivity|]. split; [apply extends_refl|tauto].
  - destruct (listing_step_ok st u) as (st1 & -> & He1 & Hi1).
    destruct (IH st1) as (st2 & -> & He2 & Hi2).
    exists st2. split; [reflexivity|]. split; [eapply extends_trans; eauto|tauto].
Qed.

(** Once a URL is seen, nothing that comes after changes its rows. *)
Lemma rows_for_seen (u : string) (st st' : state) :
  u ∈ seen_urls st -> extends st st' -> rows_for u st' = rows_for u st.
Proof.
  intros Hu (suffix & Hr & _ & Hf). unfold rows_for. rewrite Hr, filter_app.
  replace (filter (fun r => source_url r = u) suffix) with (@nil row);
    [apply app_nil_r|].
  symmetry. clear Hr. induction Hf as [|r l Hr' _ IH]; [reflexivity|].
  rewrite filter_cons_False; [exact IH|]. intros E. apply Hr'. now rewrite E.
Qed.

Lemma rows_for_unseen (u : string) (st : state) :
  run_inv st -> u ∉ seen_urls st -> rows_for u st = [].
Proof.
  intros [_ Hseen] Hu. unfold rows_for.
  assert (Forall (fun r => source_url r <> u) (rows st)) as Hf.
  { apply list.Forall_forall. intros r Hr E. apply Hu, Hseen.
    apply list_elem_of_fmap. exists r. now split. }
  clear Hseen. induction Hf as [|r l Hr _ IH]; [reflexivity|].
  rewrite filter_cons_False by exact Hr. exact IH.
Qed.

(** C2.  A run never stops on a listing page and ends with at most
    one row per URL, the seen URLs being those of the rows.  A candidate whose
    URL is seen is dropped and the session is not used.  A URL that was not
    seen is seen afterwards exactly when its post was assembled and not
    skipped, and then its row is appended.  From then on, whatever posts and
    listing pages follow, the rows hold exactly that one row for the URL; and
    rows are only ever appended. *)
Theorem C2_deduplication :
  (forall (listing_urls : list string) (w : World),
     exists st, run listing_urls w = Some st
                /\ NoDup (map source_url (rows st))
                /\ forall u, u ∈ seen_urls st <-> u ∈ map source_url (rows st))
  /\ (forall (st : state) (url title : string),
        url ∈ seen_urls st -> post_step st (url, title) = st)
  /\ (forall (st : state) (url title : string),
        url ∉ seen_urls st ->
        (url ∈ seen_urls (post_step st (url, title)) <->
         exists data w, parse_post (session st) url title = (Some data, w)
                        /\ skip data = false))
  /\ (forall (st : state) (url title : string) (data : ParsedPost) (w : World),
        run_inv st -> url ∉ seen_urls st ->
        parse_post (session st) url title = (Some data, w) -> skip data = false ->
        forall (later_posts : list (string * string)) (later_listings : list string)
               (st' : state),
          fold_raise listing_step later_listings
            (fold_left post_step later_posts (post_step st (url, title))) = Some st' ->
          rows_for url st' = [make_row url data])
  /\ (forall (st : state) (posts : list (string * string)) (listings : list string)
             (st' : state),
        fold_raise listing_step listings (fold_left post_step posts st) = Some st' ->
        exists suffix, rows st' = rows st ++ suffix).
Proof.
  split; [|split; [|split; [|split]]].
  - intros listing_urls w. unfold Scraper.run.
    destruct (listings_ok listing_urls (mk_run_state World w [] ∅)) as (st & Hst & _ & Hinv).
    exists st. split; [exact Hst|]. apply Hinv. split; simpl; [constructor|set_solver].
  - apply post_step_seen.
  - intros st url title Hin. rewrite post_step_new by exact Hin.
    destruct (parse_post (session st) url title) as [[data|] w];
      [destruct (skip data) eqn:Hs|]; simpl; split.
    + intros H. contradiction.
    + intros (d & w' & [= <- _] & Hd). congruence.
    + intros _. eauto.
    + intros _. set_solver.
    + intros H. contradiction.
    + intros (d & w' & [=] & _).
  - intros st url title data w Hinv Hin Hp Hs later_posts later_listings st' Hrun.
    destruct (listings_ok later_listings
                (fold_left post_step later_posts (post_step st (url, title))))
      as (st2 & Hst2 & Hext & _).
    rewrite Hrun in Hst2. injection Hst2 as <-.
    assert (extends (post_step st (url, title)) st') as Hext'.
    { eapply extends_trans; [apply posts_extends|exact Hext]. }
    assert (url ∈ seen_urls (post_step st (url, title))) as Hseen.
    { rewrite post_step_new, Hp, Hs by exact Hin. simpl. set_solver. }
    rewrite (rows_for_seen url _ _ Hseen Hext').
    rewrite post_step_new, Hp, Hs by exact Hin. unfold rows_for. simpl.
    rewrite filter_app. fold (rows_for url st). rewrite (rows_for_unseen url st Hinv Hin).
    simpl. rewrite filter_cons_True by apply source_url_make_row. reflexivity.
  - intros st posts listings st' Hrun.
    destruct (listings_ok listings (fold_left post_step posts st)) as (st2 & Hst2 & Hext & _).
    rewrite Hrun in Hst2. injection Hst2 as <-.
    destruct (extends_trans _ _ _ (posts_extends posts st) Hext) as (suffix & Hr & _).
    now exists suffix.
Qed.

End Run.

(** A listing page taken for a post: no body next to the heading, no date
    anywhere, so the post is skipped and leaves no row. *)
Lemma C1_skip_policy_witness :
  (skip (mk_ParsedPost "Corn Outlook 2025" "" "USDA Supply/Demand" [] "" "" true) = true <->
   content_html (mk_ParsedPost "Corn Outlook 2025" "" "USDA Supply/Demand" [] "" "" true) = ""
   /\ extract_date_text (site_parse (render listing1_doc)) "Corn Outlook 2025" = "")
  /\ rows nat
       (post_step nat site_get_ok site_parse render (fun _ => true)
          (mk_run_state nat 0 [] ∅)
          ("https://roachag.com/Resources/BlogPage/1", "Corn Outlook 2025")) = [].
Proof.
  split.
  - apply (proj1 (C1_skip_policy nat site_get_ok site_parse render (fun _ => true))
             0 1 1 "https://roachag.com/Resources/BlogPage/1" "Corn Outlook 2025"
             (render listing1_doc)
             (mk_ParsedPost "Corn Outlook 2025" "" "USDA Supply/Demand" [] "" "" true)).
    + reflexivity.
    + vm_compute. reflexivity.
  - apply (proj2 (C1_skip_policy nat site_get_ok site_parse render (fun _ => true))
             (mk_run_state nat 0 [] ∅)
             "https://roachag.com/Resources/BlogPage/1" "Corn Outlook 2025"
             (mk_ParsedPost "Corn Outlook 2025" "" "USDA Supply/Demand" [] "" "" true) 1).
    + vm_compute. reflexivity.
    + reflexivity.
Defined.

(** On the small site without the failure, the post listed on both pages
    gives the one row of its first encounter. *)
Lemma C2_deduplication_witness :
  rows_for post_url
    (mk_run_state nat 3
       [make_row post_url
          (mk_ParsedPost "Corn Outlook 2025" "" "USDA Supply/Demand" []
             "<html><body><p>Yields are up.</p></body></html>" "" false)]
       {[post_url]})
  = [make_row post_url
       (mk_ParsedPost "Corn Outlook 2025" "" "USDA Supply/Demand" []
          "<html><body><p>Yields are up.</p></body></html>" "" false)].
Proof.
  refine (proj1 (proj2 (proj2 (proj2
            (C2_deduplication nat site_get_ok site_parse render (fun _ => true)))))
          (mk_run_state nat 1 [] ∅) post_url "Corn Outlook 2025"
          (mk_ParsedPost "Corn Outlook 2025" "" "USDA Supply/Demand" []
             "<html><body><p>Yields are up.</p></body></html>" "" false)
          2 _ _ _ _ [] ["https://roachag.com/Resources/BlogPage/2"] _ _).
  - split; simpl; [constructor|set_solver].
  - set_solver.
  - vm_compute. reflexivity.
  - reflexivity.
  - vm_compute. reflexivity.
Defined.

(** The one row of a URL need not be that of its first encounter.  On the
    small site the first request for the post fails: both listing pages list
    the post, it is requested at both encounters (four requests in all), and
    the one row of the output is that of the second encounter, as its title
    shows. *)
Lemma C2_counterexample :
  parse_listing site_parse (fun _ => true) (render listing1_doc)
    = Some [(post_url, "Corn Outlook 2025")]
  /\ parse_listing site_parse (fun _ => true) (render listing2_doc)
    = Some [(post_url, "Corn Outlook 2025 (updated)")]
  /\ exists st,
       run nat site_get site_parse render (fun _ => true) site_listings 0 = Some st
       /\ map source_url (rows nat st) = [post_url]
       /\ map (lookup_attr "post_title") (rows nat st) = [Some "Corn Outlook 2025 (updated)"]
       /\ session nat st = 4.
Proof.
  split; [vm_compute; reflexivity|]. split; [vm_compute; reflexivity|].
  eexists. split; [vm_compute; reflexivity|]. repeat split.
Qed.

(** ** The content boundary *)

Section Content.

Variable str : node -> string.

(** Before the first stop the walk keeps the content siblings; it takes
    nothing from the stop on. *)
Lemma content_parts_stop (before after : list node) (stop : node) :
  Forall (fun s => is_stop_sibling s = false) before ->
  is_stop_sibling stop = true ->
  content_parts (before ++ stop :: after) = filter is_kept_sibling before.
Proof.
  intros Hb Hs. induction Hb as [|s before Hs' _ IH]; simpl.
  - apply andb_prop in Hs as [-> ->]. reflexivity.
  - rewrite IH, filter_cons. unfold is_stop_sibling, is_kept_sibling in *.
    destruct (is_tag s); simpl in *; [|reflexivity].
    rewrite Hs'. destruct (is_content s); reflexivity.
Qed.

Lemma content_parts_no_stop (sibs : list node) :
  Forall (fun s => is_stop_sibling s = false) sibs ->
  content_parts sibs = filter is_kept_sibling sibs.
Proof.
  induction 1 as [|s sibs Hs' _ IH]; simpl; [reflexivity|].
  rewrite IH, filter_cons. unfold is_stop_sibling, is_kept_sibling in *.
  destruct (is_tag s); simpl in *; [|reflexivity].
  rewrite Hs'. destruct (is_content s); reflexivity.
Qed.

Lemma extract_content_html_unfold (soup : node) (title_text : string) :
  extract_content_html str soup title_text =
  match title_element soup title_text with
  | Some title_el => strip (join "" (map str (content_parts (next_siblings title_el))))
  | None => ""
  end.
Proof. reflexivity. Qed.

(** C4.  When the siblings that follow the title element are [before], then
    a tag [stop] whose text (lower case, first 40 characters) has a stop
    phrase, then [after], and no tag of [before] is such a stop, the fragment
    is made of kept siblings of [before] only: neither [stop] nor anything of
    [after] is in it.  After the title, two paragraphs, a heading Related
    Posts and a paragraph give the first two paragraphs. *)
Theorem C4_content_boundary :
  (forall (soup : node) (title_text : string) (title_el : cursor)
          (before after : list node) (stop : node),
     title_element soup title_text = Some title_el ->
     next_siblings title_el = before ++ stop :: after ->
     Forall (fun s => is_stop_sibling s = false) before ->
     is_stop_sibling stop = true ->
     content_parts (next_siblings title_el) = filter is_kept_sibling before
     /\ extract_content_html str soup title_text =
        strip (join "" (map str (filter is_kept_sibling before))))
  /\ (forall (a1 a2 : list (string * string)) (c1 c2 : list node) (last : node),
        is_stop (Tag "p" a1 c1) = false ->
        is_stop (Tag "p" a2 c2) = false ->
        content_parts [Tag "p" a1 c1; Tag "p" a2 c2; related_heading; last]
        = [Tag "p" a1 c1; Tag "p" a2 c2])
  /\ extract_content_html render content_doc "Crop report"
     = "<p>Corn is up.</p><p>Soy is down.</p>".
Proof.
  split; [|split].
  - intros soup title_text title_el before after stop Ht Hn Hb Hs.
    rewrite extract_content_html_unfold, Ht, Hn.
    rewrite (content_parts_stop before after stop Hb Hs). split; reflexivity.
  - intros a1 a2 c1 c2 last H1 H2.
    change [Tag "p" a1 c1; Tag "p" a2 c2; related_heading; last]
      with ([Tag "p" a1 c1; Tag "p" a2 c2] ++ related_heading :: [last]).
    rewrite content_parts_stop.
    + reflexivity.
    + repeat constructor; unfold is_stop_sibling; simpl; assumption.
    + reflexivity.
  - vm_compute. reflexivity.
Qed.

End Content.

Lemma C4_content_boundary_witness :
  content_parts [para "Corn is up."; para "Soy is down."; related_heading;
                 para "Read also our wheat report."]
  = filter is_kept_sibling [para "Corn is up."; para "Soy is down."]
  /\ extract_content_html render content_doc "Crop report" =
     strip (join "" (map render
                       (filter is_kept_sibling [para "Corn is up."; para "Soy is down."])))
  /\ content_parts [para "Corn is up."; para "Soy is down."; related_heading;
                    para "Read also our wheat report."]
     = [para "Corn is up."; para "Soy is down."].
Proof.
  split; [|split].
  - refine (proj1 (proj1 (C4_content_boundary render) content_doc "Crop report"
                     (mk_element (Tag "h1" [] [Str NavigableString "Crop report"]) _ _, _)
                     [para "Corn is up."; para "Soy is down."]
                     [para "Read also our wheat report."] related_heading _ _ _ _)).
    + vm_compute. reflexivity.
    + reflexivity.
    + repeat constructor.
    + reflexivity.
  - refine (proj2 (proj1 (C4_content_boundary render) content_doc "Crop report"
                     (mk_element (Tag "h1" [] [Str NavigableString "Crop report"]) _ _, _)
                     [para "Corn is up."; para "Soy is down."]
                     [para "Read also our wheat report."] related_heading _ _ _ _)).
    + vm_compute. reflexivity.
    + reflexivity.
    + repeat constructor.
    + reflexivity.
  - apply (proj1 (proj2 (C4_content_boundary render))); reflexivity.
Defined.

(** ** The date *)

Lemma find_next_tags (c : cursor) :
  match find_next c with
  | Some c' => tags_of (snd c) = cur_node c' :: tags_of (snd c')
  | None => tags_of (snd c) = []
  end.
Proof.
  unfold find_next. destruct c as [e rest]. simpl.
  induction rest as [|x rest IH]; simpl; [reflexivity|].
  unfold tags_of in *. rewrite filter_cons.
  destruct (is_tag (el_node x)) eqn:Ht; simpl.
  - reflexivity.
  - destruct (first_match (fun _ => true) rest) as [c'|]; exact IH.
Qed.

(** The loop of tier 2 looks at the element it starts from and at the tags
    that follow it in document order, [n] elements in all, and stops at the
    first that holds a date. *)
Lemma scan_near_window (n : nat) (c : cursor) :
  scan_near n (Some c) =
  option_map normalize_spaces (first_date (firstn n (cur_node c :: tags_of (snd c)))).
Proof.
  revert c. induction n as [|n IH]; intros c; [reflexivity|].
  simpl. fold (date_in (cur_node c)).
  destruct (date_in (cur_node c)) as [m|]; [reflexivity|].
  pose proof (find_next_tags c) as Hn.
  destruct (find_next c) as [c'|].
  - rewrite Hn. apply IH.
  - rewrite Hn. destruct n; reflexivity.
Qed.

Lemma extract_date_text_unfold (soup : node) (title_text : string) :
  extract_date_text soup title_text =
  if negb (is_empty (time_text soup)) then normalize_spaces (time_text soup)
  else match scan_near 8 (title_element soup title_text) with
       | Some d => d
       | None => page_date soup
       end.
Proof. reflexivity. Qed.

Lemma time_text_empty (soup : node) :
  (forall t, t ∈ descendants soup -> is_tag (el_node t) = true ->
             named "time" (el_node t) = true -> get_text "" (el_node t) = "") ->
  time_text soup = "".
Proof.
  intros H. unfold time_text, find.
  destruct (first_match (named "time") (descendants soup)) as [[t rest]|] eqn:E;
    [|reflexivity].
  apply first_match_Some in E as (before & Hd & _ & Ht & Hn).
  apply H; [|exact Ht|exact Hn]. rewrite Hd. set_solver.
Qed.

(** C6.  Without a non-empty [time] element, the search starts at the first
    [h1]/[h2] whose text contains the title, both in lower case, looks for the
    date pattern in that heading and in the tags that follow it in document
    order, eight elements in all, and returns the first match; without a
    match there, the first match in the text of the whole page; and the empty
    string when no tier has a match. *)
Theorem C6_extract_date_text :
  (forall (soup : node) (title_text : string) (before after : list element)
          (heading : element),
     descendants soup = before ++ heading :: after ->
     is_tag (el_node heading) = true ->
     is_title_heading title_text (el_node heading) = true ->
     Forall (fun x => is_tag (el_node x) && is_title_heading title_text (el_node x) = false)
       before ->
     (forall t, t ∈ descendants soup -> is_tag (el_node t) = true ->
                named "time" (el_node t) = true -> get_text "" (el_node t) = "") ->
     extract_date_text soup title_text =
       match first_date (firstn 8 (el_node heading :: tags_of after)) with
       | Some m => normalize_spaces m
       | None => page_date soup
       end)
  /\ (forall (soup : node) (title_text : string),
        time_text soup = "" ->
        (forall c, title_element soup title_text = Some c ->
                   first_date (firstn 8 (cur_node c :: tags_of (snd c))) = None) ->
        date_in soup = None ->
        extract_date_text soup title_text = "").
Proof.
  split.
  - intros soup title_text before after heading Hd Ht Hh Hb Htime.
    rewrite extract_date_text_unfold, (time_text_empty soup Htime). cbn [negb is_empty].
    assert (title_element soup title_text = Some (heading, after)) as ->.
    { unfold title_element, find_title_el, find.
      change (fun x : node => _ && contains _ _) with (is_title_heading title_text).
      replace (first_match (is_title_heading title_text) (descendants soup))
        with (Some (heading, after)); [reflexivity|].
      symmetry. apply first_match_Some. exists before. auto. }
    rewrite scan_near_window. cbn [cur_node fst snd].
    destruct (first_date _); reflexivity.
  - intros soup title_text Ht Hw Hp.
    rewrite extract_date_text_unfold, Ht. cbn [negb is_empty]. unfold page_date. rewrite Hp.
    destruct (title_element soup title_text) as [c|] eqn:E; [|reflexivity].
    rewrite scan_near_window, (Hw c eq_refl). reflexivity.
Qed.

(** On the sample post the heading has no date, and the block that follows
    it holds one. *)
Lemma C6_extract_date_text_witness :
  extract_date_text date_doc "crop report" = "September 12, 2025".
Proof.
  refine (eq_trans
            (proj1 C6_extract_date_text date_doc "crop report"
               (firstn 3 (descendants date_doc)) (skipn 4 (descendants date_doc))
               (List.nth 3 (descendants date_doc) (mk_element date_doc [] []))
               _ _ _ _ _) _).
  - vm_compute. reflexivity.
  - reflexivity.
  - vm_compute. reflexivity.
  - vm_compute. repeat constructor.
  - intros t Hin Ht Hn. apply list_elem_of_In in Hin. vm_compute in Hin.
    repeat (destruct Hin as [<-|Hin]; [discriminate|]). contradiction.
  - vm_compute. reflexivity.
Defined.

(** ** The URL normalizer *)

Section NormUrl.

Variable bracket_ok : string -> bool.

Lemma startswith_app (p s : string) : startswith p (p +:+ s) = true.
Proof.
  induction p as [|c p IH]; [reflexivity|].
  change (String c p +:+ s) with (String c (p +:+ s)). simpl.
  now rewrite Ascii.eqb_refl, IH.
Qed.

Lemma append_assoc (a b c : string) : (a +:+ b) +:+ c = a +:+ (b +:+ c).
Proof.
  induction a as [|x a IH]; [reflexivity|].
  change ((String x a +:+ b) +:+ c) with (String x ((a +:+ b) +:+ c)).
  now rewrite IH.
Qed.

(** A URL put together with the scheme [https] starts with it. *)
Lemma urlunsplit_https (netloc url query fragment : string) :
  startswith "https:" (urlunsplit "https" netloc url query fragment) = true.
Proof.
  unfold urlunsplit. cbn [is_empty negb].
  repeat case_match; rewrite ?append_assoc; apply (startswith_app "https:").
Qed.

Lemma urlunparse_https (r : ParseResult) :
  scheme r = "https" -> startswith "https:" (urlunparse r) = true.
Proof. intros H. unfold urlunparse. rewrite H. apply urlunsplit_https. Qed.

(** Joining with [BASE] either returns the reference as it is (it has a
    scheme other than that of [BASE]) or builds an [https] URL. *)
Lemma urljoin_BASE_cases (url joined : string) :
  urljoin bracket_ok BASE url = Some joined ->
  joined = url \/ startswith "https:" joined = true.
Proof.
  unfold urljoin. rewrite urlparse_BASE.
  change (is_empty BASE) with false. cbv iota.
  destruct (is_empty url); [intros [= <-]; now right|].
  destruct (urlparse bracket_ok url (scheme _)) as [u|]; [|discriminate].
  cbn [scheme netloc path params query fragment].
  destruct (negb (scheme u =? "https")%string || negb (mem (scheme u) uses_relative)) eqn:E.
  - intros [= <-]. now left.
  - apply orb_false_elim in E as [E _]. apply negb_false_iff, String.eqb_eq in E.
    intros H. right.
    repeat case_match; injection H as <-; now apply urlunparse_https.
Qed.

Lemma startswith_https_http (s : string) :
  startswith "https:" s = true -> startswith "http" s = true /\ is_empty s = false.
Proof.
  destruct s as [|c0 [|c1 [|c2 [|c3 s]]]]; simpl; try discriminate;
    rewrite ?andb_false_r; try discriminate.
  intros H. repeat (apply andb_prop in H as [? H]).
  split; [|reflexivity]. repeat (apply andb_true_intro; split; auto).
Qed.


End NormUrl.


(** ** Date formatting *)

(** *** Strings *)

Lemma append_nil_r (s : string) : s +:+ "" = s.
Proof.
  induction s as [|c s IH]; [reflexivity|].
  change (String c s +:+ "") with (String c (s +:+ "")). now rewrite IH.
Qed.

Lemma append_nil_l (s : string) : "" +:+ s = s.
Proof. reflexivity. Qed.

Lemma append_cons (c : ascii) (s t : string) : String c s +:+ t = String c (s +:+ t).
Proof. reflexivity. Qed.

Lemma len_append (s t : string) : len (s +:+ t) = len s + len t.
Proof.
  induction s as [|c s IH]; [reflexivity|].
  rewrite append_cons. unfold len in *. simpl. now rewrite IH.
Qed.

Lemma take_drop (n : nat) (s : string) : take n s +:+ drop n s = s.
Proof.
  revert s. induction n as [|n IH]; intros [|c s]; try reflexivity.
  simpl. rewrite append_cons. now rewrite IH.
Qed.

Lemma take_app_len (s t : string) : take (len s) (s +:+ t) = s.
Proof.
  induction s as [|c s IH]; [now destruct t|].
  rewrite append_cons. unfold len in *. simpl. now rewrite IH.
Qed.

Lemma drop_app_len (s t : string) : drop (len s) (s +:+ t) = t.
Proof.
  induction s as [|c s IH]; [now destruct t|].
  rewrite append_cons. unfold len in *. simpl. now rewrite IH.
Qed.

Lemma len_lower (s : string) : len (lower s) = len s.
Proof. induction s as [|c s IH]; [reflexivity|]. unfold len in *. simpl. now rewrite IH. Qed.

Lemma lower_take (n : nat) (s : string) : lower (take n s) = take n (lower s).
Proof.
  revert s. induction n as [|n IH]; intros [|c s]; try reflexivity.
  simpl. now rewrite IH.
Qed.

Lemma len_take_le (n : nat) (s : string) : len (take n s) <= n.
Proof.
  revert s. induction n as [|n IH]; intros [|c s]; unfold len in *; simpl; try lia.
  specialize (IH s). lia.
Qed.

Lemma take_take (n m : nat) (s : string) : n <= m -> take n (take m s) = take n s.
Proof.
  revert m s. induction n as [|n IH]; intros m s H; [now destruct m, s|].
  destruct m as [|m]; [lia|]. destruct s as [|c s]; [reflexivity|].
  simpl. rewrite IH by lia. reflexivity.
Qed.

Lemma startswith_take (n : nat) (s : string) : startswith (take n s) s = true.
Proof.
  revert s. induction n as [|n IH]; intros [|c s]; try reflexivity.
  simpl. now rewrite Ascii.eqb_refl, IH.
Qed.

(** *** White space after [normalize_spaces] *)

Lemma sub_plus_from_collapsed (in_run : bool) (s : string) :
  collapsed (sub_plus_from isspace " " in_run s) = true
  /\ (in_run = true -> starts_with_space (sub_plus_from isspace " " in_run s) = false).
Proof.
  revert in_run. induction s as [|c s IH]; intros in_run; [now split|].
  simpl. destruct (isspace c) eqn:Ec.
  - destruct (IH true) as [H1 H2]. specialize (H2 eq_refl).
    destruct in_run; simpl; rewrite ?append_nil_l.
    + now split.
    + rewrite ?append_nil_l, H2, H1. split; [reflexivity|discriminate].
  - destruct (IH false) as [H1 _]. simpl. rewrite Ec, H1. now split.
Qed.

Lemma lstrip_collapsed (t : string) :
  collapsed t = true ->
  collapsed (lstrip_by isspace t) = true
  /\ starts_with_space (lstrip_by isspace t) = false.
Proof.
  induction t as [|c t IH]; [now split|].
  simpl. intros H. apply andb_prop in H as [Hc Ht].
  destruct (isspace c) eqn:Ec; [now apply IH|].
  simpl. rewrite Ec, Ht. now split.
Qed.

Lemma rstrip_starts (p : ascii -> bool) (t : string) :
  starts_with_space t = false -> starts_with_space (rstrip_by p t) = false.
Proof.
  destruct t as [|c t]; [reflexivity|]. simpl. intros H.
  destruct (is_empty (rstrip_by p t) && p c); [reflexivity|exact H].
Qed.

Lemma rstrip_ws_normal (t : string) :
  collapsed t = true -> ws_normal (rstrip_by isspace t) = true.
Proof.
  induction t as [|c t IH]; [reflexivity|].
  simpl. intros H. apply andb_prop in H as [Hc Ht]. specialize (IH Ht).
  destruct (is_empty (rstrip_by isspace t)) eqn:Er; simpl.
  - destruct (isspace c) eqn:Ec; [reflexivity|]. simpl. now rewrite Ec, IH.
  - rewrite Er, IH. destruct (isspace c); [|reflexivity].
    apply andb_prop in Hc as [-> Hs]. apply negb_true_iff in Hs.
    now rewrite (rstrip_starts isspace t Hs).
Qed.

(** [normalize_spaces] returns a text with normalized white space that
    does not start with a space. *)
Lemma normalize_spaces_normal (s : string) :
  ws_normal (normalize_spaces s) = true
  /\ starts_with_space (normalize_spaces s) = false.
Proof.
  unfold normalize_spaces, strip, strip_by, sub_plus.
  destruct (sub_plus_from_collapsed false (replace "160" " " s)) as [Hc _].
  destruct (lstrip_collapsed _ Hc) as [Hc' Hs].
  split; [now apply rstrip_ws_normal|now apply rstrip_starts].
Qed.

Lemma ws_normal_app_r (a b : string) : ws_normal (a +:+ b) = true -> ws_normal b = true.
Proof.
  induction a as [|c a IH]; [auto|].
  rewrite append_cons. simpl. intros H. apply andb_prop in H as [_ H]. auto.
Qed.

(** On such a text [\s+] matches exactly one space. *)
Lemma rep_space_normal (s m r : string) :
  ws_normal s = true ->
  rep isspace 1 None s = Some (m, r) ->
  m = " " /\ s = String " " r /\ starts_with_space r = false.
Proof.
  unfold rep. destruct s as [|c s]; [discriminate|]. simpl.
  destruct (isspace c) eqn:Ec; [|discriminate].
  intros H. apply andb_prop in H as [H _].
  apply andb_prop in H as [H Hs]. apply andb_prop in H as [Hc He].
  apply Ascii.eqb_eq in Hc as ->. apply negb_true_iff in Hs.
  destruct s as [|c' s]; [discriminate|]. simpl in Hs. simpl. rewrite Hs.
  intros [= <- <-]. auto.
Qed.

Lemma rep_space_one (r : string) :
  starts_with_space r = false -> rep isspace 1 None (String " " r) = Some (" ", r).
Proof.
  intros H. unfold rep. simpl. destruct r as [|c r]; [reflexivity|].
  simpl in H. simpl. now rewrite H.
Qed.

(** *** Characters *)

(** Lower-casing only changes letters. *)
Lemma lower_char_other (c : ascii) :
  islower_ascii (lower_char c) = false ->
  in_range 224 254 (lower_char c) = false ->
  lower_char c = c.
Proof. destruct c as [[] [] [] [] [] [] [] []]; vm_compute; congruence. Qed.

Lemma isdigit_cases (c : ascii) :
  isdigit c = true ->
  (c = "0" \/ c = "1" \/ c = "2" \/ c = "3" \/ c = "4"
   \/ c = "5" \/ c = "6" \/ c = "7" \/ c = "8" \/ c = "9")%char.
Proof.
  destruct c as [[] [] [] [] [] [] [] []]; vm_compute; intros H;
    try discriminate H; tauto.
Qed.

Lemma isdigit_not_space (c : ascii) : isdigit c = true -> isspace c = false.
Proof. intros H. destruct (isdigit_cases c H) as [->|[->|[->|[->|[->|[->|[->|[->|[->| ->]]]]]]]]]; reflexivity. Qed.

Lemma in_range_digit (lo hi : nat) (c : ascii) :
  48 <= lo -> hi <= 57 -> in_range lo hi c = true -> isdigit c = true.
Proof.
  unfold isdigit, in_range. intros Hlo Hhi H.
  apply andb_prop in H as [H1 H2]. apply Nat.leb_le in H1, H2.
  apply andb_true_intro. split; apply Nat.leb_le; lia.
Qed.

(** *** Scanners *)

Lemma cls_inv (p : ascii -> bool) (s m r : string) :
  cls p s = Some (m, r) ->
  exists c, m = String c "" /\ s = String c r /\ p c = true.
Proof.
  unfold cls. destruct s as [|c s]; [discriminate|].
  destruct (p c) eqn:E; [|discriminate]. intros [= <- <-]. eauto.
Qed.

Lemma lit_ci_inv (l s m r : string) :
  lit true l s = Some (m, r) -> s = m +:+ r /\ lower m = lower l.
Proof.
  unfold lit. destruct (String.eqb _ _) eqn:E; [|discriminate].
  intros [= <- <-]. apply String.eqb_eq in E. split; [|exact E].
  symmetry. apply take_drop.
Qed.

Lemma lit_ci_intro (l m r : string) :
  lower m = lower l -> lit true l (m +:+ r) = Some (m, r).
Proof.
  intros H. unfold lit.
  assert (len l = len m) as -> by now rewrite <- (len_lower l), <- H, len_lower.
  rewrite take_app_len, drop_app_len, H, String.eqb_refl. reflexivity.
Qed.

(** A literal that is one character which is not a letter. *)
Lemma lit_ci_char_inv (d : ascii) (s m r : string) :
  islower_ascii d = false -> in_range 224 254 d = false ->
  lit true (String d "") s = Some (m, r) ->
  lower_char d = d -> m = String d "" /\ s = String d r.
Proof.
  intros H1 H2 H Hd. apply lit_ci_inv in H as [-> H].
  destruct m as [|c [|c' m]]; try discriminate. simpl in H.
  rewrite Hd in H. injection H as H.
  rewrite <- H in H1, H2. rewrite (lower_char_other c H1 H2) in H. subst c.
  now split.
Qed.

Lemma seq_inv (a b : scanner) (s m r : string) :
  seq a b s = Some (m, r) ->
  exists m1 r1 m2, a s = Some (m1, r1) /\ b r1 = Some (m2, r) /\ m = m1 +:+ m2.
Proof.
  unfold seq. destruct (a s) as [[m1 r1]|] eqn:Ea; [|discriminate].
  destruct (b r1) as [[m2 r2]|] eqn:Eb; [|discriminate].
  intros H. injection H as Hm Hr. subst. exists m1, r1, m2. auto.
Qed.

Lemma alts_inv (l : list scanner) (s : string) (x : string * string) :
  alts l s = Some x -> exists sc, sc ∈ l /\ sc s = Some x.
Proof.
  induction l as [|a l IH]; simpl; [discriminate|].
  unfold alt at 1. destruct (a s) as [y|] eqn:E.
  - intros [= <-]. exists a. split; [apply list_elem_of_here|exact E].
  - intros Hl. destruct (IH Hl) as (sc & Hin & Hsc). exists sc.
    split; [now apply list_elem_of_further|exact Hsc].
Qed.

Lemma span_inv (p : ascii -> bool) (hi : option nat) (s m r : string) :
  span p hi s = (m, r) ->
  s = m +:+ r /\ all_chars p m = true /\ forall n, hi = Some n -> len m <= n.
Proof.
  revert hi m r. induction s as [|c s IH]; intros hi m r; simpl.
  - intros [= <- <-]. repeat split. intros; unfold len; simpl; lia.
  - destruct hi as [[|n]|].
    + intros [= <- <-]. repeat split. intros; unfold len; simpl; lia.
    + destruct (p c) eqn:Ec.
      * destruct (span p (option_map Nat.pred (Some (S n))) s) as [m' r'] eqn:E.
        intros [= <- <-]. destruct (IH _ _ _ E) as (-> & Ha & Hn).
        repeat split; [simpl; now rewrite Ec|].
        intros k [= <-]. specialize (Hn n eq_refl). unfold len in *. simpl. lia.
      * intros [= <- <-]. repeat split. intros; unfold len; simpl; lia.
    + destruct (p c) eqn:Ec.
      * destruct (span p (option_map Nat.pred None) s) as [m' r'] eqn:E.
        intros [= <- <-]. destruct (IH _ _ _ E) as (-> & Ha & Hn).
        repeat split; [simpl; now rewrite Ec|]. discriminate.
      * intros [= <- <-]. repeat split. discriminate.
Qed.

Lemma span_exact (p : ascii -> bool) (m r : string) :
  all_chars p m = true -> span p (Some (len m)) (m +:+ r) = (m, r).
Proof.
  induction m as [|c m IH].
  - intros _. now destruct r.
  - intros H. simpl in H. apply andb_prop in H as [Hc Hm].
    change (String c m +:+ r) with (String c (m +:+ r)).
    change (len (String c m)) with (S (len m)).
    simpl. rewrite Hc, (IH Hm). reflexivity.
Qed.

(** *** Month, day and year *)

Lemma index_of_elem (x : string) (l : list string) (i : Z) :
  index_of x l = Some i -> x ∈ l.
Proof.
  revert i. induction l as [|y l IH]; intros i; simpl; [discriminate|].
  destruct (String.eqb y x) eqn:E.
  - apply String.eqb_eq in E as ->. set_solver.
  - destruct (index_of x l) as [j|]; [|discriminate]. intros _.
    specialize (IH j eq_refl). set_solver.
Qed.

Lemma elem_index_of (x : string) (l : list string) :
  x ∈ l -> exists i, index_of x l = Some i.
Proof.
  induction l as [|y l IH]; [set_solver|]. simpl.
  destruct (String.eqb y x) eqn:E; [eauto|].
  intros [->|H]%elem_of_cons; [rewrite String.eqb_refl in E; discriminate|].
  destruct (IH H) as [i ->]. simpl. eauto.
Qed.

(** Two literals that match at the same place: the shorter is a prefix of
    the longer, up to case. *)
Lemma lit_both (a b s wa ra wb rb : string) :
  lit true a s = Some (wa, ra) -> lit true b s = Some (wb, rb) ->
  len a <= len b -> startswith (lower a) (lower b) = true.
Proof.
  unfold lit.
  destruct (String.eqb (lower (take (len a) s)) (lower a)) eqn:Ea; [|discriminate].
  destruct (String.eqb (lower (take (len b) s)) (lower b)) eqn:Eb; [|discriminate].
  intros _ _ Hle. apply String.eqb_eq in Ea, Eb.
  rewrite <- Ea, <- Eb, <- (take_take (len a) (len b) s Hle), lower_take.
  apply startswith_take.
Qed.

Lemma alts_lit_first (names : list string) (s name w r : string) :
  name ∈ names ->
  (forall a, a ∈ names -> a <> name ->
             startswith (lower a) (lower name) = false
             /\ startswith (lower name) (lower a) = false) ->
  lit true name s = Some (w, r) ->
  alts (map (lit true) names) s = Some (w, r).
Proof.
  intros Hin Hfree Hl. induction names as [|a names IH]; [set_solver|].
  simpl. unfold alt at 1.
  destruct (decide (a = name)) as [->|Hne]; [now rewrite Hl|].
  destruct (lit true a s) as [[wa ra]|] eqn:Ea.
  - exfalso. destruct (Hfree a) as [H1 H2]; [apply list_elem_of_here|exact Hne|].
    destruct (Nat.le_ge_cases (len a) (len name)) as [Hle|Hle].
    + rewrite (lit_both a name s wa ra w r Ea Hl Hle) in H1. discriminate.
    + rewrite (lit_both name a s w r wa ra Hl Ea Hle) in H2. discriminate.
  - apply IH.
    + apply elem_of_cons in Hin as [Heq|Hin]; [congruence|exact Hin].
    + intros b Hb. apply Hfree. now apply list_elem_of_further.
Qed.

Lemma f_month_lower (name : string) : name ∈ f_month -> lower name = name.
Proof.
  unfold f_month. intros H.
  repeat (apply elem_of_cons in H as [->|H]; [reflexivity|]). set_solver.
Qed.

(** No month name starts with another. *)
Lemma f_month_prefix_free (name a : string) :
  name ∈ f_month -> a ∈ f_month -> a <> name ->
  startswith (lower a) (lower name) = false
  /\ startswith (lower name) (lower a) = false.
Proof.
  unfold f_month. intros Hn Ha Hne.
  repeat (apply elem_of_cons in Hn as [->|Hn];
          [repeat (apply elem_of_cons in Ha as [->|Ha];
                   [first [now split | contradiction]|]); set_solver|]).
  set_solver.
Qed.

Lemma re_B_inv (s w r : string) :
  re_B s = Some (w, r) ->
  s = w +:+ r /\ exists i, index_of (lower w) f_month = Some i.
Proof.
  intros H. apply alts_inv in H as (sc & Hin & Hsc).
  apply list_elem_of_fmap in Hin as (name & -> & Hname).
  apply lit_ci_inv in Hsc as [-> Hl]. split; [reflexivity|].
  rewrite Hl, (f_month_lower name Hname). now apply elem_index_of.
Qed.

Lemma re_B_intro (w r : string) (i : Z) :
  index_of (lower w) f_month = Some i -> re_B (w +:+ r) = Some (w, r).
Proof.
  intros H. apply index_of_elem in H.
  apply (alts_lit_first f_month _ (lower w)); [exact H| |].
  - intros a Ha Hne. now apply f_month_prefix_free.
  - apply lit_ci_intro. symmetry. now apply f_month_lower.
Qed.

Lemma re_Y_inv (s m r : string) :
  re_Y s = Some (m, r) -> s = m +:+ r /\ year_text m = true.
Proof.
  unfold re_Y, rep. destruct (span isdigit (Some 4) s) as [m' r'] eqn:E.
  destruct (4 <=? len m') eqn:El; [|discriminate]. intros [= <- <-].
  apply span_inv in E as (-> & Ha & Hn). specialize (Hn 4 eq_refl).
  apply Nat.leb_le in El. split; [reflexivity|].
  unfold year_text, is_digits. rewrite Ha. simpl. apply Nat.eqb_eq. lia.
Qed.

Lemma re_Y_intro (m r : string) :
  year_text m = true -> re_Y (m +:+ r) = Some (m, r).
Proof.
  unfold year_text, is_digits. intros H. apply andb_prop in H as [Ha Hl].
  apply Nat.eqb_eq in Hl. unfold re_Y, rep.
  rewrite <- Hl at 1. rewrite (span_exact isdigit m r Ha). now rewrite Hl.
Qed.

Lemma re_d_inv (s m r : string) :
  re_d s = Some (m, r) ->
  s = m +:+ r /\ (day_text m = true \/ starts_with_space s = true).
Proof.
  intros H. apply alts_inv in H as (sc & Hin & Hsc).
  repeat (apply elem_of_cons in Hin as [->|Hin]); [| | | | |set_solver].
  - apply seq_inv in Hsc as (m1 & r1 & m2 & H1 & H2 & ->).
    apply lit_ci_char_inv in H1 as [-> ->]; try reflexivity.
    apply cls_inv in H2 as (c & -> & -> & Hc).
    apply (in_range_digit 48 49) in Hc; [|lia..].
    split; [reflexivity|left]. unfold day_text, is_digits. simpl. now rewrite Hc.
  - apply seq_inv in Hsc as (m1 & r1 & m2 & H1 & H2 & ->).
    apply cls_inv in H1 as (c1 & -> & -> & Hc1).
    apply cls_inv in H2 as (c2 & -> & -> & Hc2).
    apply (in_range_digit 49 50) in Hc1; [|lia..].
    split; [reflexivity|left]. unfold day_text, is_digits. simpl. now rewrite Hc1, Hc2.
  - apply seq_inv in Hsc as (m1 & r1 & m2 & H1 & H2 & ->).
    apply lit_ci_char_inv in H1 as [-> ->]; try reflexivity.
    apply cls_inv in H2 as (c & -> & -> & Hc).
    apply (in_range_digit 49 57) in Hc; [|lia..].
    split; [reflexivity|left]. unfold day_text, is_digits. simpl. now rewrite Hc.
  - apply cls_inv in Hsc as (c & -> & -> & Hc).
    apply (in_range_digit 49 57) in Hc; [|lia..].
    split; [reflexivity|left]. unfold day_text, is_digits. simpl. now rewrite Hc.
  - apply seq_inv in Hsc as (m1 & r1 & m2 & H1 & H2 & ->).
    apply lit_ci_char_inv in H1 as [-> ->]; try reflexivity.
    apply cls_inv in H2 as (c & -> & -> & Hc).
    split; [reflexivity|right; reflexivity].
Qed.

Ltac digit_cases c H :=
  destruct (isdigit_cases c H) as [->|[->|[->|[->|[->|[->|[->|[->|[->| ->]]]]]]]]].

(** A day of the month written with one or two digits is matched whole
    when a comma or a space follows. *)
Lemma re_d_intro (dd r : string) (c0 : ascii) :
  day_text dd = true ->
  (1 <=? int dd)%Z && (int dd <=? 31)%Z = true ->
  c0 = ","%char \/ c0 = " "%char ->
  re_d (dd +:+ String c0 r) = Some (dd, String c0 r).
Proof.
  unfold day_text, is_digits. intros Hd Hr Hc.
  apply andb_prop in Hd as [Hd Hl].
  destruct dd as [|c1 [|c2 [|c3 dd]]]; try discriminate.
  - simpl in Hd. rewrite andb_true_r in Hd.
    digit_cases c1 Hd; destruct Hc as [-> | ->];
      first [discriminate Hr | vm_compute; reflexivity].
  - simpl in Hd. rewrite andb_true_r in Hd. apply andb_prop in Hd as [Hd1 Hd2].
    digit_cases c1 Hd1; digit_cases c2 Hd2; destruct Hc as [-> | ->];
      first [discriminate Hr | vm_compute; reflexivity].
Qed.

Lemma ws_normal_tail (c : ascii) (s : string) : ws_normal (String c s) = true -> ws_normal s = true.
Proof. simpl. intros H. now apply andb_prop in H as [_ H]. Qed.

Lemma strptime_fmt1_inv (ds : string) (dt : datetime) :
  ws_normal ds = true ->
  strptime ds "%B %d, %Y" = Some dt ->
  shape_month_d_yyyy ds dt /\ valid_date dt = true.
Proof.
  intros Hn. unfold strptime.
  change (parse_format false "%B %d, %Y")
    with (Some [FDirective "B"; FSpaces; FDirective "d"; FLiteral ","; FSpaces; FDirective "Y"]).
  cbn [match_items match_item Ascii.eqb Bool.eqb].
  destruct (re_B ds) as [[w r1]|] eqn:EB; [|discriminate].
  destruct (index_of (lower w) f_month) as [i|] eqn:Ei; [|discriminate].
  destruct (rep isspace 1 None r1) as [[m1 r2]|] eqn:E1; [|discriminate].
  destruct (re_d r2) as [[dd r3]|] eqn:Ed; [|discriminate].
  destruct (lit true "," r3) as [[m2 r4]|] eqn:Ec; [|discriminate].
  destruct (rep isspace 1 None r4) as [[m3 r5]|] eqn:E2; [|discriminate].
  destruct (re_Y r5) as [[yyyy rest]|] eqn:EY; [|discriminate].
  cbn [year month day found0].
  destruct (is_empty rest) eqn:Er; [|discriminate].
  destruct (valid_date _) eqn:Ev; [|discriminate].
  intros [= <-]. split; [|exact Ev].
  apply is_empty_true in Er as ->.
  apply re_B_inv in EB as [-> _].
  apply ws_normal_app_r in Hn.
  apply (rep_space_normal _ _ _ Hn) in E1 as (-> & -> & Hs2).
  apply ws_normal_tail in Hn.
  apply re_d_inv in Ed as [-> Hd]. rewrite Hs2 in Hd.
  destruct Hd as [Hd|]; [|discriminate].
  apply ws_normal_app_r in Hn.
  apply lit_ci_char_inv in Ec as [-> ->]; try reflexivity.
  apply ws_normal_tail in Hn.
  apply (rep_space_normal _ _ _ Hn) in E2 as (-> & -> & Hs5).
  apply re_Y_inv in EY as [-> Hy].
  exists w, dd, yyyy. cbn [year month day].
  unfold month_number. rewrite Ei. rewrite append_nil_r.
  repeat split; auto.
Qed.

Lemma space_lower (c : ascii) : isspace c = true -> lower_char c = c.
Proof. destruct c as [[] [] [] [] [] [] [] []]; vm_compute; congruence. Qed.

Lemma day_text_start (dd r : string) :
  day_text dd = true -> starts_with_space (dd +:+ r) = false.
Proof.
  unfold day_text, is_digits. intros H. apply andb_prop in H as [Hd Hl].
  destruct dd as [|c dd]; [discriminate|]. simpl in Hd.
  apply andb_prop in Hd as [Hc _]. now apply isdigit_not_space.
Qed.

Lemma year_text_start (yyyy : string) :
  year_text yyyy = true -> starts_with_space yyyy = false.
Proof.
  unfold year_text, is_digits. intros H. apply andb_prop in H as [Hd Hl].
  destruct yyyy as [|c y]; [discriminate|]. simpl in Hd.
  apply andb_prop in Hd as [Hc _]. now apply isdigit_not_space.
Qed.

Lemma month_start (w r : string) (i : Z) :
  index_of (lower w) f_month = Some i -> starts_with_space (w +:+ r) = false.
Proof.
  intros H. apply index_of_elem in H. destruct w as [|c w].
  - exfalso. unfold f_month in H. simpl in H.
    repeat (apply elem_of_cons in H as [H|H]; [discriminate|]). set_solver.
  - simpl. destruct (isspace c) eqn:Ec; [|reflexivity]. exfalso.
    simpl in H. rewrite (space_lower c Ec) in H. unfold f_month in H.
    repeat (apply elem_of_cons in H as [H|H];
            [injection H as -> _; discriminate|]).
    set_solver.
Qed.




Lemma strptime_fmt2_inv (ds : string) (dt : datetime) :
  ws_normal ds = true -> starts_with_space ds = false ->
  strptime ds "%d %B %Y" = Some dt ->
  shape_d_month_yyyy ds dt /\ valid_date dt = true.
Proof.
  intros Hn Hs. unfold strptime.
  change (parse_format false "%d %B %Y")
    with (Some [FDirective "d"; FSpaces; FDirective "B"; FSpaces; FDirective "Y"]).
  cbn [match_items match_item Ascii.eqb Bool.eqb].
  destruct (re_d ds) as [[dd r1]|] eqn:Ed; [|discriminate].
  destruct (rep isspace 1 None r1) as [[m1 r2]|] eqn:E1; [|discriminate].
  destruct (re_B r2) as [[w r3]|] eqn:EB; [|discriminate].
  destruct (index_of (lower w) f_month) as [i|] eqn:Ei; [|discriminate].
  destruct (rep isspace 1 None r3) as [[m3 r4]|] eqn:E2; [|discriminate].
  destruct (re_Y r4) as [[yyyy rest]|] eqn:EY; [|discriminate].
  cbn [year month day found0].
  destruct (is_empty rest) eqn:Er; [|discriminate].
  destruct (valid_date _) eqn:Ev; [|discriminate].
  intros [= <-]. split; [|exact Ev].
  apply is_empty_true in Er as ->.
  apply re_d_inv in Ed as [-> Hd]. rewrite Hs in Hd.
  destruct Hd as [Hd|]; [|discriminate].
  apply ws_normal_app_r in Hn.
  apply (rep_space_normal _ _ _ Hn) in E1 as (-> & -> & Hs2).
  apply ws_normal_tail in Hn.
  apply re_B_inv in EB as [-> _].
  apply ws_normal_app_r in Hn.
  apply (rep_space_normal _ _ _ Hn) in E2 as (-> & -> & Hs4).
  apply re_Y_inv in EY as [-> Hy].
  exists w, dd, yyyy. cbn [year month day].
  unfold month_number. rewrite Ei. rewrite append_nil_r.
  repeat split; auto.
Qed.


(** A text that starts with a digit does not start with a month name. *)
Lemma re_B_digit (c : ascii) (s : string) : isdigit c = true -> re_B (String c s) = None.
Proof. intros H. digit_cases c H; vm_compute; reflexivity. Qed.

Lemma strptime_fmt1_digit (ds : string) (dt : datetime) :
  shape_d_month_yyyy ds dt -> strptime ds "%B %d, %Y" = None.
Proof.
  intros (w & dd & yyyy & -> & _ & Hd & _).
  unfold day_text, is_digits in Hd. apply andb_prop in Hd as [Hd Hl].
  destruct dd as [|c dd]; [discriminate|]. simpl in Hd. apply andb_prop in Hd as [Hc _].
  unfold strptime.
  change (parse_format false "%B %d, %Y")
    with (Some [FDirective "B"; FSpaces; FDirective "d"; FLiteral ","; FSpaces; FDirective "Y"]).
  cbn [match_items match_item Ascii.eqb Bool.eqb].
  rewrite append_cons, (re_B_digit c _ Hc). reflexivity.
Qed.

Lemma to_iso_date_unfold (date_str : string) :
  to_iso_date date_str =
  match strptime (normalize_spaces date_str) "%B %d, %Y" with
  | Some dt => iso_text dt
  | None =>
      match strptime (normalize_spaces date_str) "%d %B %Y" with
      | Some dt => iso_text dt
      | None => normalize_spaces date_str
      end
  end.
Proof. reflexivity. Qed.



(** The window of tier 2 counts the heading: on this page the eighth tag after
    the title holds the date, the loop stops one tag short of it, and the
    date returned is the first of the whole page, that of the banner. *)
Lemma C6_counterexample :
  exists (before after : list element) (heading : element),
    descendants window_doc = before ++ heading :: after
    /\ el_node heading = Tag "h1" [] [Str NavigableString "Crop Report"]
    /\ Forall (fun x => is_tag (el_node x) && is_title_heading "Crop Report" (el_node x) = false)
         before
    /\ time_text window_doc = ""
    /\ firstn 8 (tags_of after)
       = [para "one"; para "two"; para "three"; para "four"; para "five"; para "six";
          para "seven"; para "September 12, 2025"]
    /\ first_date (firstn 8 (tags_of after)) = Some "September 12, 2025"
    /\ first_date (el_node heading :: firstn 8 (tags_of after)) = Some "September 12, 2025"
    /\ extract_date_text window_doc "Crop Report" = "January 1, 2020".
Proof.
  exists (firstn 4 (descendants window_doc)), (skipn 5 (descendants window_doc)),
    (List.nth 4 (descendants window_doc) (mk_element window_doc [] [])).
  split; [vm_compute; reflexivity|]. split; [reflexivity|].
  split; [vm_compute; repeat constructor|].
  repeat split; vm_compute; reflexivity.
Qed.

(** * Further properties *)

(** ** White space and slugs *)

Lemma replace_absent (a : ascii) (b s : string) :
  has_char a s = false -> replace a b s = s.
Proof.
  induction s as [|c s IH]; [reflexivity|]. simpl. intros H.
  apply orb_false_elim in H as [Hc Hs]. rewrite Hc, (IH Hs). reflexivity.
Qed.

Lemma ws_normal_no_nbsp (s : string) : ws_normal s = true -> has_char "160" s = false.
Proof.
  induction s as [|c s IH]; [reflexivity|]. simpl. intros H.
  apply andb_prop in H as [Hc Hs]. rewrite (IH Hs), orb_false_r.
  destruct (Ascii.eqb c "160") eqn:E; [|reflexivity].
  apply Ascii.eqb_eq in E. subst c. discriminate.
Qed.

Lemma sub_plus_from_normal (in_run : bool) (s : string) :
  ws_normal s = true -> (in_run = true -> starts_with_space s = false) ->
  sub_plus_from isspace " " in_run s = s.
Proof.
  revert in_run. induction s as [|c s IH]; intros in_run Hn Hr; [reflexivity|].
  simpl in *. apply andb_prop in Hn as [Hc Hs].
  destruct (isspace c) eqn:Ec.
  - destruct in_run; [now specialize (Hr eq_refl)|].
    apply andb_prop in Hc as [Hc Hns]. apply andb_prop in Hc as [Hc _].
    apply Ascii.eqb_eq in Hc. subst c. apply negb_true_iff in Hns.
    rewrite (IH true Hs (fun _ => Hns)). reflexivity.
  - rewrite (IH false Hs); [reflexivity|discriminate].
Qed.

Lemma lstrip_by_id (p : ascii -> bool) (s : string) :
  first_is p s = false -> lstrip_by p s = s.
Proof. destruct s as [|c s]; [reflexivity|]. simpl. now intros ->. Qed.

Lemma rstrip_by_id (p : ascii -> bool) (s : string) :
  last_is p s = false -> rstrip_by p s = s.
Proof.
  unfold last_is. induction s as [|c s IH]; [reflexivity|].
  intros H. cbn [rstrip_by]. destruct s as [|d s].
  - simpl in *. now rewrite H.
  - rewrite IH by exact H. reflexivity.
Qed.

Lemma ws_normal_last (s : string) : ws_normal s = true -> last_is isspace s = false.
Proof.
  unfold last_is. induction s as [|c s IH]; [reflexivity|].
  intros H. simpl in H. apply andb_prop in H as [Hc Hs]. destruct s as [|d s].
  - simpl. destruct (isspace c); [|reflexivity].
    now rewrite andb_false_r in Hc.
  - apply IH, Hs.
Qed.

Lemma normalize_spaces_id (t : string) :
  ws_normal t = true -> starts_with_space t = false -> normalize_spaces t = t.
Proof.
  intros Hn Hs. unfold normalize_spaces, sub_plus, strip, strip_by.
  rewrite (replace_absent _ _ _ (ws_normal_no_nbsp t Hn)).
  rewrite (sub_plus_from_normal false t Hn) by discriminate.
  rewrite lstrip_by_id by exact Hs.
  apply rstrip_by_id, ws_normal_last, Hn.
Qed.

Lemma normalize_spaces_idem (s : string) :
  normalize_spaces (normalize_spaces s) = normalize_spaces s.
Proof.
  destruct (normalize_spaces_normal s) as [Hn Hs]. now apply normalize_spaces_id.
Qed.

Lemma ws_normal_chars (s : string) :
  ws_normal s = true -> all_chars blank_or_not_space s = true.
Proof.
  induction s as [|c s IH]; [reflexivity|]. simpl. intros H.
  apply andb_prop in H as [Hc Hs]. rewrite (IH Hs), andb_true_r.
  unfold blank_or_not_space. destruct (isspace c); [|reflexivity].
  apply andb_prop in Hc as [Hc _]. apply andb_prop in Hc as [Hc _]. exact Hc.
Qed.

Lemma ws_normal_no_double (s : string) :
  ws_normal s = true -> contains "  " s = false.
Proof.
  induction s as [|c s IH]; [reflexivity|]. intros H.
  simpl in H. apply andb_prop in H as [Hc Hs].
  cbn [contains]. rewrite (IH Hs), orb_false_r.
  cbn [startswith]. destruct (Ascii.eqb " " c) eqn:E; [|reflexivity].
  apply Ascii.eqb_eq in E. subst c. cbn [isspace] in Hc.
  change (isspace " ") with true in Hc. cbv iota in Hc.
  apply andb_prop in Hc as [_ Hc]. destruct s as [|d s]; [reflexivity|].
  cbn [starts_with_space] in Hc. cbn [startswith].
  destruct (Ascii.eqb " " d) eqn:E; [|reflexivity].
  apply Ascii.eqb_eq in E. subst d. discriminate.
Qed.

Lemma all_chars_replace_nbsp (s : string) :
  all_chars isspace (replace "160" " " s) = all_chars isspace s.
Proof.
  induction s as [|c s IH]; [reflexivity|]. cbn [replace all_chars].
  destruct (Ascii.eqb c "160") eqn:E.
  - apply Ascii.eqb_eq in E. subst c. rewrite append_cons, append_nil_l.
    cbn [all_chars]. now rewrite IH.
  - rewrite append_cons, append_nil_l. cbn [all_chars]. now rewrite IH.
Qed.

Lemma all_chars_sub_plus_from (in_run : bool) (s : string) :
  all_chars isspace (sub_plus_from isspace " " in_run s) = all_chars isspace s.
Proof.
  revert in_run. induction s as [|c s IH]; intros in_run; [reflexivity|].
  cbn [sub_plus_from all_chars]. destruct (isspace c) eqn:Ec.
  - destruct in_run; rewrite ?append_cons, append_nil_l; cbn [all_chars]; now rewrite IH.
  - cbn [all_chars]. now rewrite Ec.
Qed.

Lemma lstrip_by_empty (p : ascii -> bool) (s : string) :
  is_empty (lstrip_by p s) = all_chars p s.
Proof.
  induction s as [|c s IH]; [reflexivity|]. cbn [lstrip_by all_chars].
  destruct (p c); [exact IH|reflexivity].
Qed.

Lemma lstrip_by_first (p : ascii -> bool) (s : string) :
  first_is p (lstrip_by p s) = false.
Proof.
  induction s as [|c s IH]; [reflexivity|]. cbn [lstrip_by].
  destruct (p c) eqn:E; [exact IH|]. simpl. exact E.
Qed.

Lemma rstrip_by_empty (p : ascii -> bool) (s : string) :
  is_empty (rstrip_by p s) = all_chars p s.
Proof.
  induction s as [|c s IH]; [reflexivity|]. cbn [rstrip_by all_chars].
  rewrite IH. destruct (all_chars p s), (p c); reflexivity.
Qed.

Lemma strip_by_empty (p : ascii -> bool) (s : string) :
  is_empty (strip_by p s) = all_chars p s.
Proof.
  unfold strip_by. rewrite rstrip_by_empty.
  pose proof (lstrip_by_first p s) as Hf. pose proof (lstrip_by_empty p s) as He.
  destruct (lstrip_by p s) as [|c t]; [exact He|].
  simpl in Hf, He. cbn [all_chars]. rewrite Hf. exact He.
Qed.

Lemma normalize_spaces_empty (s : string) :
  is_empty (normalize_spaces s) = all_chars isspace s.
Proof.
  unfold normalize_spaces, strip, sub_plus.
  now rewrite strip_by_empty, all_chars_sub_plus_from, all_chars_replace_nbsp.
Qed.

(** X1.  [normalize_spaces] returns a text in normal form: normalizing it
    again changes nothing, its only white-space character is the plain
    space, it has no two spaces in a row and no white space at either end;
    and the result is empty exactly when the text is white space only. *)
Theorem X1_normalize_spaces_normal_form (s : string) :
  normalize_spaces (normalize_spaces s) = normalize_spaces s
  /\ all_chars blank_or_not_space (normalize_spaces s) = true
  /\ contains "  " (normalize_spaces s) = false
  /\ first_is isspace (normalize_spaces s) = false
  /\ last_is isspace (normalize_spaces s) = false
  /\ is_empty (normalize_spaces s) = all_chars isspace s.
Proof.
  destruct (normalize_spaces_normal s) as [Hn Hs].
  split; [apply normalize_spaces_idem|].
  split; [now apply ws_normal_chars|].
  split; [now apply ws_normal_no_double|].
  split; [exact Hs|]. split; [now apply ws_normal_last|apply normalize_spaces_empty].
Qed.

Lemma all_chars_app (p : ascii -> bool) (a b : string) :
  all_chars p (a +:+ b) = all_chars p a && all_chars p b.
Proof.
  induction a as [|c a IH]; [reflexivity|].
  rewrite append_cons. cbn [all_chars]. now rewrite IH, andb_assoc.
Qed.

Lemma all_chars_lstrip (p q : ascii -> bool) (s : string) :
  all_chars q s = true -> all_chars q (lstrip_by p s) = true.
Proof.
  induction s as [|c s IH]; [reflexivity|]. intros H. cbn [lstrip_by].
  destruct (p c); [|exact H]. apply andb_prop in H as [_ H]. now apply IH.
Qed.

Lemma all_chars_rstrip (p q : ascii -> bool) (s : string) :
  all_chars q s = true -> all_chars q (rstrip_by p s) = true.
Proof.
  induction s as [|c s IH]; [reflexivity|]. intros H. cbn [rstrip_by].
  apply andb_prop in H as [Hc H].
  destruct (is_empty (rstrip_by p s) && p c); [reflexivity|].
  cbn [all_chars]. now rewrite Hc, IH.
Qed.

Lemma rstrip_by_first (p : ascii -> bool) (s : string) :
  first_is p s = false -> first_is p (rstrip_by p s) = false.
Proof.
  destruct s as [|c s]; [reflexivity|]. cbn [rstrip_by first_is]. intros H.
  rewrite H, andb_false_r. exact H.
Qed.

Lemma rstrip_by_last (p : ascii -> bool) (s : string) :
  last_is p (rstrip_by p s) = false.
Proof.
  unfold last_is. induction s as [|c s IH]; [reflexivity|]. cbn [rstrip_by].
  destruct (is_empty (rstrip_by p s)) eqn:Ee.
  - apply is_empty_true in Ee. rewrite Ee. simpl.
    destruct (p c) eqn:Ec; [reflexivity|]. simpl. exact Ec.
  - simpl. destruct (rstrip_by p s) as [|d t]; [discriminate|]. exact IH.
Qed.

Lemma strip_by_ends (p : ascii -> bool) (s : string) :
  first_is p (strip_by p s) = false /\ last_is p (strip_by p s) = false.
Proof.
  unfold strip_by. split; [apply rstrip_by_first, lstrip_by_first|apply rstrip_by_last].
Qed.

Lemma strip_by_id (p : ascii -> bool) (s : string) :
  first_is p s = false -> last_is p s = false -> strip_by p s = s.
Proof.
  intros Hf Hl. unfold strip_by. rewrite lstrip_by_id by exact Hf.
  now apply rstrip_by_id.
Qed.

Lemma sub_plus_from_chars (in_run : bool) (s : string) :
  all_chars slug_char (sub_plus_from not_slug_char "-" in_run s) = true.
Proof.
  revert in_run. induction s as [|c s IH]; intros in_run; [reflexivity|].
  cbn [sub_plus_from]. destruct (not_slug_char c) eqn:Ec.
  - rewrite all_chars_app, IH. now destruct in_run.
  - cbn [all_chars]. rewrite IH, andb_true_r.
    unfold not_slug_char in Ec. apply negb_false_iff in Ec. exact Ec.
Qed.

Lemma sub_plus_from_id (p : ascii -> bool) (repl : string) (in_run : bool) (s : string) :
  all_chars (fun c => negb (p c)) s = true -> sub_plus_from p repl in_run s = s.
Proof.
  revert in_run. induction s as [|c s IH]; intros in_run H; [reflexivity|].
  cbn [all_chars] in H. apply andb_prop in H as [Hc H]. apply negb_true_iff in Hc.
  cbn [sub_plus_from]. now rewrite Hc, IH.
Qed.

Lemma all_chars_impl (p q : ascii -> bool) (s : string) :
  (forall c, p c = true -> q c = true) -> all_chars p s = true -> all_chars q s = true.
Proof.
  intros Hpq. induction s as [|c s IH]; [reflexivity|]. cbn [all_chars].
  intros H. apply andb_prop in H as [Hc H]. now rewrite (Hpq c Hc), IH.
Qed.

Lemma slug_char_lower (c : ascii) : slug_char c = true -> lower_char c = c.
Proof.
  destruct c as [[] [] [] [] [] [] [] []]; vm_compute; intros H;
    first [reflexivity | discriminate H].
Qed.

Lemma slug_char_not_amp (c : ascii) : slug_char c = true -> Ascii.eqb c "&" = false.
Proof.
  destruct c as [[] [] [] [] [] [] [] []]; vm_compute; intros H;
    first [reflexivity | discriminate H].
Qed.

Lemma lower_slug (s : string) : all_chars slug_char s = true -> lower s = s.
Proof.
  induction s as [|c s IH]; [reflexivity|]. cbn [all_chars lower].
  intros H. apply andb_prop in H as [Hc H]. now rewrite (slug_char_lower c Hc), IH.
Qed.

Lemma has_char_slug (s : string) : all_chars slug_char s = true -> has_char "&" s = false.
Proof.
  induction s as [|c s IH]; [reflexivity|]. cbn [all_chars has_char].
  intros H. apply andb_prop in H as [Hc H]. now rewrite (slug_char_not_amp c Hc), IH.
Qed.

Lemma strip_by_ext (p q : ascii -> bool) (s : string) :
  (forall c, p c = q c) -> strip_by p s = strip_by q s.
Proof.
  intros Hpq.
  assert (forall t, lstrip_by p t = lstrip_by q t) as Hl.
  { induction t as [|c t IH]; [reflexivity|]. cbn [lstrip_by]. now rewrite Hpq, IH. }
  assert (forall t, rstrip_by p t = rstrip_by q t) as Hr.
  { induction t as [|c t IH]; [reflexivity|]. cbn [rstrip_by]. now rewrite Hpq, IH. }
  unfold strip_by. now rewrite Hl, Hr.
Qed.

Lemma strip_chars_hyphen (s : string) : strip_chars "-" s = strip_by is_hyphen s.
Proof.
  apply strip_by_ext. intros c. cbn [has_char]. unfold is_hyphen.
  now rewrite (Ascii.eqb_sym "-" c), orb_false_r.
Qed.

Lemma slugify_chars (t : string) :
  all_chars slug_char (slugify t) = true
  /\ first_is is_hyphen (slugify t) = false
  /\ last_is is_hyphen (slugify t) = false.
Proof.
  unfold slugify. rewrite strip_chars_hyphen. split.
  - unfold strip_by, sub_plus. apply all_chars_rstrip, all_chars_lstrip, sub_plus_from_chars.
  - apply strip_by_ends.
Qed.

Lemma slugify_id (s : string) :
  all_chars slug_char s = true -> first_is is_hyphen s = false ->
  last_is is_hyphen s = false -> slugify s = s.
Proof.
  intros Hc Hf Hl. unfold slugify.
  rewrite (lower_slug s Hc), (replace_absent _ _ _ (has_char_slug s Hc)).
  unfold sub_plus. rewrite sub_plus_from_id.
  - rewrite strip_chars_hyphen. now apply strip_by_id.
  - eapply all_chars_impl; [|exact Hc]. intros c H. unfold not_slug_char.
    unfold slug_char in H. now rewrite H.
Qed.

(** X2.  A slug is made of lower-case letters, digits and hyphens, has no
    hyphen at either end, and is its own slug.  Hyphens in a row are kept:
    a hyphen between spaces gives three. *)
Theorem X2_slugify_shape (t : string) :
  all_chars slug_char (slugify t) = true
  /\ first_is is_hyphen (slugify t) = false
  /\ last_is is_hyphen (slugify t) = false
  /\ slugify (slugify t) = slugify t
  /\ slugify "Corn - Soy & Wheat (2025)" = "corn---soy-and-wheat-2025".
Proof.
  destruct (slugify_chars t) as (Hc & Hf & Hl).
  split; [exact Hc|]. split; [exact Hf|]. split; [exact Hl|].
  split; [now apply slugify_id|reflexivity].
Qed.

(** ** The posts of a listing page *)

Section ListingInv.

Variable BeautifulSoup : string -> node.
Variable bracket_ok : string -> bool.

Lemma add_link_inv (href text : string) (st : gset string * list link) :
  is_clean_post_path bracket_ok href = true -> 10 <= len text ->
  links_inv bracket_ok st ->
  exists st', add_link bracket_ok href text st = Some st' /\ links_inv bracket_ok st'.
Proof.
  intros Hc Hlen (Hnd & Hseen & Hok).
  destruct (norm_url_clean bracket_ok href Hc) as [u Hu].
  unfold add_link. rewrite Hu. destruct st as [seen all_links]. simpl in *.
  destruct (bool_decide (u ∈ seen)) eqn:Hin; eexists; (split; [reflexivity|]).
  - now split.
  - apply bool_decide_eq_false in Hin. split; [|split]; simpl.
    + rewrite map_app. apply NoDup_app. split; [exact Hnd|].
      split; [|apply NoDup_singleton].
      intros x Hx Hx'. cbn [map] in Hx'. apply list_elem_of_singleton in Hx'. subst x.
      apply list_elem_of_fmap in Hx as (l & Hu' & Hl).
      apply Hin. change u with (link_url (u, text, YEAR_RE_search text)).
      rewrite Hu'. apply Hseen, Hl.
    + intros l [Hl|Hl]%elem_of_app.
      * apply elem_of_union_r, Hseen, Hl.
      * apply list_elem_of_singleton in Hl. subst l. apply elem_of_union_l.
        now apply elem_of_singleton.
    + apply Forall_app. split; [exact Hok|].
      constructor; [|constructor]. split; [exact Hlen|]. now exists href.
Qed.

Lemma article_step_inv (st : gset string * list link) (article : element) :
  links_inv bracket_ok st ->
  exists st', article_step bracket_ok st article = Some st' /\ links_inv bracket_ok st'.
Proof.
  intros Hst. unfold article_step.
  destruct (find _ (el_node article)) as [h2|]; [|eauto].
  destruct (find _ (cur_node h2)) as [a|]; [|eauto].
  destruct (is_clean_post_path bracket_ok _) eqn:Hc; [|eauto].
  destruct (negb (is_empty _) && (10 <=? len _)) eqn:Ht; [|eauto].
  apply andb_prop in Ht as [_ Ht]. apply Nat.leb_le in Ht.
  now apply add_link_inv.
Qed.

Lemma fallback_step_inv (st : gset string * list link) (a : element) :
  links_inv bracket_ok st ->
  exists st', fallback_step bracket_ok st a = Some st' /\ links_inv bracket_ok st'.
Proof.
  intros Hst. unfold fallback_step.
  destruct (is_clean_post_path bracket_ok _) eqn:Hc; simpl; [|eauto].
  destruct (is_empty _ || (len _ <? 10)) eqn:Ht; [eauto|].
  apply orb_false_elim in Ht as [_ Ht]. apply Nat.ltb_ge in Ht.
  destruct (existsb _ _); [eauto|]. now apply add_link_inv.
Qed.

Lemma collect_links_inv (soup : node) :
  exists all_links,
    collect_links bracket_ok soup = Some all_links
    /\ NoDup (map link_url all_links)
    /\ Forall (fun l => listed bracket_ok (link_url l) (link_title l)) all_links.
Proof.
  unfold collect_links.
  destruct (fold_raise_ok (article_step bracket_ok) (links_inv bracket_ok)
              (find_all (fun t => named "article" t && has_class "post" t) soup)
              (∅, []) article_step_inv) as ([seen all_links] & -> & Hinv).
  { split; [constructor|]. split; [|constructor]. intros l Hl. inversion Hl. }
  destruct (length all_links =? 0).
  - destruct (fold_raise_ok (fallback_step bracket_ok) (links_inv bracket_ok)
                (find_all (fun t => named "a" t && has_attr "href" t) soup)
                (seen, all_links) fallback_step_inv Hinv) as ([seen' all'] & -> & Hinv').
    simpl. exists all'. split; [reflexivity|]. destruct Hinv' as (H1 & _ & H3). now split.
  - exists all_links. split; [reflexivity|]. destruct Hinv as (H1 & _ & H3). now split.
Qed.

Lemma filter_split_perm {A : Type} (p : A -> bool) (l : list A) :
  filter p l ++ filter (fun x => negb (p x)) l ≡ₚ l.
Proof.
  induction l as [|x l IH]; [reflexivity|].
  rewrite !filter_cons. destruct (p x) eqn:Ex; simpl.
  - now rewrite IH.
  - rewrite <- Permutation_middle. now rewrite IH.
Qed.

Lemma order_links_sub (all_links : list link) :
  exists kept,
    order_links all_links = map url_title kept
    /\ length kept <= 10
    /\ sublist kept (filter link_has_year all_links
                     ++ filter (fun l => negb (link_has_year l)) all_links).
Proof.
  rewrite order_links_eq. eexists. split; [reflexivity|]. split.
  - rewrite length_take. lia.
  - apply sublist_take.
Qed.

(** What the run needs of a listing page. *)
Lemma parse_listing_listed (list_html : string) :
  exists posts,
    parse_listing BeautifulSoup bracket_ok list_html = Some posts
    /\ length posts <= 10
    /\ Forall (fun p => listed bracket_ok (fst p) (snd p)) posts.
Proof.
  destruct (collect_links_inv (BeautifulSoup list_html)) as (all_links & Hc & _ & Hok).
  unfold parse_listing. rewrite Hc. eexists. split; [reflexivity|].
  rewrite order_links_eq, length_map, length_take. split; [lia|].
  apply Forall_fmap, Forall_take.
  rewrite (filter_split_perm link_has_year all_links). exact Hok.
Qed.

(** X3.  [parse_listing] does not raise and returns at most ten posts with
    pairwise different URLs; every title has ten characters or more, and
    every URL is the normalized form of a reference that
    [is_clean_post_path] accepts. *)
Theorem X3_parse_listing_posts (list_html : string) :
  exists posts,
    parse_listing BeautifulSoup bracket_ok list_html = Some posts
    /\ length posts <= 10
    /\ NoDup (map fst posts)
    /\ Forall (fun p => listed bracket_ok (fst p) (snd p)) posts.
Proof.
  destruct (collect_links_inv (BeautifulSoup list_html)) as (all_links & Hc & Hnd & Hok).
  destruct (order_links_sub all_links) as (kept & Ho & Hlen & Hsub).
  exists (map url_title kept). unfold parse_listing. rewrite Hc. simpl. rewrite Ho.
  split; [reflexivity|]. split; [now rewrite length_map|].
  pose proof (filter_split_perm link_has_year all_links) as Hperm.
  split.
  - rewrite <- list_fmap_compose.
    change (fst ∘ url_title) with link_url.
    eapply sublist_NoDup; [|apply fmap_sublist, Hsub].
    now rewrite Hperm.
  - apply Forall_fmap. apply list.Forall_forall. intros l Hl.
    apply (elem_of_sublist _ _ _ Hl) in Hsub. rewrite Hperm in Hsub.
    exact (proj1 (list.Forall_forall _ _) Hok l Hsub).
Qed.

End ListingInv.

(** ** Errors of [norm_url] *)

Section NormUrlErrors.

Variable bracket_ok : string -> bool.

Lemma norm_url_shape (u v : string) :
  norm_url bracket_ok u = Some v -> v = u \/ startswith "https:" v = true.
Proof.
  unfold norm_url. destruct (is_empty u) eqn:Eu.
  - apply is_empty_true in Eu. intros [= <-]. now left.
  - destruct (startswith "http" u); [intros [= <-]; now left|].
    apply urljoin_BASE_cases.
Qed.

Lemma norm_url_fixed (u v : string) :
  norm_url bracket_ok u = Some v -> norm_url bracket_ok v = Some v.
Proof.
  intros H. destruct (norm_url_shape u v H) as [->|Hv].
  - unfold norm_url in *. destruct (is_empty u) eqn:Eu.
    + apply is_empty_true in Eu. now subst u.
    + destruct (startswith "http" u) eqn:Eh; [reflexivity|].
      destruct (urljoin_BASE_cases bracket_ok u u H) as [_|Hv]; [exact H|].
      apply startswith_https_http in Hv as [Hv _]. congruence.
  - apply startswith_https_http in Hv as [Hv1 Hv2].
    unfold norm_url. now rewrite Hv1, Hv2.
Qed.

Lemma norm_url_raises (u : string) :
  norm_url bracket_ok u = None <->
  startswith "http" u = false /\ urlparse bracket_ok u "" = None.
Proof.
  unfold norm_url. split.
  - destruct (is_empty u); [discriminate|].
    destruct (startswith "http" u); [discriminate|]. intros H. split; [reflexivity|].
    destruct (urlparse bracket_ok u "") as [r|] eqn:E; [|reflexivity].
    destruct (urljoin_BASE_total bracket_ok u) as [j Hj]; [now rewrite E|congruence].
  - intros [Hh Hp]. rewrite Hh.
    destruct (is_empty u) eqn:Eu; [apply is_empty_true in Eu; subst u; discriminate|].
    unfold urljoin. rewrite urlparse_BASE, Eu.
    change (is_empty BASE) with false. cbv iota. cbn [scheme].
    now rewrite (urlparse_raises_indep bracket_ok u "" "https" Hp).
Qed.

(** X4.  [norm_url] raises exactly on a reference that does not start with
    [http] and that [urlparse] rejects, and such a reference never passes
    [is_clean_post_path].  A result is the reference itself or starts with
    [https:], and it is empty for the empty reference only.  A host with an
    unclosed bracket is rejected, unless the reference starts with [http]. *)
Theorem X4_norm_url_errors :
  (forall u : string,
     norm_url bracket_ok u = None <->
     startswith "http" u = false /\ urlparse bracket_ok u "" = None)
  /\ (forall u : string,
        norm_url bracket_ok u = None -> is_clean_post_path bracket_ok u = false)
  /\ (forall u v : string,
        norm_url bracket_ok u = Some v -> v = u \/ startswith "https:" v = true)
  /\ (forall u : string, norm_url bracket_ok u = Some "" <-> u = "")
  /\ norm_url bracket_ok "//[roachag.com/Resources/x" = None
  /\ norm_url bracket_ok "http://[roachag.com/Resources/x"
     = Some "http://[roachag.com/Resources/x".
Proof.
  split; [exact norm_url_raises|]. split; [|split; [exact norm_url_shape|split]].
  - intros u [_ H]%norm_url_raises. unfold is_clean_post_path. now rewrite H.
  - intros u. split; [|now intros ->].
    intros H. destruct (norm_url_shape u "" H) as [<-|Hs]; [reflexivity|discriminate].
  - split; reflexivity.
Qed.

End NormUrlErrors.

(** A path is resolved against the site. *)
Lemma X4_norm_url_errors_witness :
  "https://roachag.com/Resources/x" = "/Resources/x"
  \/ startswith "https:" "https://roachag.com/Resources/x" = true.
Proof.
  apply (proj1 (proj2 (proj2 (X4_norm_url_errors (fun _ => true))))
           "/Resources/x" "https://roachag.com/Resources/x").
  reflexivity.
Defined.

(** ** Dates once converted *)

Lemma digit_char_digit (n : Z) : isdigit (digit_char n) = true.
Proof.
  unfold digit_char.
  assert (0 <= n mod 10 < 10)%Z as H by (apply Z.mod_pos_bound; lia).
  assert (n mod 10 = 0 \/ n mod 10 = 1 \/ n mod 10 = 2 \/ n mod 10 = 3 \/ n mod 10 = 4
          \/ n mod 10 = 5 \/ n mod 10 = 6 \/ n mod 10 = 7 \/ n mod 10 = 8
          \/ n mod 10 = 9)%Z as Hc by lia.
  destruct Hc as [->|[->|[->|[->|[->|[->|[->|[->|[->| ->]]]]]]]]]; reflexivity.
Qed.

Lemma iso_text_chars (dt : datetime) :
  exists y1 y2 y3 y4 m1 m2 d1 d2 : ascii,
    iso_text dt =
      String y1 (String y2 (String y3 (String y4 (String "-" (String m1 (String m2
        (String "-" (String d1 (String d2 " 10:00")))))))))
    /\ isdigit y1 = true /\ isdigit y2 = true /\ isdigit y3 = true /\ isdigit y4 = true
    /\ isdigit m1 = true /\ isdigit m2 = true /\ isdigit d1 = true /\ isdigit d2 = true.
Proof.
  do 8 eexists. split; [unfold iso_text; cbn [zero_padded]; simpl; reflexivity|].
  repeat split; apply digit_char_digit.
Qed.

Lemma strptime_fmt1_digit_start (c : ascii) (s : string) :
  isdigit c = true -> strptime (String c s) "%B %d, %Y" = None.
Proof.
  intros Hc. unfold strptime.
  change (parse_format false "%B %d, %Y")
    with (Some [FDirective "B"; FSpaces; FDirective "d"; FLiteral ","; FSpaces; FDirective "Y"]).
  cbn [match_items match_item Ascii.eqb Bool.eqb].
  now rewrite (re_B_digit c _ Hc).
Qed.

Lemma strptime_fmt2_digits (a b c : ascii) (r : string) :
  isdigit b = true -> isdigit c = true ->
  ws_normal (String a (String b (String c r))) = true ->
  starts_with_space (String a (String b (String c r))) = false ->
  strptime (String a (String b (String c r))) "%d %B %Y" = None.
Proof.
  intros Hb Hc Hn Hs.
  destruct (strptime _ "%d %B %Y") as [dt|] eqn:E; [|reflexivity].
  apply (strptime_fmt2_inv _ _ Hn Hs) in E as [(w & dd & yyyy & E & _ & Hd & _) _].
  unfold day_text in Hd. apply andb_prop in Hd as [_ Hl].
  destruct dd as [|x [|y [|z dd]]]; try discriminate.
  - rewrite ?append_cons, ?append_nil_l in E. injection E as _ E _.
    subst b. discriminate.
  - rewrite ?append_cons, ?append_nil_l in E. injection E as _ _ E _.
    subst c. discriminate.
Qed.

Lemma iso_text_normal (dt : datetime) :
  ws_normal (iso_text dt) = true /\ starts_with_space (iso_text dt) = false.
Proof.
  destruct (iso_text_chars dt)
    as (y1 & y2 & y3 & y4 & m1 & m2 & d1 & d2 & -> & H1 & H2 & H3 & H4 & H5 & H6 & H7 & H8).
  cbn [ws_normal starts_with_space is_empty].
  rewrite (isdigit_not_space _ H1), (isdigit_not_space _ H2), (isdigit_not_space _ H3),
    (isdigit_not_space _ H4), (isdigit_not_space _ H5), (isdigit_not_space _ H6),
    (isdigit_not_space _ H7), (isdigit_not_space _ H8).
  split; reflexivity.
Qed.

Lemma to_iso_date_iso (dt : datetime) : to_iso_date (iso_text dt) = iso_text dt.
Proof.
  destruct (iso_text_normal dt) as [Hn Hs].
  rewrite to_iso_date_unfold, (normalize_spaces_id _ Hn Hs).
  destruct (iso_text_chars dt)
    as (y1 & y2 & y3 & y4 & m1 & m2 & d1 & d2 & E & H1 & H2 & H3 & H4 & _).
  rewrite E in *.
  rewrite (strptime_fmt1_digit_start _ _ H1).
  now rewrite (strptime_fmt2_digits _ _ _ _ H2 H3 Hn Hs).
Qed.

Lemma to_iso_date_cases (s : string) :
  (to_iso_date s = normalize_spaces s
   /\ strptime (normalize_spaces s) "%B %d, %Y" = None
   /\ strptime (normalize_spaces s) "%d %B %Y" = None)
  \/ (exists dt, valid_date dt = true /\ to_iso_date s = iso_text dt
                 /\ is_empty (normalize_spaces s) = false).
Proof.
  rewrite to_iso_date_unfold.
  destruct (normalize_spaces_normal s) as [Hn Hs].
  destruct (strptime (normalize_spaces s) "%B %d, %Y") as [dt|] eqn:E1.
  - right. exists dt. split; [apply (strptime_fmt1_inv _ _ Hn E1)|]. split; [reflexivity|].
    destruct (normalize_spaces s); [discriminate E1|reflexivity].
  - destruct (strptime (normalize_spaces s) "%d %B %Y") as [dt|] eqn:E2.
    + right. exists dt. split; [apply (strptime_fmt2_inv _ _ Hn Hs E2)|].
      split; [reflexivity|].
      destruct (normalize_spaces s); [discriminate E2|reflexivity].
    + left. repeat split; reflexivity.
Qed.

Lemma to_iso_date_idem (s : string) : to_iso_date (to_iso_date s) = to_iso_date s.
Proof.
  destruct (to_iso_date_cases s) as [(E & E1 & E2)|(dt & _ & E & _)]; rewrite E.
  - rewrite to_iso_date_unfold, normalize_spaces_idem, E1, E2. reflexivity.
  - apply to_iso_date_iso.
Qed.

Lemma to_iso_date_empty (s : string) :
  is_empty (to_iso_date s) = all_chars isspace s.
Proof.
  rewrite <- normalize_spaces_empty.
  destruct (to_iso_date_cases s) as [(E & _)|(dt & _ & E & Hne)]; rewrite E; [reflexivity|].
  rewrite Hne.
  destruct (iso_text_chars dt) as (y1 & y2 & y3 & y4 & m1 & m2 & d1 & d2 & -> & _).
  reflexivity.
Qed.



(** ** Posts, requests and rows of a run *)

Lemma extract_date_text_normal (soup : node) (title_text : string) :
  normalize_spaces (extract_date_text soup title_text) = extract_date_text soup title_text.
Proof.
  rewrite extract_date_text_unfold.
  destruct (negb (is_empty (time_text soup))); [apply normalize_spaces_idem|].
  destruct (title_element soup title_text) as [c|].
  - rewrite scan_near_window.
    destruct (first_date _) as [m|]; simpl; [apply normalize_spaces_idem|].
    unfold page_date. destruct (date_in soup); [apply normalize_spaces_idem|reflexivity].
  - unfold page_date. simpl. destruct (date_in soup); [apply normalize_spaces_idem|reflexivity].
Qed.

Lemma extract_tags_distinct (soup : node) :
  NoDup (extract_tags soup) /\ "" ∉ extract_tags soup.
Proof.
  rewrite extract_tags_unfold.
  destruct (find is_tags_heading soup) as [h|]; [|split; [constructor|apply not_elem_of_nil]].
  destruct (find_next_sibling h) as [cont|]; [|split; [constructor|apply not_elem_of_nil]].
  split; [apply dedup_first_NoDup|].
  intros [H _]%dedup_first_elem%list_elem_of_filter. exact H.
Qed.

Section RunFacts.

Variable World : Type.
Variable http_get : World -> string -> option string * World.
Variable BeautifulSoup : string -> node.
Variable str : node -> string.
Variable bracket_ok : string -> bool.

Abbreviation parse_post := (parse_post World http_get BeautifulSoup str bracket_ok).
Abbreviation post_step := (post_step World http_get BeautifulSoup str bracket_ok).
Abbreviation listing_step := (listing_step World http_get BeautifulSoup str bracket_ok).
Abbreviation run := (run World http_get BeautifulSoup str bracket_ok).
Abbreviation state := (run_state World).
Abbreviation rows := (rows World).
Abbreviation seen_urls := (seen_urls World).
Abbreviation session := (session World).

Lemma first_image_fixed (html : string) (page_soup : node) (u : string) :
  first_image_url_from_html BeautifulSoup bracket_ok html page_soup = Some u ->
  norm_url bracket_ok u = Some u.
Proof.
  unfold first_image_url_from_html.
  destruct (negb (is_empty _)); [apply norm_url_fixed|]. now intros [= <-].
Qed.

Lemma parse_post_session (w : World) (url expected_title : string) :
  snd (parse_post w url expected_title) = snd (http_get w url).
Proof.
  unfold Scraper.parse_post, get_html. destruct (http_get w url) as [[html|] w']; [|reflexivity].
  destruct (absolutize_links _ _ _ _) as [body|]; [|reflexivity].
  destruct (first_image_url_from_html _ _ _ _) as [img|]; reflexivity.
Qed.

Lemma parse_post_ok (w w' : World) (url expected_title : string) (data : ParsedPost) :
  parse_post w url expected_title = (Some data, w') ->
  (is_empty expected_title = false -> title data = expected_title)
  /\ post_ok bracket_ok data.
Proof.
  unfold Scraper.parse_post, get_html. destruct (http_get w url) as [[html|] w1]; [|discriminate].
  destruct (absolutize_links _ _ _ _) as [body|]; [|discriminate].
  destruct (first_image_url_from_html _ _ _ _) as [img|] eqn:Ei; [|discriminate].
  intros [= <- _]. cbn [title category skip content_html date tags featured].
  split; [now intros ->|]. unfold post_ok.
  cbn [title category skip content_html date tags featured].
  split; [now destruct (is_empty (extract_category (BeautifulSoup html))) eqn:E|].
  split.
  { rewrite to_iso_date_empty, <- normalize_spaces_empty, extract_date_text_normal.
    reflexivity. }
  split; [apply to_iso_date_idem|].
  split; [apply extract_tags_distinct|]. split; [apply extract_tags_distinct|].
  exact (first_image_fixed _ _ _ Ei).
Qed.

(** *** Requests and rows *)

Lemma post_step_requests (st : state) (post : string * string) :
  exists urls,
    session (post_step st post) = after_requests http_get urls (session st)
    /\ length urls <= 1
    /\ length (rows (post_step st post)) <= length (rows st) + length urls.
Proof.
  destruct post as [url title]. unfold Scraper.post_step.
  destruct (bool_decide (url ∈ seen_urls st)).
  - exists []. simpl. split; [reflexivity|lia].
  - pose proof (parse_post_session (session st) url title) as Hs.
    exists [url]. destruct (parse_post (session st) url title) as [[data|] w]; simpl in *.
    + destruct (skip data); simpl; rewrite ?length_app; simpl; split; try exact Hs; lia.
    + split; [exact Hs|lia].
Qed.

Lemma after_requests_app (urls1 urls2 : list string) (w : World) :
  after_requests http_get (urls1 ++ urls2) w
  = after_requests http_get urls2 (after_requests http_get urls1 w).
Proof. apply fold_left_app. Qed.

Lemma posts_requests (posts : list (string * string)) (st : state) :
  exists urls,
    session (fold_left post_step posts st) = after_requests http_get urls (session st)
    /\ length urls <= length posts
    /\ length (rows (fold_left post_step posts st)) <= length (rows st) + length urls.
Proof.
  revert st. induction posts as [|p posts IH]; intros st.
  - exists []. simpl. split; [reflexivity|lia].
  - destruct (post_step_requests st p) as (u1 & H1 & L1 & R1).
    destruct (IH (post_step st p)) as (u2 & H2 & L2 & R2).
    exists (u1 ++ u2). cbn [fold_left]. rewrite after_requests_app, <- H1, H2, length_app.
    split; [reflexivity|]. simpl. lia.
Qed.

Lemma listing_step_requests (st : state) (list_url : string) :
  exists st' urls,
    listing_step st list_url = Some st'
    /\ session st' = after_requests http_get (list_url :: urls) (session st)
    /\ length urls <= 10
    /\ length (rows st') <= length (rows st) + length urls.
Proof.
  unfold Scraper.listing_step, get_html.
  destruct (http_get (session st) list_url) as [[html|] w] eqn:Eg.
  - destruct (parse_listing_listed BeautifulSoup bracket_ok html) as (posts & -> & Hlen & _).
    destruct (posts_requests posts (mk_run_state World w (rows st) (seen_urls st)))
      as (urls & Hs & Hl & Hr).
    eexists. exists urls. split; [reflexivity|].
    split; [|split; [lia|exact Hr]].
    rewrite Hs. cbn [after_requests fold_left Scraper.session]. now rewrite Eg.
  - eexists. exists []. split; [reflexivity|]. simpl. rewrite Eg. split; [reflexivity|lia].
Qed.

Lemma listings_requests (listing_urls : list string) (st : state) :
  exists st' urls,
    fold_raise listing_step listing_urls st = Some st'
    /\ session st' = after_requests http_get urls (session st)
    /\ sublist listing_urls urls
    /\ length (rows st') + length listing_urls <= length (rows st) + length urls
    /\ length urls <= 11 * length listing_urls.
Proof.
  revert st. induction listing_urls as [|u l IH]; intros st.
  - exists st, []. simpl. repeat split; [constructor|lia|lia].
  - destruct (listing_step_requests st u) as (st1 & u1 & E1 & S1 & L1 & R1).
    destruct (IH st1) as (st2 & u2 & E2 & S2 & Sub & R2 & L2).
    exists st2, ((u :: u1) ++ u2). cbn [fold_raise]. rewrite E1, E2.
    split; [reflexivity|]. split; [now rewrite after_requests_app, <- S1|].
    split; [|rewrite length_app; simpl in *; lia].
    simpl. apply sublist_skip. now apply sublist_inserts_l.
Qed.

Lemma run_inv_size (st : state) : run_inv st -> size (seen_urls st) = length (rows st).
Proof.
  intros [Hnd Hseen].
  assert (seen_urls st = list_to_set (map source_url (rows st))) as ->.
  { apply set_eq. intros u. rewrite Hseen, elem_of_list_to_set. reflexivity. }
  rewrite size_list_to_set by exact Hnd. apply length_map.
Qed.

(** X6.  A run does not raise.  Its session is the given one after a
    sequence of calls of [get_html] that holds every listing page in order,
    one call more per row at least, and eleven calls per listing page at
    most; and there are as many seen URLs as rows, so that the difference
    printed as the number of duplicates is zero. *)
Theorem X6_run_requests (listing_urls : list string) (w : World) :
  exists st urls,
    run listing_urls w = Some st
    /\ session st = after_requests http_get urls w
    /\ sublist listing_urls urls
    /\ length (rows st) + length listing_urls <= length urls
    /\ length urls <= 11 * length listing_urls
    /\ size (seen_urls st) = length (rows st).
Proof.
  unfold Scraper.run.
  destruct (listings_requests listing_urls (mk_run_state World w [] ∅))
    as (st & urls & E & S & Sub & R & L).
  exists st, urls. split; [exact E|]. split; [exact S|]. split; [exact Sub|].
  split; [simpl in R; lia|]. split; [exact L|].
  destruct (listings_ok World http_get BeautifulSoup str bracket_ok listing_urls
              (mk_run_state World w [] ∅)) as (st' & E' & _ & Hinv).
  rewrite E in E'. injection E' as <-. apply run_inv_size, Hinv.
  split; simpl; [constructor|set_solver].
Qed.

(** *** The rows *)





(** X8.  [parse_post] calls [get_html] once, whatever comes of it, and
    raises when that call does.  A post it returns has the expected title when
    one is given, a category that is not empty, [skip] set exactly when its
    body and its date are both empty, a date stable under [to_iso_date], tags
    that are pairwise different and not empty, and a normalized image URL. *)
Theorem X8_parse_post :
  (forall (w : World) (url expected_title : string),
     snd (parse_post w url expected_title) = snd (http_get w url))
  /\ (forall (w : World) (url expected_title : string),
        fst (http_get w url) = None -> fst (parse_post w url expected_title) = None)
  /\ (forall (w w' : World) (url expected_title : string) (data : ParsedPost),
        parse_post w url expected_title = (Some data, w') ->
        (is_empty expected_title = false -> title data = expected_title)
        /\ post_ok bracket_ok data).
Proof.
  split; [exact parse_post_session|]. split; [|exact parse_post_ok].
  intros w url expected_title H. unfold Scraper.parse_post, get_html.
  destruct (http_get w url) as [[html|] w']; [discriminate H|reflexivity].
Qed.


End RunFacts.

(** The post of the small site, asked for under its listing title. *)
Lemma X8_parse_post_witness :
  (is_empty "Corn Outlook 2025" = false ->
   title (mk_ParsedPost "Corn Outlook 2025" "" "USDA Supply/Demand" []
            "<html><body><p>Yields are up.</p></body></html>" "" false)
   = "Corn Outlook 2025")
  /\ post_ok (fun _ => true)
       (mk_ParsedPost "Corn Outlook 2025" "" "USDA Supply/Demand" []
          "<html><body><p>Yields are up.</p></body></html>" "" false).
Proof.
  apply (proj2 (proj2 (X8_parse_post nat site_get_ok site_parse render (fun _ => true)))
           0 1 post_url "Corn Outlook 2025").
  vm_compute. reflexivity.
Defined.

(** ** Links made absolute *)

Lemma node_ind' (P : node -> Prop) :
  (forall k t, P (Str k t)) ->
  (forall nm attrs cs, Forall P cs -> P (Tag nm attrs cs)) ->
  forall n, P n.
Proof.
  intros HS HT. fix IH 1. intros [nm attrs cs|k t]; [|apply HS].
  apply HT. induction cs as [|c cs IHcs]; constructor; [apply IH|exact IHcs].
Qed.

Lemma rewrite_attr_tag (p : node -> bool) (key : string) (f : string -> option string)
    (nm : string) (attrs : list (string * string)) (cs : list node) :
  rewrite_attr p key f (Tag nm attrs cs) =
  match (if p (Tag nm attrs cs) then update_attr key f attrs else Some attrs),
        rewrite_all p key f cs with
  | Some a, Some l => Some (Tag nm a l)
  | _, _ => None
  end.
Proof. reflexivity. Qed.

Lemma map_el_node_walk (n : node) :
  forall parents sibs, map el_node (walk parents n sibs) = preorder n.
Proof.
  induction n as [k t|nm attrs cs IH] using node_ind'; intros parents sibs; [reflexivity|].
  cbn [walk preorder map el_node]. f_equal.
  generalize (Tag nm attrs cs :: parents). intros ps.
  induction IH as [|c cs Hc _ IHcs]; [reflexivity|].
  cbn [flat_map]. rewrite map_app, Hc, IHcs. reflexivity.
Qed.

Lemma map_el_node_descendants (n : node) :
  map el_node (descendants n) = flat_map preorder (contents_of n).
Proof.
  unfold descendants, descendants_in. generalize [n]. intros ps.
  induction (contents_of n) as [|c cs IH]; [reflexivity|].
  cbn [walk_all flat_map]. now rewrite map_app, map_el_node_walk, IH.
Qed.

Section Rewrite.

Variables (nm key : string) (f : string -> option string).

Lemma rewrite_attr_preorder (n n' : node) :
  rewrite_attr (named nm) key f n = Some n' ->
  Forall2 (rewritten nm key f) (preorder n) (preorder n').
Proof.
  revert n'. induction n as [k t|n attrs cs IH] using node_ind'; intros n'.
  - intros [= <-]. constructor; [now split|constructor].
  - rewrite rewrite_attr_tag. unfold named at 1. cbn [name_of].
    destruct (if String.eqb n nm then update_attr key f attrs else Some attrs)
      as [attrs'|] eqn:Ea; [|discriminate].
    destruct (rewrite_all (named nm) key f cs) as [cs'|] eqn:Ec; [|discriminate].
    intros [= <-]. cbn [preorder]. constructor; [now split|].
    clear Ea. revert cs' Ec. induction IH as [|c cs Hc _ IHcs]; intros cs' Ec.
    + injection Ec as <-. constructor.
    + cbn [rewrite_all] in Ec.
      destruct (rewrite_attr (named nm) key f c) as [c'|] eqn:E1; [|discriminate].
      destruct (rewrite_all (named nm) key f cs) as [l'|] eqn:E2; [|discriminate].
      injection Ec as <-. cbn [flat_map]. apply Forall2_app; [now apply Hc|now apply IHcs].
Qed.

(** [rewrite_attr] raises exactly when [f] raises on one of the values. *)
Lemma update_attr_None (attrs : list (string * string)) :
  update_attr key f attrs = None <->
  exists v, lookup_attr key attrs = Some v /\ f v = None.
Proof.
  induction attrs as [|[k v] attrs IH]; simpl.
  - split; [discriminate|]. now intros (v & [=] & _).
  - destruct (String.eqb k key).
    + destruct (f v) eqn:E; split; try discriminate.
      * intros (v' & [= <-] & E'). congruence.
      * intros _. now exists v.
      * reflexivity.
    + destruct (update_attr key f attrs); simpl.
      * split; [discriminate|]. intros H. apply IH in H. discriminate.
      * split; [intros _; now apply IH|reflexivity].
Qed.

Lemma update_attr_Some (attrs attrs' : list (string * string)) :
  update_attr key f attrs = Some attrs' ->
  match lookup_attr key attrs with
  | Some v => exists v', f v = Some v' /\ lookup_attr key attrs' = Some v'
  | None => attrs' = attrs
  end
  /\ forall k, k <> key -> lookup_attr k attrs' = lookup_attr k attrs.
Proof.
  revert attrs'. induction attrs as [|[k v] attrs IH]; intros attrs'; simpl.
  - intros [= <-]. now split.
  - destruct (String.eqb k key) eqn:Ek.
    + destruct (f v) as [v'|]; [|discriminate]. intros [= <-]. split.
      * exists v'. split; [reflexivity|]. simpl. now rewrite Ek.
      * intros k' Hk. simpl. apply String.eqb_eq in Ek. subst k.
        apply String.eqb_neq in Hk. rewrite String.eqb_sym in Hk. now rewrite Hk.
    + destruct (update_attr key f attrs) as [a|]; [|discriminate]. simpl.
      intros [= <-]. destruct (IH a eq_refl) as [H1 H2]. split.
      * simpl. rewrite Ek. destruct (lookup_attr key attrs); [exact H1|now rewrite H1].
      * intros k' Hk. simpl. destruct (String.eqb k k'); [reflexivity|now apply H2].
Qed.

End Rewrite.

Lemma filter_cons_bool {A : Type} (p : A -> bool) (x : A) (l : list A) :
  filter p (x :: l) = if p x then x :: filter p l else filter p l.
Proof. rewrite filter_cons. destruct (p x); reflexivity. Qed.

Lemma attr_values_preorder (nm key : string) (s : node) :
  attr_values nm key s = attr_values_of nm key (flat_map preorder (contents_of s)).
Proof.
  unfold attr_values, attr_values_of, find_all. rewrite <- map_el_node_descendants.
  induction (descendants s) as [|e l IH]; [reflexivity|].
  cbn [map]. rewrite !filter_cons_bool.
  destruct (is_tag (el_node e) && (named nm (el_node e) && has_attr key (el_node e)));
    cbn [map]; now rewrite IH.
Qed.

Lemma stripped_strings_preorder (s : node) :
  stripped_strings s = strings_of (name_of s) (flat_map preorder (contents_of s)).
Proof.
  unfold stripped_strings, strings_of. rewrite <- map_el_node_descendants.
  induction (descendants s) as [|e l IH]; [reflexivity|].
  cbn [map flat_map]. now rewrite IH.
Qed.

Lemma attr_values_of_app (nm key : string) (l1 l2 : list node) :
  attr_values_of nm key (l1 ++ l2) = attr_values_of nm key l1 ++ attr_values_of nm key l2.
Proof. unfold attr_values_of. now rewrite filter_app, map_app. Qed.

Section RewriteValues.

Variables (nm key : string) (f : string -> option string).

Lemma rewritten_node (a b : node) :
  rewritten nm key f a b ->
  is_tag b && (named nm b && has_attr key b) = is_tag a && (named nm a && has_attr key a)
  /\ (is_tag a && (named nm a && has_attr key a) = true ->
      f (default "" (get key a)) = Some (default "" (get key b))).
Proof.
  destruct a as [n attrs cs|k t], b as [n' attrs' cs'|k' t']; try contradiction.
  - intros [<- Ha]. unfold named, has_attr. cbn [is_tag name_of get andb].
    destruct (String.eqb n nm).
    + destruct (update_attr_Some key f attrs attrs' Ha) as [H _].
      destruct (lookup_attr key attrs) as [v|] eqn:El.
      * destruct H as (v' & Hf & ->). split; [reflexivity|]. intros _. exact Hf.
      * subst attrs'. rewrite El. split; [reflexivity|discriminate].
    + injection Ha as <-. split; [reflexivity|discriminate].
  - intros _. split; [reflexivity|discriminate].
Qed.

Lemma rewritten_values (l l' : list node) :
  Forall2 (rewritten nm key f) l l' ->
  Forall2 (fun h h' => f h = Some h') (attr_values_of nm key l) (attr_values_of nm key l').
Proof.
  unfold attr_values_of.
  induction 1 as [|a b l l' Hab _ IH]; [constructor|].
  rewrite !filter_cons_bool. destruct (rewritten_node a b Hab) as [-> Hv].
  destruct (is_tag a && (named nm a && has_attr key a)); [|exact IH].
  cbn [map]. constructor; [now apply Hv|exact IH].
Qed.

(** The tags of another name keep their attributes. *)
Lemma rewritten_node_other (nm' key' : string) (a b : node) :
  nm' <> nm ->
  rewritten nm key f a b ->
  is_tag b && (named nm' b && has_attr key' b) = is_tag a && (named nm' a && has_attr key' a)
  /\ (is_tag a && (named nm' a && has_attr key' a) = true -> get key' b = get key' a).
Proof.
  intros Hne.
  destruct a as [n attrs cs|k t], b as [n' attrs' cs'|k' t']; try contradiction.
  - intros [<- Ha]. unfold named, has_attr. cbn [is_tag name_of get andb].
    destruct (String.eqb n nm) eqn:En.
    + apply String.eqb_eq in En. subst n.
      apply not_eq_sym, String.eqb_neq in Hne. rewrite Hne. split; [reflexivity|discriminate].
    + injection Ha as <-. split; reflexivity.
  - intros _. split; [reflexivity|discriminate].
Qed.

Lemma rewritten_other (nm' key' : string) (l l' : list node) :
  nm' <> nm ->
  Forall2 (rewritten nm key f) l l' ->
  attr_values_of nm' key' l' = attr_values_of nm' key' l.
Proof.
  intros Hne. unfold attr_values_of.
  induction 1 as [|a b l l' Hab _ IH]; [reflexivity|].
  rewrite !filter_cons_bool.
  destruct (rewritten_node_other nm' key' a b Hne Hab) as [-> Hv].
  destruct (is_tag a && (named nm' a && has_attr key' a)); [|exact IH].
  cbn [map]. now rewrite IH, Hv.
Qed.

Lemma rewritten_strings (tag_name : string) (l l' : list node) :
  Forall2 (rewritten nm key f) l l' -> strings_of tag_name l' = strings_of tag_name l.
Proof.
  unfold strings_of. induction 1 as [|a b l l' Hab _ IH]; [reflexivity|].
  cbn [flat_map]. rewrite IH.
  destruct a as [n attrs cs|k t], b as [n' attrs' cs'|k' t']; try contradiction;
    [reflexivity|]. now destruct Hab as [<- <-].
Qed.

(** [rewrite_attr] raises exactly when [f] raises on a value it reads. *)
Lemma rewrite_attr_None (n : node) :
  rewrite_attr (named nm) key f n = None <->
  exists h, h ∈ attr_values_of nm key (preorder n) /\ f h = None.
Proof.
  induction n as [k t|n attrs cs IH] using node_ind'.
  - split; [discriminate|]. intros (h & Hh & _). inversion Hh.
  - rewrite rewrite_attr_tag. cbn [preorder].
    change (Tag n attrs cs :: flat_map preorder cs)
      with ([Tag n attrs cs] ++ flat_map preorder cs).
    rewrite attr_values_of_app.
    assert (rewrite_all (named nm) key f cs = None <->
            exists h, h ∈ attr_values_of nm key (flat_map preorder cs) /\ f h = None) as Hcs.
    { induction IH as [|c cs Hc _ IHcs].
      - split; [discriminate|]. intros (h & Hh & _). inversion Hh.
      - cbn [rewrite_all flat_map]. rewrite attr_values_of_app.
        destruct (rewrite_attr (named nm) key f c) as [c'|] eqn:E1.
        + destruct (rewrite_all (named nm) key f cs) as [l'|] eqn:E2.
          * split; [discriminate|]. intros (h & [Hh|Hh]%elem_of_app & Hf).
            -- assert (Some c' = None) as H1; [|discriminate H1]. apply Hc. eauto.
            -- assert (Some l' = None) as H1; [|discriminate H1]. apply IHcs. eauto.
          * split; [|reflexivity]. intros _.
            destruct (proj1 IHcs eq_refl) as (h & Hh & Hf).
            exists h. split; [apply elem_of_app; now right|exact Hf].
        + split; [|reflexivity]. intros _.
          destruct (proj1 Hc eq_refl) as (h & Hh & Hf).
          exists h. split; [apply elem_of_app; now left|exact Hf]. }
    clear IH. unfold attr_values_of at 1. rewrite filter_cons_bool, filter_nil.
    change (named nm (Tag n attrs cs)) with (String.eqb n nm).
    unfold has_attr. cbn [is_tag get andb].
    destruct (String.eqb n nm).
    + destruct (update_attr key f attrs) as [attrs'|] eqn:Ea.
      * destruct (rewrite_all (named nm) key f cs) as [cs'|] eqn:Ec.
        -- split; [discriminate|]. intros (h & [Hh|Hh]%elem_of_app & Hf).
           ++ assert (update_attr key f attrs = None) as H1; [|congruence].
              apply update_attr_None.
              destruct (lookup_attr key attrs) as [v|] eqn:El; [|inversion Hh].
              cbn [andb map get] in Hh. rewrite El in Hh. simpl in Hh.
              apply list_elem_of_singleton in Hh. subst h. now exists v.
           ++ assert (Some cs' = None) as H1; [|discriminate H1]. apply Hcs. eauto.
        -- split; [|reflexivity]. intros _.
           destruct (proj1 Hcs eq_refl) as (h & Hh & Hf).
           exists h. split; [apply elem_of_app; now right|exact Hf].
      * split; [|reflexivity]. intros _.
        apply update_attr_None in Ea as (v & Hv & Hf).
        exists v. split; [|exact Hf]. apply elem_of_app. left. rewrite Hv.
        cbn [andb map get]. rewrite Hv. apply list_elem_of_here.
    + cbn [map]. destruct (rewrite_all (named nm) key f cs) as [cs'|] eqn:Ec.
      * split; [discriminate|]. intros (h & Hh & Hf).
        assert (Some cs' = None) as H1; [|discriminate H1]. apply Hcs. eauto.
      * split; [|reflexivity]. intros _. apply Hcs. reflexivity.
Qed.

End RewriteValues.

Lemma preorder_unfold (n : node) : preorder n = n :: flat_map preorder (contents_of n).
Proof. destruct n; reflexivity. Qed.

Lemma rewritten_name (nm key : string) (f : string -> option string) (a b : node) :
  rewritten nm key f a b -> name_of b = name_of a.
Proof.
  destruct a, b; try contradiction; [|reflexivity]. now intros [<- _].
Qed.

(** What one loop of [absolutize_links] does to a document. *)
Lemma rewrite_attr_document (nm key : string) (f : string -> option string) (s s' : node) :
  rewrite_attr (named nm) key f s = Some s' ->
  name_of s' = name_of s
  /\ Forall2 (fun h h' => f h = Some h') (attr_values nm key s) (attr_values nm key s')
  /\ (forall nm' key', nm' <> nm -> attr_values nm' key' s' = attr_values nm' key' s)
  /\ (forall sep, get_text sep s' = get_text sep s).
Proof.
  intros H. apply rewrite_attr_preorder in H. rewrite !preorder_unfold in H.
  inversion H as [|a b l l' Hab Hl]; subst.
  pose proof (rewritten_name _ _ _ _ _ Hab) as Hn.
  split; [exact Hn|]. split; [|split].
  - rewrite !attr_values_preorder. now apply rewritten_values.
  - intros nm' key' Hne. rewrite !attr_values_preorder.
    now apply (rewritten_other nm key f).
  - intros sep. unfold get_text. rewrite !stripped_strings_preorder, Hn.
    now rewrite (rewritten_strings nm key f _ _ _ Hl).
Qed.

Lemma rewrite_attr_document_None (nm key : string) (f : string -> option string) (s : node) :
  named nm s = false ->
  (rewrite_attr (named nm) key f s = None <->
   exists h, h ∈ attr_values nm key s /\ f h = None).
Proof.
  intros Hs. rewrite rewrite_attr_None, preorder_unfold, attr_values_preorder.
  unfold attr_values_of at 1. rewrite filter_cons_bool, Hs, andb_false_l, andb_false_r.
  reflexivity.
Qed.

Section Absolutize.

Variable BeautifulSoup : string -> node.
Variable str : node -> string.
Variable bracket_ok : string -> bool.

Lemma absolutize_links_unfold (fragment_html : string) :
  absolutize_links BeautifulSoup str bracket_ok fragment_html =
  if is_empty fragment_html then Some fragment_html
  else option_map str (absolutized bracket_ok (BeautifulSoup fragment_html)).
Proof.
  unfold absolutize_links, absolutized.
  destruct (is_empty fragment_html); [reflexivity|].
  destruct (rewrite_attr (named "a") "href" _ _) as [s|]; [|reflexivity].
  destruct (rewrite_attr (named "img") "src" _ s); reflexivity.
Qed.

Lemma absolutized_Some (s s' : node) :
  absolutized bracket_ok s = Some s' ->
  Forall2 (fun h h' => norm_url bracket_ok h = Some h')
    (attr_values "a" "href" s) (attr_values "a" "href" s')
  /\ Forall2 (fun h h' => norm_url bracket_ok h = Some h')
       (attr_values "img" "src" s) (attr_values "img" "src" s')
  /\ (forall sep, get_text sep s' = get_text sep s).
Proof.
  unfold absolutized.
  destruct (rewrite_attr (named "a") "href" _ s) as [s1|] eqn:E1; [|discriminate].
  intros E2.
  destruct (rewrite_attr_document _ _ _ _ _ E1) as (_ & Ha1 & Ho1 & Ht1).
  destruct (rewrite_attr_document _ _ _ _ _ E2) as (_ & Ha2 & Ho2 & Ht2).
  split; [|split].
  - rewrite (Ho2 "a" "href") by discriminate. exact Ha1.
  - rewrite <- (Ho1 "img" "src") by discriminate. exact Ha2.
  - intros sep. now rewrite Ht2, Ht1.
Qed.

Lemma absolutized_None (s : node) :
  name_of s = "[document]" ->
  (absolutized bracket_ok s = None <->
   exists h, (h ∈ attr_values "a" "href" s \/ h ∈ attr_values "img" "src" s)
             /\ norm_url bracket_ok h = None).
Proof.
  intros Hs. unfold absolutized.
  assert (named "a" s = false) as Hna by (unfold named; now rewrite Hs).
  pose proof (rewrite_attr_document_None "a" "href" (norm_url bracket_ok) s Hna) as H1.
  destruct (rewrite_attr (named "a") "href" _ s) as [s1|] eqn:E1.
  - destruct (rewrite_attr_document _ _ _ _ _ E1) as (Hn & Ha1 & Ho1 & _).
    assert (named "img" s1 = false) as Hni by (unfold named; now rewrite Hn, Hs).
    rewrite (rewrite_attr_document_None "img" "src" (norm_url bracket_ok) s1 Hni).
    rewrite (Ho1 "img" "src") by discriminate. split.
    + intros (h & Hh & Hf). exists h. split; [now right|exact Hf].
    + intros (h & [Hh|Hh] & Hf); [|now exists h].
      assert (Some s1 = None) as H0; [|discriminate H0]. apply H1. now exists h.
  - split; [|reflexivity]. intros _. destruct (proj1 H1 eq_refl) as (h & Hh & Hf).
    exists h. split; [now left|exact Hf].
Qed.

Lemma Forall2_fixed (l l' : list string) :
  Forall2 (fun h h' => norm_url bracket_ok h = Some h') l l' ->
  Forall (fun h' => norm_url bracket_ok h' = Some h') l'.
Proof.
  induction 1 as [|h h' l l' Hh _ IH]; constructor; [|exact IH].
  exact (norm_url_fixed bracket_ok h h' Hh).
Qed.

(** X10.  [absolutize_links] returns an empty fragment as it is, and otherwise
    serializes the parsed fragment after its two loops.  When the loops
    succeed, the [href]s of the links and the [src]s of the images are, in
    document order, the normalized forms of those of the fragment, hence left
    unchanged by [norm_url], and the text is unchanged.  The loops raise
    exactly when [norm_url] raises on one of these values. *)
Theorem X10_absolutize_links :
  (forall fragment_html : string,
     absolutize_links BeautifulSoup str bracket_ok fragment_html =
     if is_empty fragment_html then Some fragment_html
     else option_map str (absolutized bracket_ok (BeautifulSoup fragment_html)))
  /\ (forall s s' : node,
        absolutized bracket_ok s = Some s' ->
        Forall2 (fun h h' => norm_url bracket_ok h = Some h')
          (attr_values "a" "href" s) (attr_values "a" "href" s')
        /\ Forall2 (fun h h' => norm_url bracket_ok h = Some h')
             (attr_values "img" "src" s) (attr_values "img" "src" s')
        /\ Forall (fun h' => norm_url bracket_ok h' = Some h') (attr_values "a" "href" s')
        /\ Forall (fun h' => norm_url bracket_ok h' = Some h') (attr_values "img" "src" s')
        /\ (forall sep, get_text sep s' = get_text sep s))
  /\ (forall s : node,
        name_of s = "[document]" ->
        (absolutized bracket_ok s = None <->
         exists h, (h ∈ attr_values "a" "href" s \/ h ∈ attr_values "img" "src" s)
                   /\ norm_url bracket_ok h = None)).
Proof.
  split; [exact absolutize_links_unfold|]. split; [|exact absolutized_None].
  intros s s' H. destruct (absolutized_Some s s' H) as (Ha & Hi & Ht).
  split; [exact Ha|]. split; [exact Hi|].
  split; [exact (Forall2_fixed _ _ Ha)|]. split; [exact (Forall2_fixed _ _ Hi)|exact Ht].
Qed.

End Absolutize.

(** A relative link and a relative image are resolved against the site; the
    anchor without [href] is passed over. *)
Lemma X10_absolutize_links_witness :
  exists s',
    absolutized (fun _ => true) links_doc = Some s'
    /\ attr_values "a" "href" s' = ["https://roachag.com/Resources/Corn-Outlook-2025"]
    /\ attr_values "img" "src" s' = ["https://roachag.com/images/chart.png"]
    /\ Forall2 (fun h h' => norm_url (fun _ => true) h = Some h')
         (attr_values "a" "href" links_doc) (attr_values "a" "href" s').
Proof.
  eexists. split; [vm_compute; reflexivity|]. split; [vm_compute; reflexivity|].
  split; [vm_compute; reflexivity|].
  apply (proj1 (proj2 (X10_absolutize_links (fun _ => links_doc) (fun _ => "") (fun _ => true)))
           links_doc).
  vm_compute. reflexivity.
Defined.

(** ** The year token of a title *)

Lemma isdigit_word (c : ascii) : isdigit c = true -> isword c = true.
Proof. intros H. unfold isword. rewrite H. now rewrite orb_true_r. Qed.

Lemma first_is_word (s : string) : is_word_opt (first_char s) = first_is isword s.
Proof. now destruct s. Qed.

Lemma YEAR_RE_at_token (prev : option ascii) (s : string) :
  YEAR_RE_at prev s = negb (is_word_opt prev) && year_token s.
Proof.
  unfold YEAR_RE_at, year_token, word_boundary, seq, lit, rep.
  destruct s as [|a [|b [|d1 [|d2 post]]]];
    cbn [take len String.length drop first_char String.eqb andb];
    rewrite ?andb_false_r; try reflexivity.
  - destruct (Ascii.eqb a "2"); cbn [andb]; rewrite ?andb_false_r; reflexivity.
  - destruct (Ascii.eqb a "2"); cbn [andb]; [|rewrite ?andb_false_r; reflexivity].
    destruct (Ascii.eqb b "0"); cbn [andb span len String.length Nat.leb];
      rewrite ?andb_false_r; reflexivity.
  - destruct (Ascii.eqb a "2"); cbn [andb]; [|rewrite ?andb_false_r; reflexivity].
    destruct (Ascii.eqb b "0"); cbn [andb]; [|rewrite ?andb_false_r; reflexivity].
    cbn [span option_map Nat.pred].
    destruct (isdigit d1); cbn [len String.length Nat.leb]; rewrite ?andb_false_r; reflexivity.
  - destruct (Ascii.eqb a "2") eqn:Ea; cbn [andb]; [|rewrite ?andb_false_r; reflexivity].
    destruct (Ascii.eqb b "0") eqn:Eb; cbn [andb]; [|rewrite ?andb_false_r; reflexivity].
    apply Ascii.eqb_eq in Ea. subst a.
    cbn [span option_map Nat.pred].
    destruct (isdigit d1) eqn:E1; cbn [andb len String.length Nat.leb];
      [|rewrite ?andb_false_r; reflexivity].
    destruct (isdigit d2) eqn:E2; cbn [andb len String.length Nat.leb];
      [|rewrite ?andb_false_r; reflexivity].
    assert (span isdigit (Some 0) post = ("", post)) as -> by now destruct post.
    cbn [len String.length Nat.leb].
    rewrite !append_cons, append_nil_l. cbn [last_char is_word_opt].
    rewrite (isdigit_word d2 E2), first_is_word.
    change (isword "2") with true.
    destruct (is_word_opt prev), (first_is isword post); reflexivity.
Qed.

Lemma last_char_None (s : string) : last_char s = None -> s = "".
Proof.
  induction s as [|c s IH]; [reflexivity|]. destruct s as [|a s]; [discriminate|].
  change (last_char (String c (String a s))) with (last_char (String a s)).
  intros H. now apply IH in H.
Qed.

Lemma last_char_cons (c : ascii) (s : string) :
  last_char (String c s) = match last_char s with Some d => Some d | None => Some c end.
Proof.
  destruct s as [|a s]; [reflexivity|].
  change (last_char (String c (String a s))) with (last_char (String a s)).
  destruct (last_char (String a s)) eqn:E; [reflexivity|].
  now apply last_char_None in E.
Qed.

Lemma YEAR_RE_search_from_token (prev : option ascii) (s : string) :
  YEAR_RE_search_from prev s = true <->
  exists pre rest,
    s = pre +:+ rest
    /\ is_word_opt (char_before prev pre) = false
    /\ year_token rest = true.
Proof.
  revert prev. induction s as [|c s IH]; intros prev.
  - cbn [YEAR_RE_search_from]. rewrite YEAR_RE_at_token. cbn [year_token].
    rewrite andb_false_r. split; [discriminate|].
    intros (pre & rest & E & _ & H). destruct pre, rest; discriminate.
  - cbn [YEAR_RE_search_from]. rewrite orb_true_iff, YEAR_RE_at_token, IH. split.
    + intros [H|(pre & rest & E & Hb & Ht)].
      * apply andb_prop in H as [Hp Ht]. exists "", (String c s).
        split; [reflexivity|]. split; [|exact Ht]. now apply negb_true_iff in Hp.
      * exists (String c pre), rest. split; [now rewrite append_cons, E|].
        split; [|exact Ht]. unfold char_before in *. rewrite last_char_cons.
        destruct (last_char pre); exact Hb.
    + intros (pre & rest & E & Hb & Ht). destruct pre as [|c' pre].
      * left. rewrite append_nil_l in E. subst rest. rewrite Ht, andb_true_r.
        apply negb_true_iff. exact Hb.
      * right. rewrite append_cons in E. injection E as <- E.
        exists pre, rest. split; [exact E|]. split; [|exact Ht].
        unfold char_before in *. rewrite last_char_cons in Hb.
        destruct (last_char pre); exact Hb.
Qed.

(** X11.  [YEAR_RE] finds a year in a text exactly when the text holds [20]
    followed by two digits, with no word character right before and none
    right after. *)
Theorem X11_year_token (text : string) :
  YEAR_RE_search text = true <->
  exists pre d1 d2 post,
    text = pre +:+ String "2" (String "0" (String d1 (String d2 post)))
    /\ isdigit d1 = true /\ isdigit d2 = true
    /\ last_is isword pre = false
    /\ first_is isword post = false.
Proof.
  unfold YEAR_RE_search. rewrite YEAR_RE_search_from_token. split.
  - intros (pre & rest & E & Hb & Ht).
    destruct rest as [|a [|b [|d1 [|d2 post]]]]; try discriminate.
    cbn [year_token] in Ht. repeat (apply andb_prop in Ht as [Ht ?]).
    apply Ascii.eqb_eq in Ht. subst a.
    match goal with H : Ascii.eqb b _ = true |- _ => apply Ascii.eqb_eq in H; subst b end.
    exists pre, d1, d2, post. split; [exact E|]. repeat split; try assumption.
    + unfold char_before in Hb. unfold last_is. now destruct (last_char pre).
    + now apply negb_true_iff.
  - intros (pre & d1 & d2 & post & E & H1 & H2 & Hl & Hf).
    exists pre, (String "2" (String "0" (String d1 (String d2 post)))).
    split; [exact E|]. split.
    + unfold char_before, last_is in *. now destruct (last_char pre).
    + cbn [year_token]. now rewrite H1, H2, Hf.
Qed.

(** ** A date without a space after the comma *)

(** The month alternatives of [DATE_RE] are those of [%B]. *)
Lemma MONTHS_RE_re_B (s : string) : MONTHS_RE s = re_B s.
Proof. reflexivity. Qed.

Lemma ws_normal_app_word (a b : string) :
  all_chars not_space a = true -> ws_normal (a +:+ b) = ws_normal b.
Proof.
  induction a as [|c a IH]; [reflexivity|]. cbn [all_chars]. intros H.
  apply andb_prop in H as [Hc H]. rewrite append_cons. cbn [ws_normal].
  unfold not_space in Hc. apply negb_true_iff in Hc. now rewrite Hc, IH.
Qed.

Lemma lower_not_space (w : string) :
  all_chars not_space (lower w) = true -> all_chars not_space w = true.
Proof.
  induction w as [|c w IH]; [reflexivity|]. cbn [lower all_chars]. intros H.
  apply andb_prop in H as [Hc H]. rewrite (IH H), andb_true_r. unfold not_space in *.
  destruct (isspace c) eqn:Ec; [|reflexivity]. now rewrite (space_lower c Ec), Ec in Hc.
Qed.

Lemma month_not_space (w : string) (i : Z) :
  index_of (lower w) f_month = Some i -> all_chars not_space w = true.
Proof.
  intros H. apply index_of_elem in H. apply lower_not_space. unfold f_month in H.
  repeat (apply elem_of_cons in H as [->|H]; [reflexivity|]). set_solver.
Qed.

Lemma digits_not_space (s : string) : is_digits s = true -> all_chars not_space s = true.
Proof.
  apply all_chars_impl. intros c H. unfold not_space. now rewrite (isdigit_not_space c H).
Qed.

Lemma rep_digits_day (dd r : string) (c : ascii) :
  day_text dd = true -> isdigit c = false ->
  rep isdigit 1 (Some 2) (dd +:+ String c r) = Some (dd, String c r).
Proof.
  unfold day_text, is_digits. intros H Hc. apply andb_prop in H as [Hd Hl].
  destruct dd as [|x [|y [|z dd]]]; try discriminate; cbn [all_chars] in Hd.
  - apply andb_prop in Hd as [Hx _]. rewrite append_cons, append_nil_l.
    unfold rep. cbn [span option_map Nat.pred]. now rewrite Hx, Hc.
  - apply andb_prop in Hd as [Hx Hd]. apply andb_prop in Hd as [Hy _].
    rewrite !append_cons, append_nil_l.
    unfold rep. cbn [span option_map Nat.pred]. now rewrite Hx, Hy.
Qed.

Lemma rep_space_none (s : string) :
  starts_with_space s = false -> rep isspace 0 None s = Some ("", s).
Proof.
  destruct s as [|c s]; [reflexivity|]. cbn [starts_with_space]. intros H.
  unfold rep. cbn [span]. now rewrite H.
Qed.

Lemma rep_space_fail (s : string) :
  starts_with_space s = false -> rep isspace 1 None s = None.
Proof.
  destruct s as [|c s]; [reflexivity|]. cbn [starts_with_space]. intros H.
  unfold rep. cbn [span]. now rewrite H.
Qed.

Lemma search_here (sc : scanner) (s m r : string) : sc s = Some (m, r) -> search sc s = Some m.
Proof. intros H. destruct s; cbn [search]; now rewrite H. Qed.

Section Tight.

Variables (w dd yyyy : string) (mm : Z).
Hypothesis Hw : month_number w = Some mm.
Hypothesis Hd : day_text dd = true.
Hypothesis Hday : (1 <=? int dd)%Z && (int dd <=? 31)%Z = true.
Hypothesis Hy : year_text yyyy = true.

Lemma tight_month : exists i, index_of (lower w) f_month = Some i.
Proof.
  unfold month_number in Hw. destruct (index_of (lower w) f_month) as [i|]; [eauto|discriminate].
Qed.

Lemma DATE_RE_tight :
  DATE_RE (month_d_yyyy_tight w dd yyyy) = Some (month_d_yyyy_tight w dd yyyy, "").
Proof.
  destruct tight_month as [i Hi]. unfold DATE_RE, alt, seq, month_d_yyyy_tight.
  rewrite MONTHS_RE_re_B, (re_B_intro w _ i Hi).
  change (" " +:+ dd +:+ "," +:+ yyyy) with (String " " (dd +:+ "," +:+ yyyy)).
  rewrite rep_space_one by now apply day_text_start.
  change ("," +:+ yyyy) with (String "," yyyy).
  rewrite (rep_digits_day dd yyyy "," Hd eq_refl).
  change (lit true "," (String "," yyyy)) with (Some (",", yyyy)). cbv beta iota.
  rewrite (rep_space_none yyyy (year_text_start yyyy Hy)).
  pose proof (re_Y_intro yyyy "" Hy) as HY. rewrite append_nil_r in HY.
  unfold re_Y in HY. rewrite HY.
  reflexivity.
Qed.

Lemma tight_normal :
  ws_normal (month_d_yyyy_tight w dd yyyy) = true
  /\ starts_with_space (month_d_yyyy_tight w dd yyyy) = false.
Proof.
  destruct tight_month as [i Hi]. unfold month_d_yyyy_tight. split.
  - rewrite (ws_normal_app_word w) by exact (month_not_space w i Hi).
    change (" " +:+ dd +:+ "," +:+ yyyy) with (String " " (dd +:+ "," +:+ yyyy)).
    cbn [ws_normal]. change (isspace " ") with true. cbv iota.
    rewrite (day_text_start dd _ Hd). cbn [Ascii.eqb Bool.eqb negb andb].
    assert (is_digits dd = true /\ is_digits yyyy = true) as [Hdd Hyy].
    { unfold day_text in Hd. unfold year_text in Hy.
      apply andb_prop in Hd as [? _]. apply andb_prop in Hy as [? _]. now split. }
    rewrite (ws_normal_app_word dd) by now apply digits_not_space.
    rewrite (ws_normal_app_word ",") by reflexivity.
    rewrite <- (append_nil_r yyyy), (ws_normal_app_word yyyy) by now apply digits_not_space.
    unfold day_text in Hd. apply andb_prop in Hd as [_ Hl].
    destruct dd; [discriminate|reflexivity].
  - now apply (month_start w _ i).
Qed.

Lemma strptime_fmt1_tight :
  strptime (month_d_yyyy_tight w dd yyyy) "%B %d, %Y" = None.
Proof.
  destruct tight_month as [i Hi]. unfold strptime, month_d_yyyy_tight.
  change (parse_format false "%B %d, %Y")
    with (Some [FDirective "B"; FSpaces; FDirective "d"; FLiteral ","; FSpaces; FDirective "Y"]).
  cbn [match_items match_item Ascii.eqb Bool.eqb].
  rewrite (re_B_intro w _ i Hi), Hi.
  change (" " +:+ dd +:+ "," +:+ yyyy) with (String " " (dd +:+ "," +:+ yyyy)).
  rewrite rep_space_one by now apply day_text_start.
  change ("," +:+ yyyy) with (String "," yyyy).
  rewrite (re_d_intro dd yyyy "," Hd Hday) by now left.
  change (lit true "," (String "," yyyy)) with (Some (",", yyyy)). cbv iota beta.
  now rewrite (rep_space_fail yyyy (year_text_start yyyy Hy)).
Qed.

Lemma month_first_letter (r : string) :
  exists c t, w +:+ r = String c t /\ isdigit c = false.
Proof.
  destruct tight_month as [i Hi]. apply index_of_elem in Hi. destruct w as [|c t].
  - exfalso. unfold f_month in Hi. simpl in Hi.
    repeat (apply elem_of_cons in Hi as [Hi|Hi]; [discriminate|]). set_solver.
  - exists c, (t +:+ r). split; [apply append_cons|].
    destruct (isdigit c) eqn:Ec; [|reflexivity]. exfalso.
    cbn [lower] in Hi. unfold f_month in Hi.
    digit_cases c Ec;
      repeat (apply elem_of_cons in Hi as [Hi|Hi]; [discriminate|]); set_solver.
Qed.

Lemma strptime_fmt2_tight :
  strptime (month_d_yyyy_tight w dd yyyy) "%d %B %Y" = None.
Proof.
  destruct tight_normal as [Hn Hs].
  destruct (strptime _ "%d %B %Y") as [dt|] eqn:E; [|reflexivity].
  apply (strptime_fmt2_inv _ _ Hn Hs) in E as [(w' & dd' & yyyy' & E & _ & Hd' & _) _].
  unfold month_d_yyyy_tight in E.
  destruct (month_first_letter (" " +:+ dd +:+ "," +:+ yyyy)) as (c & t & Ec & Hc).
  rewrite Ec in E. unfold day_text, is_digits in Hd'. apply andb_prop in Hd' as [Hd' Hl].
  destruct dd' as [|x dd']; [discriminate|]. rewrite append_cons in E.
  injection E as <- _. cbn [all_chars] in Hd'. now rewrite Hc in Hd'.
Qed.

Lemma to_iso_date_tight :
  to_iso_date (month_d_yyyy_tight w dd yyyy) = month_d_yyyy_tight w dd yyyy.
Proof.
  destruct tight_normal as [Hn Hs].
  rewrite to_iso_date_unfold, (normalize_spaces_id _ Hn Hs).
  now rewrite strptime_fmt1_tight, strptime_fmt2_tight.
Qed.

End Tight.

(** X12.  A date written [Month D,YYYY], the year right after the comma, is
    found by [DATE_RE] and is already normalized, but [to_iso_date] returns it
    as it is: the format [%B %d, %Y] asks for white space after the comma. *)
Theorem X12_date_without_space (w dd yyyy : string) (mm : Z) :
  month_number w = Some mm ->
  day_text dd = true ->
  (1 <=? int dd)%Z && (int dd <=? 31)%Z = true ->
  year_text yyyy = true ->
  search DATE_RE (month_d_yyyy_tight w dd yyyy) = Some (month_d_yyyy_tight w dd yyyy)
  /\ normalize_spaces (month_d_yyyy_tight w dd yyyy) = month_d_yyyy_tight w dd yyyy
  /\ to_iso_date (month_d_yyyy_tight w dd yyyy) = month_d_yyyy_tight w dd yyyy.
Proof.
  intros Hw Hd Hday Hy. split; [|split].
  - eapply search_here. now apply (DATE_RE_tight w dd yyyy mm).
  - destruct (tight_normal w dd yyyy mm) as [Hn Hs]; try assumption.
    now apply normalize_spaces_id.
  - now apply (to_iso_date_tight w dd yyyy mm).
Qed.

(** September 12,2025. *)
Lemma X12_date_without_space_witness :
  search DATE_RE "September 12,2025" = Some "September 12,2025"
  /\ normalize_spaces "September 12,2025" = "September 12,2025"
  /\ to_iso_date "September 12,2025" = "September 12,2025".
Proof.
  apply (X12_date_without_space "September" "12" "2025" 9); reflexivity.
Defined.

(** ** A date that is not in the calendar *)

(** The fields are matched first, the calendar is asked afterwards. *)
Lemma strptime_fmt1_shape (ds : string) (dt : datetime) :
  shape_month_d_yyyy ds dt ->
  (1 <=? day dt)%Z && (day dt <=? 31)%Z = true ->
  strptime ds "%B %d, %Y" = if valid_date dt then Some dt else None.
Proof.
  intros (w & dd & yyyy & -> & Hm & Hd & Hdv & Hy & Hyv) Hday.
  unfold month_number in Hm.
  destruct (index_of (lower w) f_month) as [i|] eqn:Ei; [|discriminate].
  injection Hm as Hm.
  unfold strptime.
  change (parse_format false "%B %d, %Y")
    with (Some [FDirective "B"; FSpaces; FDirective "d"; FLiteral ","; FSpaces; FDirective "Y"]).
  cbn [match_items match_item Ascii.eqb Bool.eqb].
  rewrite (re_B_intro w _ i Ei), Ei.
  change (" " +:+ dd +:+ ", " +:+ yyyy) with (String " " (dd +:+ String "," (String " " yyyy))).
  rewrite rep_space_one by now apply day_text_start.
  rewrite re_d_intro; [|exact Hd|now rewrite Hdv|now left].
  change (lit true "," (String "," (String " " yyyy))) with (Some (",", String " " yyyy)).
  cbv iota beta.
  rewrite rep_space_one by now apply year_text_start.
  rewrite <- (append_nil_r yyyy) at 1. rewrite (re_Y_intro yyyy "" Hy).
  cbn [year month day found0 is_empty andb].
  rewrite Hm, Hdv, Hyv. destruct dt as [y m d]. reflexivity.
Qed.

Lemma strptime_fmt2_shape (ds : string) (dt : datetime) :
  shape_d_month_yyyy ds dt ->
  (1 <=? day dt)%Z && (day dt <=? 31)%Z = true ->
  strptime ds "%d %B %Y" = if valid_date dt then Some dt else None.
Proof.
  intros (w & dd & yyyy & -> & Hm & Hd & Hdv & Hy & Hyv) Hday.
  unfold month_number in Hm.
  destruct (index_of (lower w) f_month) as [i|] eqn:Ei; [|discriminate].
  injection Hm as Hm.
  unfold strptime.
  change (parse_format false "%d %B %Y")
    with (Some [FDirective "d"; FSpaces; FDirective "B"; FSpaces; FDirective "Y"]).
  cbn [match_items match_item Ascii.eqb Bool.eqb].
  change (dd +:+ " " +:+ w +:+ " " +:+ yyyy) with (dd +:+ String " " (w +:+ String " " yyyy)).
  rewrite re_d_intro; [|exact Hd|now rewrite Hdv|now right].
  rewrite rep_space_one by now apply (month_start w _ i).
  rewrite (re_B_intro w _ i Ei), Ei.
  rewrite rep_space_one by now apply year_text_start.
  rewrite <- (append_nil_r yyyy) at 1. rewrite (re_Y_intro yyyy "" Hy).
  cbn [year month day found0 is_empty andb].
  rewrite Hm, Hdv, Hyv. destruct dt as [y m d]. reflexivity.
Qed.

Lemma month_word_first (w r : string) (i : Z) :
  index_of (lower w) f_month = Some i ->
  exists c t, w +:+ r = String c t /\ isdigit c = false.
Proof.
  intros Hi. apply index_of_elem in Hi. destruct w as [|c t].
  - exfalso. unfold f_month in Hi. simpl in Hi.
    repeat (apply elem_of_cons in Hi as [Hi|Hi]; [discriminate|]). set_solver.
  - exists c, (t +:+ r). split; [apply append_cons|].
    destruct (isdigit c) eqn:Ec; [|reflexivity]. exfalso.
    cbn [lower] in Hi. unfold f_month in Hi.
    digit_cases c Ec;
      repeat (apply elem_of_cons in Hi as [Hi|Hi]; [discriminate|]); set_solver.
Qed.

Lemma shape_month_normal (ds : string) (dt : datetime) :
  shape_month_d_yyyy ds dt ->
  ws_normal ds = true /\ starts_with_space ds = false
  /\ exists c t, ds = String c t /\ isdigit c = false.
Proof.
  intros (w & dd & yyyy & -> & Hm & Hd & _ & Hy & _).
  unfold month_number in Hm.
  destruct (index_of (lower w) f_month) as [i|] eqn:Ei; [|discriminate].
  split; [|split; [now apply (month_start w _ i)|now apply (month_word_first w _ i)]].
  assert (is_digits dd = true /\ is_digits yyyy = true) as [Hdd Hyy].
  { unfold day_text in Hd. unfold year_text in Hy.
    apply andb_prop in Hd as [? _]. apply andb_prop in Hy as [? _]. now split. }
  rewrite (ws_normal_app_word w) by exact (month_not_space w i Ei).
  change (" " +:+ dd +:+ ", " +:+ yyyy) with (String " " (dd +:+ String "," (String " " yyyy))).
  cbn [ws_normal]. change (isspace " ") with true. cbv iota.
  rewrite (day_text_start dd _ Hd). cbn [Ascii.eqb Bool.eqb negb andb].
  rewrite (ws_normal_app_word dd) by now apply digits_not_space.
  cbn [ws_normal]. change (isspace ",") with false. change (isspace " ") with true. cbv iota.
  rewrite (year_text_start yyyy Hy). cbn [Ascii.eqb Bool.eqb negb andb].
  rewrite <- (append_nil_r yyyy), (ws_normal_app_word yyyy) by now apply digits_not_space.
  unfold day_text in Hd. apply andb_prop in Hd as [_ Hl].
  unfold year_text in Hy. apply andb_prop in Hy as [_ Hl'].
  destruct dd; [discriminate|]. destruct yyyy; [discriminate|]. reflexivity.
Qed.

Lemma shape_d_month_normal (ds : string) (dt : datetime) :
  shape_d_month_yyyy ds dt ->
  ws_normal ds = true /\ starts_with_space ds = false.
Proof.
  intros (w & dd & yyyy & -> & Hm & Hd & _ & Hy & _).
  unfold month_number in Hm.
  destruct (index_of (lower w) f_month) as [i|] eqn:Ei; [|discriminate].
  split; [|now apply day_text_start].
  assert (is_digits dd = true /\ is_digits yyyy = true) as [Hdd Hyy].
  { unfold day_text in Hd. unfold year_text in Hy.
    apply andb_prop in Hd as [? _]. apply andb_prop in Hy as [? _]. now split. }
  rewrite (ws_normal_app_word dd) by now apply digits_not_space.
  change (" " +:+ w +:+ " " +:+ yyyy) with (String " " (w +:+ String " " yyyy)).
  cbn [ws_normal]. change (isspace " ") with true. cbv iota.
  rewrite (month_start w _ i Ei). cbn [Ascii.eqb Bool.eqb negb andb].
  rewrite (ws_normal_app_word w) by exact (month_not_space w i Ei).
  cbn [ws_normal]. change (isspace " ") with true. cbv iota.
  rewrite (year_text_start yyyy Hy). cbn [Ascii.eqb Bool.eqb negb andb].
  rewrite <- (append_nil_r yyyy), (ws_normal_app_word yyyy) by now apply digits_not_space.
  unfold year_text in Hy. apply andb_prop in Hy as [_ Hl'].
  destruct w; [discriminate Ei|]. destruct yyyy; [discriminate|]. reflexivity.
Qed.

(** X13.  A text of the shape [Month D, YYYY] or [D Month YYYY] whose day
    is between 1 and 31 but which names no date of the calendar (February 30,
    June 31, the year 0000) is returned as it is. *)
Theorem X13_invalid_date_kept (ds : string) (dt : datetime) :
  shape_month_d_yyyy ds dt \/ shape_d_month_yyyy ds dt ->
  (1 <=? day dt)%Z && (day dt <=? 31)%Z = true ->
  valid_date dt = false ->
  to_iso_date ds = ds.
Proof.
  intros [H|H] Hday Hv; rewrite to_iso_date_unfold.
  - destruct (shape_month_normal ds dt H) as (Hn & Hs & c & t & E & Hc).
    rewrite (normalize_spaces_id _ Hn Hs), (strptime_fmt1_shape ds dt H Hday), Hv.
    destruct (strptime ds "%d %B %Y") as [dt'|] eqn:E2; [|reflexivity].
    apply (strptime_fmt2_inv _ _ Hn Hs) in E2 as [(w' & dd' & yyyy' & E' & _ & Hd' & _) _].
    rewrite E in E'. unfold day_text, is_digits in Hd'. apply andb_prop in Hd' as [Hd' Hl].
    destruct dd' as [|x dd']; [discriminate Hl|]. rewrite append_cons in E'.
    injection E' as <- _. cbn [all_chars] in Hd'. now rewrite Hc in Hd'.
  - destruct (shape_d_month_normal ds dt H) as (Hn & Hs).
    rewrite (normalize_spaces_id _ Hn Hs), (strptime_fmt1_digit ds dt H).
    now rewrite (strptime_fmt2_shape ds dt H Hday), Hv.
Qed.

(** February 30 and June 31. *)
Lemma X13_invalid_date_kept_witness :
  to_iso_date "February 30, 2025" = "February 30, 2025"
  /\ to_iso_date "31 June 2025" = "31 June 2025".
Proof.
  split.
  - apply (X13_invalid_date_kept "February 30, 2025" (mk_datetime 2025 2 30)).
    + left. exists "February", "30", "2025". repeat split.
    + reflexivity.
    + reflexivity.
  - apply (X13_invalid_date_kept "31 June 2025" (mk_datetime 2025 6 31)).
    + right. exists "June", "31", "2025". repeat split.
    + reflexivity.
    + reflexivity.
Defined.

(** ** The siblings kept for the body *)

Lemma content_parts_sublist (sibs : list node) : sublist (content_parts sibs) sibs.
Proof.
  induction sibs as [|s sibs IH]; [constructor|]. cbn [content_parts].
  destruct (negb (is_tag s)); [now apply sublist_cons|].
  destruct (is_stop s); [apply sublist_nil_l|].
  destruct (is_content s); [now apply sublist_skip|now apply sublist_cons].
Qed.

Lemma content_parts_kept (sibs : list node) :
  Forall (fun s => is_kept_sibling s = true /\ is_stop_sibling s = false) (content_parts sibs).
Proof.
  induction sibs as [|s sibs IH]; [constructor|]. cbn [content_parts].
  destruct (is_tag s) eqn:Et; cbn [negb]; [|exact IH].
  destruct (is_stop s) eqn:Es; [constructor|].
  destruct (is_content s) eqn:Ec; [|exact IH].
  constructor; [|exact IH]. unfold is_kept_sibling, is_stop_sibling.
  now rewrite Et, Es, Ec.
Qed.

Lemma first_match_weaken (p q : node -> bool) (l : list element) :
  (forall n, q n = true -> p n = true) ->
  first_match p l = None -> first_match q l = None.
Proof.
  intros Hqp Hp. apply first_match_None. apply first_match_None in Hp.
  eapply Forall_impl; [exact Hp|]. intros e He. cbn beta in *.
  destruct (is_tag (el_node e)); [|reflexivity]. cbn [andb] in *.
  destruct (q (el_node e)) eqn:Eq; [|reflexivity]. now rewrite (Hqp _ Eq) in He.
Qed.

Section ContentShape.

Variable str : node -> string.

(** X14.  The siblings kept for the body are siblings of the title in their
    order, every one a tag that is or holds an allowed tag and none a stop;
    the fragment has no white space at either end; and a page without [h1] and
    [h2] gives the empty fragment. *)
Theorem X14_content_parts_shape :
  (forall sibs : list node,
     sublist (content_parts sibs) sibs
     /\ Forall (fun s => is_kept_sibling s = true /\ is_stop_sibling s = false)
          (content_parts sibs))
  /\ (forall (soup : node) (title_text : string),
        first_is isspace (extract_content_html str soup title_text) = false
        /\ last_is isspace (extract_content_html str soup title_text) = false)
  /\ (forall (soup : node) (title_text : string),
        find (named_in ["h1"; "h2"]) soup = None ->
        extract_content_html str soup title_text = "").
Proof.
  split; [|split].
  - intros sibs. split; [apply content_parts_sublist|apply content_parts_kept].
  - intros soup title_text. rewrite extract_content_html_unfold.
    destruct (title_element soup title_text); [apply strip_by_ends|now split].
  - intros soup title_text H. rewrite extract_content_html_unfold.
    unfold title_element, find_title_el. rewrite H.
    unfold find in *.
    rewrite (first_match_weaken (named_in ["h1"; "h2"]) _ _
               (fun n Hn => proj1 (andb_prop _ _ Hn)) H).
    reflexivity.
Qed.

End ContentShape.

(** A page with a paragraph and no heading. *)
Lemma X14_content_parts_shape_witness :
  extract_content_html render (page [para "Corn is up."]) "Crop report" = "".
Proof.
  apply (proj2 (proj2 (X14_content_parts_shape render))). reflexivity.
Defined.

(** ** Posts on another host *)

Lemma host_char_plain (c d : ascii) :
  host_char c = true -> has_char d (String "009" (String "010" (String "013" "/?#[];:"))) = true ->
  Ascii.eqb c d = false.
Proof.
  intros Hc Hd. destruct (Ascii.eqb c d) eqn:E; [|reflexivity].
  apply Ascii.eqb_eq in E. subst d. exfalso. revert Hc Hd.
  destruct c as [[] [] [] [] [] [] [] []]; vm_compute; congruence.
Qed.

Lemma segment_host_char (c : ascii) : segment_char c = true -> host_char c = true.
Proof.
  unfold segment_char, host_char. intros H.
  apply orb_prop in H as [H|H]; [now rewrite H|].
  apply Ascii.eqb_eq in H. subst c. reflexivity.
Qed.

Lemma host_chars_absent (d : ascii) (s : string) :
  has_char d (String "009" (String "010" (String "013" "/?#[];:"))) = true ->
  all_chars host_char s = true -> has_char d s = false.
Proof.
  intros Hd. induction s as [|c s IH]; [reflexivity|]. cbn [all_chars has_char].
  intros H. apply andb_prop in H as [Hc H]. now rewrite (host_char_plain c d Hc Hd), IH.
Qed.

Lemma has_char_app (d : ascii) (a b : string) :
  has_char d (a +:+ b) = has_char d a || has_char d b.
Proof.
  induction a as [|c a IH]; [reflexivity|]. rewrite append_cons. cbn [has_char].
  now rewrite IH, orb_assoc.
Qed.

Lemma split1_absent (sep : ascii) (s : string) :
  has_char sep s = false -> split1 sep s = (s, None).
Proof.
  induction s as [|c s IH]; [reflexivity|]. cbn [has_char split1]. intros H.
  apply orb_false_elim in H as [Hc H]. now rewrite Hc, (IH H).
Qed.

Lemma split_absent (sep : ascii) (s : string) :
  has_char sep s = false -> split sep s = [s].
Proof.
  induction s as [|c s IH]; [reflexivity|]. cbn [has_char split]. intros H.
  apply orb_false_elim in H as [Hc H]. now rewrite Hc, (IH H).
Qed.

Lemma split_app (sep : ascii) (a b : string) :
  has_char sep a = false -> split sep (a +:+ String sep b) = a :: split sep b.
Proof.
  induction a as [|c a IH]; intros H.
  - rewrite append_nil_l. cbn [split]. now rewrite Ascii.eqb_refl.
  - cbn [has_char] in H. apply orb_false_elim in H as [Hc H].
    rewrite append_cons. cbn [split]. now rewrite Hc, (IH H).
Qed.

Lemma host_char_not_delim (c : ascii) : host_char c = true -> has_char c "/?#" = false.
Proof.
  destruct c as [[] [] [] [] [] [] [] []]; vm_compute; intros H;
    first [reflexivity | discriminate H].
Qed.

Lemma until_delim_host (host r : string) :
  all_chars host_char host = true ->
  until_delim (host +:+ String "/" r) = (host, String "/" r).
Proof.
  induction host as [|c host IH]; [reflexivity|]. cbn [all_chars]. intros H.
  apply andb_prop in H as [Hc H]. rewrite append_cons. cbn [until_delim].
  now rewrite (host_char_not_delim c Hc), (IH H).
Qed.

Lemma lstrip_https (s : string) :
  lstrip_by c0_or_space ("https://" +:+ s) = "https://" +:+ s.
Proof. reflexivity. Qed.

Lemma split1_https (s : string) :
  split1 ":" ("https://" +:+ s) = ("https", Some ("//" +:+ s)).
Proof. reflexivity. Qed.

Lemma remove_unsafe_id (s : string) :
  has_char "009" s = false -> has_char "013" s = false -> has_char "010" s = false ->
  remove_unsafe s = s.
Proof.
  intros H1 H2 H3. unfold remove_unsafe.
  now rewrite (replace_absent "009"), (replace_absent "013"), (replace_absent "010").
Qed.

Section OtherHost.

Variable bracket_ok : string -> bool.
Variables (host slug : string).
Hypothesis Hhost : all_chars host_char host = true.
Hypothesis Hslug : all_chars segment_char slug = true.

Lemma slug_host_chars : all_chars host_char slug = true.
Proof. exact (all_chars_impl _ _ _ segment_host_char Hslug). Qed.

Lemma post_on_absent (d : ascii) :
  has_char d (String "009" (String "010" (String "013" "?#[];:"))) = true ->
  has_char d (host +:+ "/Resources/" +:+ slug) = false.
Proof.
  intros Hd.
  assert (has_char d (String "009" (String "010" (String "013" "/?#[];:"))) = true) as Hd'.
  { cbn [has_char] in *. repeat (apply orb_prop in Hd as [Hd|Hd]; [now rewrite Hd, ?orb_true_r|]).
    discriminate. }
  rewrite !has_char_app, (host_chars_absent d host Hd' Hhost),
    (host_chars_absent d slug Hd' slug_host_chars), orb_false_r. cbn [orb].
  assert (has_char d "/Resources/" = false) as ->; [|reflexivity].
  cbn [has_char] in Hd.
  repeat (apply orb_prop in Hd as [Hd|Hd]; [apply Ascii.eqb_eq in Hd; subst d; reflexivity|]).
  discriminate.
Qed.

Lemma urlparse_post_on :
  urlparse bracket_ok (post_on host slug) "" =
  Some (mk_ParseResult "https" host ("/Resources/" +:+ slug) "" "" "").
Proof.
  unfold post_on, urlparse, urlsplit.
  rewrite lstrip_https, remove_unsafe_id, split1_https.
  2-4: change ("https://" +:+ host +:+ "/Resources/" +:+ slug)
         with (String "h" (String "t" (String "t" (String "p" (String "s"
                (String ":" (String "/" (String "/" (host +:+ "/Resources/" +:+ slug)))))))));
       cbn [has_char Ascii.eqb Bool.eqb orb]; apply post_on_absent; reflexivity.
  cbv beta iota.
  change (isalpha_ascii "h" && all_chars scheme_char "https") with true. cbv beta iota.
  change (startswith "//" ("//" +:+ host +:+ "/Resources/" +:+ slug)) with true.
  cbv beta iota. unfold splitnetloc.
  change (drop 2 ("//" +:+ host +:+ "/Resources/" +:+ slug))
    with (host +:+ String "/" ("Resources/" +:+ slug)).
  rewrite (until_delim_host host _ Hhost).
  rewrite (host_chars_absent "[" host eq_refl Hhost), (host_chars_absent "]" host eq_refl Hhost).
  cbn [xorb andb].
  assert (forall d, has_char d "?#;" = true ->
                    has_char d (String "/" ("Resources/" +:+ slug)) = false) as Hp.
  { intros d Hd. change (String "/" ("Resources/" +:+ slug)) with ("/Resources/" +:+ slug).
    rewrite has_char_app, (host_chars_absent d slug) by
      (try exact slug_host_chars; cbn [has_char] in *;
       repeat (apply orb_prop in Hd as [Hd|Hd]; [now rewrite Hd, ?orb_true_r|]); discriminate).
    rewrite orb_false_r. cbn [has_char] in Hd.
    repeat (apply orb_prop in Hd as [Hd|Hd]; [apply Ascii.eqb_eq in Hd; subst d; reflexivity|]).
    discriminate. }
  rewrite (split1_absent "#") by (apply Hp; reflexivity).
  rewrite (split1_absent "?") by (apply Hp; reflexivity).
  rewrite (Hp ";"%char eq_refl), andb_false_r. reflexivity.
Qed.

Lemma path_parts_post_on : path_parts ("/Resources/" +:+ slug) = filter (fun p => negb (is_empty p)) ["Resources"; slug].
Proof.
  unfold path_parts.
  change ("/Resources/" +:+ slug) with ("" +:+ String "/" ("Resources" +:+ String "/" slug)).
  rewrite (split_app "/" "") by reflexivity.
  rewrite (split_app "/" "Resources") by reflexivity.
  rewrite (split_absent "/" slug) by (apply (host_chars_absent "/" slug eq_refl slug_host_chars)).
  reflexivity.
Qed.

End OtherHost.

Section OtherHostTheorem.

Variable bracket_ok : string -> bool.

(** X15.  The host of a link plays no part in the path filter: an [https]
    link to any host whose path is [/Resources/] and a slug outside the
    denylist is accepted, and [norm_url] keeps it as it is. *)
Theorem X15_other_host_accepted (host slug : string) :
  all_chars host_char host = true ->
  all_chars segment_char slug = true ->
  is_empty slug = false ->
  slug ∉ BAD_SLUGS ->
  is_clean_post_path bracket_ok (post_on host slug) = true
  /\ norm_url bracket_ok (post_on host slug) = Some (post_on host slug).
Proof.
  intros Hhost Hslug Hne Hbad. split; [|reflexivity].
  rewrite (is_clean_post_path_parts bracket_ok _ _ (urlparse_post_on bracket_ok host slug Hhost Hslug)).
  cbn [path]. rewrite (path_parts_post_on slug Hslug).
  rewrite !filter_cons_bool, filter_nil. cbn [is_empty negb]. rewrite Hne. cbn [negb].
  rewrite (bool_decide_eq_false_2 _ Hbad), Hne. reflexivity.
Qed.

End OtherHostTheorem.

(** A link to example.org. *)
Lemma X15_other_host_accepted_witness :
  is_clean_post_path (fun _ => true) (post_on "example.org" "Corn-Outlook-2025") = true
  /\ norm_url (fun _ => true) (post_on "example.org" "Corn-Outlook-2025")
     = Some (post_on "example.org" "Corn-Outlook-2025").
Proof.
  apply (X15_other_host_accepted (fun _ => true) "example.org" "Corn-Outlook-2025");
    [reflexivity|reflexivity|reflexivity|].
  apply (bool_decide_eq_false_1 ("Corn-Outlook-2025" ∈ BAD_SLUGS)). vm_compute. reflexivity.
Defined.

(** ** Where the posts of a listing come from *)

Lemma below_preorder (n : node) : below n = flat_map preorder (contents_of n).
Proof. apply map_el_node_descendants. Qed.

Lemma preorder_self (n : node) : n ∈ preorder n.
Proof. rewrite preorder_unfold. apply list_elem_of_here. Qed.

Lemma preorder_trans (r : node) :
  forall m n, m ∈ preorder r -> n ∈ preorder m -> n ∈ preorder r.
Proof.
  induction r as [k t|nm attrs cs IH] using node_ind'; intros m n Hm Hn.
  - cbn [preorder] in Hm. apply list_elem_of_singleton in Hm. now subst m.
  - cbn [preorder] in Hm. apply elem_of_cons in Hm as [->|Hm]; [exact Hn|].
    cbn [preorder]. apply list_elem_of_further.
    apply list_elem_of_In, in_flat_map in Hm as (c & Hc & Hm).
    apply list_elem_of_In, in_flat_map. exists c. split; [exact Hc|].
    apply list_elem_of_In. apply list_elem_of_In in Hc, Hm.
    exact (proj1 (list.Forall_forall _ _) IH c Hc m n Hm Hn).
Qed.

Lemma below_in_preorder (r n : node) : n ∈ below r -> n ∈ preorder r.
Proof.
  rewrite below_preorder, preorder_unfold. apply list_elem_of_further.
Qed.

Lemma below_trans (r m n : node) : m ∈ below r -> n ∈ below m -> n ∈ below r.
Proof.
  rewrite !below_preorder. intros Hm Hn.
  apply list_elem_of_In, in_flat_map in Hm as (c & Hc & Hm).
  apply list_elem_of_In, in_flat_map. exists c. split; [exact Hc|].
  apply list_elem_of_In. apply list_elem_of_In in Hm.
  apply (preorder_trans c m n Hm). apply below_in_preorder. now rewrite below_preorder.
Qed.

Lemma find_below (p : node -> bool) (root : node) (c : cursor) :
  find p root = Some c ->
  cur_node c ∈ below root /\ is_tag (cur_node c) = true /\ p (cur_node c) = true.
Proof.
  unfold find. destruct c as [e rest]. intros H.
  apply first_match_Some in H as (before & Hd & _ & Ht & Hp).
  split; [|now split]. unfold below. rewrite Hd, map_app. apply elem_of_app. right.
  apply list_elem_of_here.
Qed.

Lemma find_all_below (p : node -> bool) (root : node) (e : element) :
  e ∈ find_all p root ->
  el_node e ∈ below root /\ is_tag (el_node e) = true /\ p (el_node e) = true.
Proof.
  unfold find_all. intros [Hp He]%list_elem_of_filter.
  apply Is_true_true, andb_prop in Hp as [Ht Hp].
  split; [|now split]. unfold below. apply list_elem_of_fmap. now exists e.
Qed.

Lemma fold_raise_ok_in {S A : Type} (f : S -> A -> option S) (Inv : S -> Prop)
    (l : list A) (st : S) :
  (forall st x, x ∈ l -> Inv st -> exists st', f st x = Some st' /\ Inv st') ->
  Inv st ->
  exists st', fold_raise f l st = Some st' /\ Inv st'.
Proof.
  revert st. induction l as [|x l IH]; intros st Hf Hst; simpl; [eauto|].
  destruct (Hf st x (list_elem_of_here _ _) Hst) as (st' & -> & Hst').
  apply IH; [|exact Hst']. intros st0 y Hy. apply Hf. now apply list_elem_of_further.
Qed.

Section Provenance.

Variable BeautifulSoup : string -> node.
Variable bracket_ok : string -> bool.
Variable soup : node.

Lemma add_link_from (a : node) (st : gset string * list link) :
  a ∈ below soup -> is_tag a = true -> named "a" a = true -> has_attr "href" a = true ->
  is_clean_post_path bracket_ok (default "" (get "href" a)) = true ->
  links_from bracket_ok soup st ->
  exists st', add_link bracket_ok (default "" (get "href" a)) (get_text "" a) st = Some st'
              /\ links_from bracket_ok soup st'.
Proof.
  intros Ha Ht Hn Hh Hc Hst.
  destruct (norm_url_clean bracket_ok _ Hc) as [u Hu].
  unfold add_link. rewrite Hu. destruct st as [seen all_links].
  destruct (bool_decide (u ∈ seen)); eexists; (split; [reflexivity|]); [exact Hst|].
  unfold links_from in *. cbn [snd] in *. apply Forall_app. split; [exact Hst|].
  constructor; [|constructor]. exists a. repeat split; assumption.
Qed.

Lemma article_step_from (st : gset string * list link) (article : element) :
  article ∈ find_all (fun t => named "article" t && has_class "post" t) soup ->
  links_from bracket_ok soup st ->
  exists st', article_step bracket_ok st article = Some st' /\ links_from bracket_ok soup st'.
Proof.
  intros Hart Hst. apply find_all_below in Hart as (Hart & _). unfold article_step.
  destruct (find _ (el_node article)) as [h2|] eqn:E2; [|eauto].
  apply find_below in E2 as (Hh2 & _).
  destruct (find _ (cur_node h2)) as [a|] eqn:Ea; [|eauto].
  apply find_below in Ea as (Ha & Hta & Hpa). apply andb_prop in Hpa as [Hna Hha].
  destruct (is_clean_post_path bracket_ok _) eqn:Hc; [|eauto].
  destruct (negb (is_empty _) && (10 <=? len _)); [|eauto].
  apply add_link_from; try assumption.
  eapply below_trans; [|exact Ha]. eapply below_trans; [exact Hart|exact Hh2].
Qed.

Lemma fallback_step_from (st : gset string * list link) (a : element) :
  a ∈ find_all (fun t => named "a" t && has_attr "href" t) soup ->
  links_from bracket_ok soup st ->
  exists st', fallback_step bracket_ok st a = Some st' /\ links_from bracket_ok soup st'.
Proof.
  intros Ha Hst. apply find_all_below in Ha as (Ha & Hta & Hpa).
  apply andb_prop in Hpa as [Hna Hha]. unfold fallback_step.
  destruct (is_clean_post_path bracket_ok _) eqn:Hc; simpl; [|eauto].
  destruct (is_empty _ || (len _ <? 10)); [eauto|].
  destruct (existsb _ _); [eauto|]. now apply add_link_from.
Qed.

Lemma collect_links_from :
  exists all_links,
    collect_links bracket_ok soup = Some all_links
    /\ Forall (fun l => link_of_page bracket_ok soup (link_url l) (link_title l)) all_links.
Proof.
  unfold collect_links.
  destruct (fold_raise_ok_in (article_step bracket_ok) (links_from bracket_ok soup)
              (find_all (fun t => named "article" t && has_class "post" t) soup)
              (∅, [])) as ([seen all_links] & -> & Hinv).
  { intros st x Hx. now apply article_step_from. }
  { constructor. }
  destruct (length all_links =? 0); [|eauto].
  destruct (fold_raise_ok_in (fallback_step bracket_ok) (links_from bracket_ok soup)
              (find_all (fun t => named "a" t && has_attr "href" t) soup)
              (seen, all_links)) as ([seen' all'] & -> & Hinv').
  { intros st x Hx. now apply fallback_step_from. }
  { exact Hinv. }
  simpl. eauto.
Qed.

End Provenance.

Section ProvenanceTheorem.

Variable BeautifulSoup : string -> node.
Variable bracket_ok : string -> bool.

(** X16.  Every post of [parse_listing] comes from a link of the page: its
    title is the text of an [a] tag of the page that has an [href], this
    reference passes [is_clean_post_path], and its URL is the normalized form
    of the reference. *)
Theorem X16_parse_listing_links (list_html : string) :
  exists posts,
    parse_listing BeautifulSoup bracket_ok list_html = Some posts
    /\ Forall (fun p => link_of_page bracket_ok (BeautifulSoup list_html) (fst p) (snd p)) posts.
Proof.
  destruct (collect_links_from bracket_ok (BeautifulSoup list_html)) as (all_links & Hc & Hok).
  unfold parse_listing. rewrite Hc. eexists. split; [reflexivity|].
  rewrite order_links_eq. apply Forall_fmap, Forall_take.
  rewrite (filter_split_perm link_has_year all_links). exact Hok.
Qed.

End ProvenanceTheorem.

Section Fallback.

Variable BeautifulSoup : string -> node.
Variable bracket_ok : string -> bool.

(** ** The fallback and the sidebars *)

Lemma fallback_step_main (soup : node) (st : gset string * list link) (a : element) :
  a ∈ find_all (fun t => named "a" t && has_attr "href" t) soup ->
  main_links_from bracket_ok soup st ->
  exists st', fallback_step bracket_ok st a = Some st'
              /\ main_links_from bracket_ok soup st'.
Proof.
  intros Ha Hst. unfold fallback_step.
  destruct (is_clean_post_path bracket_ok _) eqn:Hc; simpl; [|eauto].
  destruct (is_empty _ || (len _ <? 10)) eqn:Ht; [eauto|].
  apply orb_false_elim in Ht as [_ Ht]. apply Nat.ltb_ge in Ht.
  destruct (existsb _ _) eqn:Es; [eauto|].
  destruct (norm_url_clean bracket_ok _ Hc) as [u Hu].
  unfold add_link. rewrite Hu. destruct st as [seen all_links].
  destruct (bool_decide (u ∈ seen)); eexists; (split; [reflexivity|]); [exact Hst|].
  unfold main_links_from in *. cbn [snd] in *. apply Forall_app. split; [exact Hst|].
  constructor; [|constructor]. exists a. repeat split; assumption.
Qed.

(** X17.  On a page without [article.post] blocks every post comes from a
    link with an [href] none of whose three nearest ancestors has a class that
    contains [recentposts], [mwidgetposts], [widget] or [sidebar]; its
    text has ten characters or more and its reference passes the path
    filter. *)
Theorem X17_fallback_skips_sidebars (list_html : string) :
  find_all (fun t => named "article" t && has_class "post" t) (BeautifulSoup list_html) = [] ->
  exists posts,
    parse_listing BeautifulSoup bracket_ok list_html = Some posts
    /\ Forall (fun p => main_link_of_page bracket_ok (BeautifulSoup list_html) (fst p) (snd p))
         posts.
Proof.
  intros Hart. unfold parse_listing, collect_links. rewrite Hart. cbn [fold_raise length Nat.eqb].
  destruct (fold_raise_ok_in (fallback_step bracket_ok)
              (main_links_from bracket_ok (BeautifulSoup list_html))
              (find_all (fun t => named "a" t && has_attr "href" t) (BeautifulSoup list_html))
              (∅, [])) as ([seen all_links] & -> & Hinv).
  { intros st x Hx. now apply fallback_step_main. }
  { constructor. }
  eexists. split; [reflexivity|]. cbn [option_map snd].
  rewrite order_links_eq. apply Forall_fmap, Forall_take.
  rewrite (filter_split_perm link_has_year all_links). exact Hinv.
Qed.

End Fallback.

(** The link of the sidebar is left out, the link of the main column is
    kept. *)
Lemma X17_fallback_skips_sidebars_witness :
  parse_listing (fun _ => sidebar_doc) (fun _ => true) ""
  = Some [("https://roachag.com/Resources/Corn-Outlook-2025", "Corn Outlook 2025")]
  /\ exists posts,
       parse_listing (fun _ => sidebar_doc) (fun _ => true) "" = Some posts
       /\ Forall (fun p => main_link_of_page (fun _ => true) sidebar_doc (fst p) (snd p)) posts.
Proof.
  split; [vm_compute; reflexivity|].
  apply (X17_fallback_skips_sidebars (fun _ => sidebar_doc) (fun _ => true) "").
  vm_compute. reflexivity.
Defined.
